(** * Host orchestration core of daisycloud-core: a shallow embedding

    The development follows [daisy/api/v1/hosts.py] (the hosts controller)
    and [daisy/api/backends/kolla/config.py] (the kolla password file).
    Python dictionaries are finite maps from strings to Python values,
    exceptions are an error monad threaded through a registry state, and
    the registry service (which lives outside these two files) is a record
    of tables. *)

From stdpp Require Import gmap strings list fin_maps pretty.
From Stdlib Require Import ZArith Lia.
From Stdlib Require Import Ascii.

#[local] Set Warnings "-register-all".
#[local] Open Scope string_scope.
#[local] Open Scope list_scope.
#[local] Open Scope Z_scope.

(** ** Python values *)

Module Py.

Inductive pyval :=
| PNone
| PBool (b : bool)
| PInt (n : Z)
| PStr (s : string)
| PList (l : list pyval)
| PDict (d : gmap string pyval).

Abbreviation dict := (gmap string pyval).

(** [bool(v)]: Python truthiness. *)
Definition truthy (v : pyval) : bool :=
  match v with
  | PNone => false
  | PBool b => b
  | PInt n => negb (n =? 0)
  | PStr s => negb (String.eqb s "")
  | PList l => match l with [] => false | _ :: _ => true end
  | PDict d => negb (Nat.eqb (size d) 0)
  end.

(** [a == b] on the values the controller compares: [None], booleans,
    integers (a boolean is the integer 0 or 1), strings, and lists of
    those. Two mappings are never compared by the code embedded here. *)
Fixpoint py_eqb (a b : pyval) : bool :=
  match a, b with
  | PNone, PNone => true
  | PBool x, PBool y => Bool.eqb x y
  | PInt x, PInt y => x =? y
  | PBool x, PInt y => (if x then 1 else 0) =? y
  | PInt x, PBool y => x =? (if y then 1 else 0)
  | PStr x, PStr y => String.eqb x y
  | PList x, PList y =>
      (fix go (x y : list pyval) : bool :=
         match x, y with
         | [], [] => true
         | u :: x', v :: y' => py_eqb u v && go x' y'
         | _, _ => false
         end) x y
  | _, _ => false
  end.

(** [d.get(k, None)] *)
Definition get (d : dict) (k : string) : pyval := default PNone (d !! k).

(** [k in d] *)
Definition has_key (d : dict) (k : string) : bool :=
  match d !! k with Some _ => true | None => false end.

(** [x in l] for a list [l] *)
Definition py_in (x : pyval) (l : list pyval) : bool := existsb (py_eqb x) l.

(** ** Strings *)

Definition is_digit (c : ascii) : bool :=
  let n := nat_of_ascii c in (48 <=? n)%nat && (n <=? 57)%nat.

Definition is_space (c : ascii) : bool :=
  let n := nat_of_ascii c in
  (n =? 32)%nat || ((9 <=? n)%nat && (n <=? 13)%nat).

Definition chars (s : string) : list ascii := String.list_ascii_of_string s.

(** [s.isdigit()] *)
Definition isdigit (s : string) : bool :=
  match chars s with
  | [] => false
  | cs => forallb is_digit cs
  end.

Definition digit_val (c : ascii) : Z := Z.of_nat (nat_of_ascii c) - 48.

(** The number a string of decimal digits denotes. *)
Definition digits_val (cs : list ascii) : Z :=
  fold_left (fun acc c => 10 * acc + digit_val c) cs 0.

Fixpoint drop_while (p : ascii -> bool) (cs : list ascii) : list ascii :=
  match cs with
  | [] => []
  | c :: r => if p c then drop_while p r else cs
  end.

(** [s.rstrip()], [s.strip()] on the characters of [s] *)
Definition rstrip_chars (cs : list ascii) : list ascii :=
  rev (drop_while is_space (rev cs)).
Definition strip_chars (cs : list ascii) : list ascii :=
  rstrip_chars (drop_while is_space cs).

(** [s.split(sep)] for a one-character separator *)
Fixpoint split_on (sep : ascii) (cs : list ascii) : list (list ascii) :=
  match cs with
  | [] => [[]]
  | c :: r =>
      if Ascii.eqb c sep then [] :: split_on sep r
      else match split_on sep r with
           | w :: ws => (c :: w) :: ws
           | [] => [[c]]
           end
  end.

(** [s.split()]: the maximal runs of non-blank characters *)
Fixpoint words_from (cur : list ascii) (cs : list ascii) : list (list ascii) :=
  match cs with
  | [] => match cur with [] => [] | _ => [rev cur] end
  | c :: r =>
      if is_space c
      then match cur with [] => words_from [] r | _ => rev cur :: words_from [] r end
      else words_from (c :: cur) r
  end.
Definition words (cs : list ascii) : list (list ascii) := words_from [] cs.

Fixpoint starts_with (p s : list ascii) : bool :=
  match p, s with
  | [], _ => true
  | a :: p', b :: s' => Ascii.eqb a b && starts_with p' s'
  | _ :: _, [] => false
  end.

(** [s.find(sub) != -1] *)
Fixpoint contains_chars (sub s : list ascii) : bool :=
  starts_with sub s ||
  match s with
  | [] => false
  | _ :: r => contains_chars sub r
  end.
Definition contains (sub s : string) : bool := contains_chars (chars sub) (chars s).

(** [s.count(c)] for a one-character [c] *)
Definition count_char (c : ascii) (s : string) : nat :=
  List.length (List.filter (fun x => Ascii.eqb x c) (chars s)).

Definition all_digits (cs : list ascii) : bool :=
  match cs with [] => false | _ => forallb is_digit cs end.

(** [int(s)] on a string: blanks around, an optional sign, decimal digits;
    [None] stands for [ValueError]. *)
Definition int_of_chars (cs : list ascii) : option Z :=
  match strip_chars cs with
  | c :: ds =>
      if Ascii.eqb c "-" then
        if all_digits ds then Some (- digits_val ds) else None
      else if Ascii.eqb c "+" then
        if all_digits ds then Some (digits_val ds) else None
      else if all_digits (c :: ds) then Some (digits_val (c :: ds)) else None
  | [] => None
  end.

End Py.
Export Py.

(** ** Errors *)

(** The reason carried by an HTTP error. The rejections of the
    freeze-once-installed policy ("Forbidden to update <field> of <name>
    when os_status is active if you don't want to install os") are kept
    apart from every other message. *)
Inductive reason :=
| Frozen (field : string)
| Why (msg : string).

Inductive http_kind := Forbidden | BadRequest | NotFound | Conflict.

(** Python exceptions that no handler of the controller catches. *)
Inductive pyexc :=
| KeyError (k : string)
| ValueError
| TypeError
| AttributeError
| IndexError
| SyntaxError.

Inductive error :=
| HTTP (kind : http_kind) (why : reason)
| Uncaught (e : pyexc).

Inductive result (A : Type) :=
| Ok (a : A)
| Err (e : error).
Arguments Ok {A} a.
Arguments Err {A} e.

#[export] Instance result_ret : MRet result := fun A a => Ok a.
#[export] Instance result_bind : MBind result :=
  fun A B f m => match m with Ok a => f a | Err e => Err e end.

Definition is_ok {A} (r : result A) : bool :=
  match r with Ok _ => true | Err _ => false end.

(** [raise] unless [b] *)
Definition ensure (b : bool) (e : error) : result unit :=
  if b then Ok tt else Err e.

(** [d[k]] *)
Definition getitem (d : dict) (k : string) : result pyval :=
  match d !! k with
  | Some v => Ok v
  | None => Err (Uncaught (KeyError k))
  end.

(** [int(v)] *)
Definition py_int (v : pyval) : result Z :=
  match v with
  | PInt n => Ok n
  | PBool b => Ok (if b then 1 else 0)
  | PStr s => match int_of_chars (chars s) with
              | Some n => Ok n
              | None => Err (Uncaught ValueError)
              end
  | _ => Err (Uncaught TypeError)
  end.

(** A method of [str] called on [v]: [AttributeError] on anything else. *)
Definition as_str (v : pyval) : result string :=
  match v with
  | PStr s => Ok s
  | _ => Err (Uncaught AttributeError)
  end.

(** A sequence iterated or indexed: [TypeError] on anything else. *)
Definition as_list (v : pyval) : result (list pyval) :=
  match v with
  | PList l => Ok l
  | _ => Err (Uncaught TypeError)
  end.

(** A mapping subscripted or asked with [.get]. *)
Definition as_dict (v : pyval) : result dict :=
  match v with
  | PDict d => Ok d
  | _ => Err (Uncaught TypeError)
  end.

(** [for x in l: f x], stopping at the first exception *)
Fixpoint for_each {A} (f : A -> result unit) (l : list A) : result unit :=
  match l with
  | [] => Ok tt
  | x :: r => f x ;; for_each f r
  end.

(** An operand of integer arithmetic. *)
Definition as_int (v : pyval) : result Z :=
  match v with
  | PInt n => Ok n
  | PBool b => Ok (if b then 1 else 0)
  | _ => Err (Uncaught TypeError)
  end.

(** [k in d.keys()] and [d[k]] for a key that is a value. *)
Definition key_in (k : pyval) (d : dict) : bool :=
  match k with
  | PStr s => has_key d s
  | _ => false
  end.

(** [v.get(k, None)] on a value: [AttributeError] unless [v] is a mapping. *)
Definition get_of (v : pyval) (k : string) : result pyval :=
  match v with
  | PDict d => Ok (get d k)
  | _ => Err (Uncaught AttributeError)
  end.

(** [v[k]] on a value. *)
Definition item_of (v : pyval) (k : string) : result pyval :=
  d ← as_dict v; getitem d k.

(** What [for x in v] visits: the items of a list, the characters of a text,
    the keys of a mapping; [TypeError] on anything else. *)
Definition py_iter (v : pyval) : result (list pyval) :=
  match v with
  | PList l => Ok l
  | PStr s => Ok (List.map (fun c => PStr (String c EmptyString)) (chars s))
  | PDict d => Ok (List.map (fun p => PStr (fst p)) (map_to_list d))
  | _ => Err (Uncaught TypeError)
  end.

(** A list or a mapping cannot be a member of a set. *)
Definition hashable (v : pyval) : bool :=
  match v with
  | PList _ | PDict _ => false
  | _ => true
  end.

(** One of each of the members of [l], up to [==]. *)
Fixpoint distinct (l : list pyval) : list pyval :=
  match l with
  | [] => []
  | x :: r => if py_in x r then distinct r else x :: distinct r
  end.

(** [set(v)], as the list of its members. *)
Definition py_set (v : pyval) : result (list pyval) :=
  l ← py_iter v;
  if forallb hashable l then Ok (distinct l) else Err (Uncaught TypeError).

(** [a.issubset(b)] on two sets *)
Definition issubset (a b : list pyval) : bool := forallb (fun x => py_in x b) a.

(** [x in v] for a text [x]: an item of a list, a key of a mapping, a piece
    of a text. *)
Definition py_contains (x : string) (v : pyval) : result bool :=
  match v with
  | PList l => Ok (py_in (PStr x) l)
  | PDict d => Ok (has_key d x)
  | PStr s => Ok (contains x s)
  | _ => Err (Uncaught TypeError)
  end.

(** [",".join(names)]: every item has to be a text. *)
Definition join_names (names : list pyval) : result unit :=
  for_each (fun name => match name with
                        | PStr _ => Ok tt
                        | _ => Err (Uncaught TypeError)
                        end) names.

(** ["SSH:" + v] *)
Definition ssh_state (v : pyval) : result pyval :=
  match v with
  | PStr s => Ok (PStr (String.append "SSH:" s))
  | _ => Err (Uncaught TypeError)
  end.

(** ** The registry and the state monad of the controller *)

(** Modelled from the spec: the registry client ([daisy.registry.client.v1.api],
    outside the two embedded files) is "a fallible, non-transactional
    key-value/document service" giving CRUD access to hosts, clusters,
    roles, networks and discovery records. Each table is the list of rows
    the corresponding [get_*_detail] call returns, in the order it returns
    them. [log] collects the [LOG.warn] lines of the duplicate-MAC check. *)
Record registry := Registry {
  hosts : list dict;
  discover_hosts : list dict;
  clusters : list dict;
  roles : list dict;
  networks : list dict;
  host_clusters : list dict;
  config_sets : list dict;
  phynames : list dict;
  log : list (list pyval)
}.

Definition set_hosts (f : list dict -> list dict) (st : registry) : registry :=
  Registry (f (hosts st)) (discover_hosts st) (clusters st) (roles st)
    (networks st) (host_clusters st) (config_sets st) (phynames st) (log st).

Definition set_discover_hosts (f : list dict -> list dict) (st : registry) : registry :=
  Registry (hosts st) (f (discover_hosts st)) (clusters st) (roles st)
    (networks st) (host_clusters st) (config_sets st) (phynames st) (log st).

Definition add_phyname (m : dict) (st : registry) : registry :=
  Registry (hosts st) (discover_hosts st) (clusters st) (roles st)
    (networks st) (host_clusters st) (config_sets st) (phynames st ++ [m]) (log st).

Definition add_log (names : list pyval) (st : registry) : registry :=
  Registry (hosts st) (discover_hosts st) (clusters st) (roles st)
    (networks st) (host_clusters st) (config_sets st) (phynames st) (log st ++ [names]).

(** A controller action: it reads and writes the registry and either
    returns or raises; what was written before an exception stays written. *)
Definition M (A : Type) : Type := registry -> result A * registry.

#[export] Instance M_ret : MRet M := fun A a st => (Ok a, st).
#[export] Instance M_bind : MBind M :=
  fun A B f m st =>
    match m st with
    | (Ok a, st') => f a st'
    | (Err e, st') => (Err e, st')
    end.

Definition lift {A} (r : result A) : M A := fun st => (r, st).
Definition raise {A} (e : error) : M A := fun st => (Err e, st).
Definition reading {A} (f : registry -> A) : M A := fun st => (Ok (f st), st).
Definition writing (f : registry -> registry) : M unit := fun st => (Ok tt, f st).

(** [for x in l: f x] in [M] *)
Fixpoint for_eachM {A} (f : A -> M unit) (l : list A) : M unit :=
  match l with
  | [] => mret tt
  | x :: r => f x ;; for_eachM f r
  end.

(** The first row whose [key] column equals [v]. *)
Definition find_row (key : string) (v : pyval) (rows : list dict) : option dict :=
  List.find (fun r => py_eqb (get r key) v) rows.

(** [d.update(patch)]: the keys of [patch] overwrite those of [d]. *)
Definition dict_update (patch d : dict) : dict := patch ∪ d.

(** Modelled from the spec: [UpdateHost(id, patch)] and
    [UpdateDiscoverHost(id, patch)] of the registry overwrite the given
    columns of the row with that id. *)
Definition update_rows (id : pyval) (patch : dict) (rows : list dict) : list dict :=
  List.map (fun r => if py_eqb (get r "id") id then dict_update patch r else r) rows.

(** ** The request *)

(** What the controller reads from the WSGI request: the decision of the
    policy enforcer for each action. *)
Record request := Request { policy_allows : string -> bool }.

Module Hosts.

Definition ML2_TYPE : list pyval :=
  [PStr "ovs"; PStr "dvs"; PStr "ovs,sriov(macvtap)"; PStr "ovs,sriov(direct)";
   PStr "sriov(macvtap)"; PStr "sriov(direct)"].
Definition SUPPORT_HOST_PAGE_SIZE : list pyval := [PStr "2M"; PStr "1G"].
Definition support_resource_type : list pyval :=
  [PStr "baremetal"; PStr "server"; PStr "docker"].

(** [Controller._enforce] *)
Definition _enforce (req : request) (action : string) : M unit :=
  if policy_allows req action then mret tt
  else raise (HTTP Forbidden (Why "policy")).

(** [Controller.check_bond_slaves_validity]. Each member of
    [bond_slaves_lists] is the [slaves] entry of a bond as the request gave
    it; the names are whatever values the interfaces carry. *)
Definition check_bond_slaves_validity
    (bond_slaves_lists : list pyval) (ether_nic_names_list : list pyval)
    : result unit :=
  for_each (fun bond_slaves : pyval =>
    members ← py_set bond_slaves;
    ensure (Nat.eqb (length members) 2)
      (HTTP Forbidden (Why "Bond slaves must be different nic and existed in ether nics in pairs.")) ;;
    ether ← py_set (PList ether_nic_names_list);
    ensure (issubset members ether)
      (HTTP Forbidden (Why "Pay attention: illegal ether nic existed in bond slaves.")))
    bond_slaves_lists.

(** [Controller._get_swap_lv_size_m] *)
Definition _get_swap_lv_size_m (memory_size_m : Z) : Z :=
  if memory_size_m <=? 4096 then 4096
  else if memory_size_m <=? 16384 then 8192
  else if memory_size_m <=? 65536 then 32768
  else 65536.

(** [str(v)] for the values the controller prints into a field. *)
Definition py_str (v : pyval) : string :=
  match v with
  | PNone => "None"
  | PBool true => "True"
  | PBool false => "False"
  | PInt n => pretty n
  | PStr s => s
  | PList _ => "[...]"
  | PDict _ => "{...}"
  end.

(** [int(s.strip().split()[0])]: the number in front of a "<number> <unit>"
    text, as the sizes of disks and memory are stored. *)
Definition leading_int (s : string) : result Z :=
  match words (strip_chars (chars s)) with
  | w :: _ => match int_of_chars w with
              | Some n => Ok n
              | None => Err (Uncaught ValueError)
              end
  | [] => Err (Uncaught IndexError)
  end.

(** [int(s.strip().split(' ')[0])], as the hugepage checks read the memory. *)
Definition leading_int_sp (s : string) : result Z :=
  match split_on " " (strip_chars (chars s)) with
  | w :: _ => match int_of_chars w with
              | Some n => Ok n
              | None => Err (Uncaught ValueError)
              end
  | [] => Err (Uncaught IndexError)
  end.

Fixpoint mapM {A B} (f : A -> result B) (l : list A) : result (list B) :=
  match l with
  | [] => Ok []
  | x :: r => y ← f x; ys ← mapM f r; Ok (y :: ys)
  end.

(** A list of mappings, as an interface list is once evaluated: [.get] on
    anything else raises. *)
Definition dicts_of (v : pyval) : result (list dict) :=
  l ← as_list v;
  mapM (fun x => match x with
                 | PDict d => Ok d
                 | _ => Err (Uncaught AttributeError)
                 end) l.

(** [Controller.validate_ip_format] *)
Definition validate_ip_format (ip_str : pyval) : result unit :=
  s ← as_str ip_str;
  let valid_fromat :=
    Nat.eqb (count_char "." s) 3 &&
    forallb (fun num => all_digits num &&
                        match int_of_chars num with
                        | Some n => (0 <=? n) && (n <? 256)
                        | None => false
                        end)
            (split_on "." (rstrip_chars (chars s))) in
  ensure valid_fromat (HTTP Forbidden (Why "invalid ip format!")).

(** [Controller._compare_assigned_networks_of_interface]: the names of the
    first pair of networks, neither of them vlan-segmented, that share a
    CIDR; [(False, False)] when there is none. *)
Definition _compare_assigned_networks_of_interface
    (interface1 interface2 : list dict) : pyval * pyval :=
  let hits :=
    flat_map (fun network =>
      if py_in (get network "segmentation_type") [PStr "vlan"] then []
      else flat_map (fun network_compare =>
        if py_in (get network_compare "segmentation_type") [PStr "vlan"] then []
        else if truthy (get network "cidr") && truthy (get network_compare "cidr")
                && py_eqb (get network "cidr") (get network_compare "cidr")
             then [(get network "name", get network_compare "name")]
             else []) interface2) interface1 in
  match hits with
  | h :: _ => h
  | [] => (PBool false, PBool false)
  end.

(** [Controller._compare_assigned_networks_between_interfaces]: every
    interface against each later one. *)
Fixpoint _compare_assigned_networks_between_interfaces
    (assigned_networks_of_interfaces : list (list dict)) : result unit :=
  match assigned_networks_of_interfaces with
  | [] => Ok tt
  | i1 :: rest =>
      for_each (fun i2 =>
        let '(network1_name, network2_name) :=
          _compare_assigned_networks_of_interface i1 i2 in
        ensure (negb (truthy network1_name && truthy network2_name))
          (HTTP BadRequest (Why "Networks with same cidr can not be assigned to different interfaces.")))
        rest ;;
      _compare_assigned_networks_between_interfaces rest
  end.

(** [Controller._compute_hugepage_memory] *)
Definition _compute_hugepage_memory (hugepages : pyval) (memory : Z) (hugepagesize : pyval)
    : result unit :=
  m2 ← (if py_eqb hugepagesize (PStr "2M")
        then n ← py_int hugepages; Ok (2 * 1024 * n) else Ok 0);
  hugepage_memory ← (if py_eqb hugepagesize (PStr "1G")
        then n ← py_int hugepages; Ok (1 * 1024 * 1024 * n) else Ok m2);
  ensure (negb (memory <? hugepage_memory))
    (HTTP BadRequest (Why "The memory hugepages used is bigger than total memory.")).

(** The test of [Controller._count_host_pxe_info] *)
Definition is_deployment_marked (interface : dict) : bool :=
  py_eqb (get interface "is_deployment") (PStr "True") ||
  py_eqb (get interface "is_deployment") (PStr "true") ||
  py_eqb (get interface "is_deployment") (PInt 1).

(** The two comprehensions of [Controller._verify_interface_in_same_host] *)
Definition same_mac (interface1 interface2 : dict) : bool :=
  truthy (get interface1 "name") && truthy (get interface1 "mac") &&
  truthy (get interface2 "name") && truthy (get interface2 "mac") &&
  truthy (get interface1 "type") && truthy (get interface2 "type") &&
  negb (py_eqb (get interface1 "name") (get interface2 "name")) &&
  py_eqb (get interface1 "mac") (get interface2 "mac") &&
  negb (py_eqb (get interface1 "type") (PStr "bond")) &&
  negb (py_eqb (get interface2 "type") (PStr "bond")).

Definition same_pci (interface1 interface2 : dict) : bool :=
  truthy (get interface1 "name") && truthy (get interface1 "pci") &&
  truthy (get interface2 "name") && truthy (get interface2 "pci") &&
  truthy (get interface1 "type") && truthy (get interface2 "type") &&
  negb (py_eqb (get interface1 "name") (get interface2 "name")) &&
  py_eqb (get interface1 "pci") (get interface2 "pci") &&
  py_eqb (get interface1 "type") (PStr "ether") &&
  py_eqb (get interface2 "type") (PStr "ether").

Definition names_where (p : dict -> dict -> bool) (interfaces : list dict) : list pyval :=
  flat_map (fun interface1 =>
    flat_map (fun interface2 =>
      if p interface1 interface2 then [get interface1 "name"] else [])
      interfaces) interfaces.

Definition same_mac_list := names_where same_mac.
Definition same_pci_list := names_where same_pci.

(** *** The controller proper *)

(** The outcome of the auto-join step of a host that joins a cluster over
    ssh ([add_ssh_host_to_cluster_and_assigned_network]). Its decisions rest
    on name resolution and CIDR arithmetic and are taken as given: it raises
    [exception.Forbidden], leaves the host alone, or writes the columns
    [cluster] and [interfaces] of that one host. *)
Inductive join_outcome :=
| JoinForbidden
| JoinNothing
| JoinWrite (interfaces : pyval).

(** What the controller calls outside the two embedded files is taken as
    given. [eval_str] is Python's [eval] on the text of a literal (interface
    and role lists arrive as text; [None] when the text does not evaluate),
    [repr] is [unicode(...)] on a list;
    [is_ip_in_cidr], [is_ip_in_ranges] and [get_dvs_interfaces] are
    [daisy.common.utils]; [get_host_interface], [add_host_metadata] and
    [add_discover_host_metadata] are calls of the registry client with
    whatever effect the registry gives them. [get_host] moreover calls
    [vcpu_pin.allocate_cpus], [daisy_cmn.get_ctl_ha_nodes_min_mac] (the
    items of the mapping it answers with, in the order [iteritems] gives
    them), [utils.get_host_min_mac], [daisy_cmn.calc_host_iqn],
    [daisy_cmn.get_cluster_roles_detail] and
    [daisy_cmn.get_service_disk_list] (asked for the disks of one role),
    each of which answers or raises, and sorts with Python's [<=] on two
    values, [py_le]. *)
Record collaborators := Collaborators {
  ext_eval_str : string -> option pyval;
  ext_repr : pyval -> string;
  ext_is_ip_in_cidr : pyval -> pyval -> bool;
  ext_is_ip_in_ranges : pyval -> pyval -> bool;
  ext_get_dvs_interfaces : list pyval -> list pyval;
  ext_get_host_interface : registry -> dict -> list dict;
  ext_add_host_metadata : dict -> M dict;
  ext_add_discover_host_metadata : dict -> M dict;
  ext_auto_join : registry -> pyval -> pyval -> join_outcome;
  ext_allocate_cpus : dict -> result dict;
  ext_get_ctl_ha_nodes_min_mac : registry -> pyval -> result (list (pyval * pyval));
  ext_get_host_min_mac : pyval -> result pyval;
  ext_calc_host_iqn : pyval -> result pyval;
  ext_get_cluster_roles_detail : registry -> pyval -> result (list dict);
  ext_get_service_disk_list : registry -> pyval -> result (list dict);
  ext_py_le : pyval -> pyval -> bool
}.

Section Controller.

Variable env : collaborators.

#[local] Abbreviation eval_str := (ext_eval_str env).
#[local] Abbreviation repr := (ext_repr env).
#[local] Abbreviation is_ip_in_cidr := (ext_is_ip_in_cidr env).
#[local] Abbreviation is_ip_in_ranges := (ext_is_ip_in_ranges env).
#[local] Abbreviation get_dvs_interfaces := (ext_get_dvs_interfaces env).
#[local] Abbreviation get_host_interface := (ext_get_host_interface env).
#[local] Abbreviation add_host_metadata := (ext_add_host_metadata env).
#[local] Abbreviation add_discover_host_metadata := (ext_add_discover_host_metadata env).
#[local] Abbreviation auto_join := (ext_auto_join env).
#[local] Abbreviation allocate_cpus := (ext_allocate_cpus env).
#[local] Abbreviation get_ctl_ha_nodes_min_mac := (ext_get_ctl_ha_nodes_min_mac env).
#[local] Abbreviation get_host_min_mac := (ext_get_host_min_mac env).
#[local] Abbreviation calc_host_iqn := (ext_calc_host_iqn env).
#[local] Abbreviation get_cluster_roles_detail := (ext_get_cluster_roles_detail env).
#[local] Abbreviation get_service_disk_list := (ext_get_service_disk_list env).
#[local] Abbreviation py_le := (ext_py_le env).

Definition eval (v : pyval) : result pyval :=
  match v with
  | PStr s => match eval_str s with
              | Some v => Ok v
              | None => Err (Uncaught SyntaxError)
              end
  | _ => Err (Uncaught TypeError)
  end.

(** [BaseController.get_host_meta_or_404], [get_cluster_meta_or_404] and
    [get_config_set_meta_or_404]: the row with that id, or 404. *)
Definition get_host_meta_or_404 (id : pyval) : M dict :=
  fun st => match find_row "id" id (hosts st) with
            | Some h => (Ok h, st)
            | None => (Err (HTTP NotFound (Why "host not found")), st)
            end.

Definition get_cluster_meta_or_404 (cluster_id : pyval) : M dict :=
  fun st => match find_row "id" cluster_id (clusters st) with
            | Some c => (Ok c, st)
            | None => (Err (HTTP NotFound (Why "cluster not found")), st)
            end.

Definition get_config_set_meta_or_404 (config_set_id : pyval) : M dict :=
  fun st => match find_row "id" config_set_id (config_sets st) with
            | Some c => (Ok c, st)
            | None => (Err (HTTP NotFound (Why "config_set not found")), st)
            end.

(** [Controller.get_cluster_networks_info] *)
Definition get_cluster_networks_info (cluster_id type : pyval) : M (list dict) :=
  all_networks ← reading (fun st =>
    if truthy type
    then List.filter (fun network => py_eqb (get network "type") type) (networks st)
    else networks st);
  if truthy cluster_id
  then mret (List.filter (fun network => py_eqb (get network "cluster_id") cluster_id)
                         all_networks)
  else mret all_networks.

(** [Controller._check_assigned_networks] *)
Definition _check_assigned_networks (cluster_id assigned_networks : pyval)
    : M (list dict) :=
  cluster_networks ← get_cluster_networks_info cluster_id PNone;
  lift (
    ans ← dicts_of assigned_networks;
    mapM (fun assigned_network : dict =>
      ensure (has_key assigned_network "name" && truthy (get assigned_network "name"))
        (HTTP BadRequest (Why "assigned networks are invalid")) ;;
      match List.filter (fun network =>
              py_eqb (get network "name") (get assigned_network "name"))
              cluster_networks with
      | network_info0 :: _ =>
          if truthy (PDict network_info0) then
            (if negb (py_eqb (get network_info0 "network_type") (PStr "DATAPLANE")) then
               if truthy (get network_info0 "cidr") then
                 if has_key assigned_network "ip" && truthy (get assigned_network "ip") then
                   validate_ip_format (get assigned_network "ip") ;;
                   ensure (is_ip_in_cidr (get assigned_network "ip")
                                         (get network_info0 "cidr"))
                     (HTTP BadRequest (Why "The ip for network is not in cidr range."))
                 else Ok tt
               else Err (HTTP BadRequest (Why "error, cidr of network is empty"))
             else Ok tt) ;;
            Ok network_info0
          else Err (HTTP BadRequest (Why "can't find network in cluster"))
      | [] => Err (HTTP BadRequest (Why "can't find network in cluster"))
      end) ans).

(** [Controller._update_networks_phyname] *)
Definition _update_networks_phyname (interface : dict) (cluster_id : pyval) : M unit :=
  cluster_networks ← reading (fun st =>
    List.filter (fun network => py_eqb (get network "cluster_id") cluster_id) (networks st));
  phyname_networks ← lift (
    v ← getitem interface "assigned_networks";
    ans ← dicts_of v;
    name ← getitem interface "name";
    foldl (fun acc (assigned_network : dict) =>
      phy ← acc;
      an_name ← getitem assigned_network "name";
      match List.filter (fun network => py_eqb an_name (get network "name"))
              cluster_networks with
      | network_info :: _ =>
          if truthy (PDict network_info)
          then Ok (<[py_str (get network_info "id") :=
                       PList [get network_info "name"; name]]> phy)
          else Err (HTTP BadRequest (Why "can't find network in cluster"))
      | [] => Err (HTTP BadRequest (Why "can't find network in cluster"))
      end) (Ok (∅ : dict)) ans);
  writing (add_phyname phyname_networks).

(** [Controller._verify_interface_in_same_host]: a duplicated mac is
    logged, a duplicated pci is refused. Either message is built with
    [",".join] over the names it lists. *)
Definition _verify_interface_in_same_host (interfaces : pyval) : M unit :=
  interfaces ← lift (v ← eval interfaces; dicts_of v);
  (if bool_decide (same_mac_list interfaces = [])
   then mret tt
   else lift (join_names (same_mac_list interfaces)) ;;
        writing (add_log (same_mac_list interfaces))) ;;
  if bool_decide (same_pci_list interfaces = [])
  then mret tt
  else lift (join_names (same_pci_list interfaces)) ;;
       raise (HTTP Forbidden (Why "The nic name of interface with same pci, please check!")).

(** [Controller._count_host_pxe_info] *)
Definition _count_host_pxe_info (interfaces : pyval) : result (list dict) :=
  v ← eval interfaces;
  interfaces ← dicts_of v;
  Ok (List.filter is_deployment_marked interfaces).

(** Modelled from the spec: [ListDiscoverHosts(filters)] of the registry
    client ([registry.get_discover_hosts_detail]) answers with the discovery
    records, "optionally filtered by cluster". *)
Definition get_discover_hosts_detail (cluster_id : pyval) : M (list dict) :=
  reading (fun st =>
    if truthy cluster_id
    then List.filter (fun r => py_eqb (get r "cluster_id") cluster_id) (discover_hosts st)
    else discover_hosts st).

(** [Controller._get_host_by_ip] *)
Definition _get_host_by_ip (host_ip : pyval) : M (option dict) :=
  discover_hosts ← get_discover_hosts_detail PNone;
  mret (List.find (fun host => py_eqb (get host "ip") host_ip) discover_hosts).

Fixpoint foldM {A B} (f : B -> A -> M B) (l : list A) (b : B) : M B :=
  match l with
  | [] => mret b
  | x :: r => b' ← f b x; foldM f r b'
  end.

(** [Controller.check_discover_state_with_no_hwm]: the state of the
    discovery record that has the ip of one of the host's interfaces. *)
Definition check_discover_state_with_no_hwm (node : dict) : M dict :=
  let node := <["discover_state" := PNone]> node in
  host_meta ← get_host_meta_or_404 (get node "id");
  if truthy (PDict host_meta) && truthy (get host_meta "interfaces") then
    ips ← lift (interfaces ← as_list (get host_meta "interfaces");
                mapM (fun interface => item_of interface "ip") interfaces);
    let ip_list := List.filter truthy ips in
    foldM (fun node ip =>
      ssh_discover_host ← _get_host_by_ip ip;
      match ssh_discover_host with
      | Some ssh_discover_host =>
          if truthy (PDict ssh_discover_host) then
            state ← lift (ssh_state (get ssh_discover_host "status"));
            mret (<["discover_state" := state]> node)
          else mret node
      | None => mret node
      end) ip_list node
  else mret node.

(** [sorted(l, key=key)]: stable, by Python's order of the keys. *)
Fixpoint insert_sorted {A} (key : A -> pyval) (x : A) (l : list A) : list A :=
  match l with
  | [] => [x]
  | y :: r => if py_le (key x) (key y) then x :: l else y :: insert_sorted key x r
  end.
Definition sorted {A} (key : A -> pyval) (l : list A) : list A :=
  foldr (insert_sorted key) [] l.

(** Lines 622-672 of [Controller.get_host]: the iqn and the luns of a host
    with the role CONTROLLER_HA. [registry.get_clusters_detail] with a
    filter on the name is modelled from the spec ([ListClusters()]). *)
Definition get_host_controller_ha (host_meta : dict) : M dict :=
  host_cluster_name ← lift (getitem host_meta "cluster");
  cluster_info ← reading (fun st =>
    List.filter (fun cluster => py_eqb (get cluster "name") host_cluster_name)
                (clusters st));
  cluster_id ← lift (match cluster_info with
                     | cluster :: _ => getitem cluster "id"
                     | [] => Err (Uncaught IndexError)
                     end);
  ctl_ha_nodes_min_mac ← (fun st => (get_ctl_ha_nodes_min_mac st cluster_id, st));
  let sorted_ha_nodes := sorted snd ctl_ha_nodes_min_mac in
  let sorted_ha_nodes_min_mac := List.map snd sorted_ha_nodes in
  interfaces ← lift (getitem host_meta "interfaces");
  host_min_mac ← lift (get_host_min_mac interfaces);
  host_iqn ← lift (calc_host_iqn host_min_mac);
  let host_meta := <["iqn" := host_iqn]> host_meta in
  cluster_roles ← (fun st => (get_cluster_roles_detail st cluster_id, st));
  role_id ← lift (
    (fix go (roles : list dict) : result pyval :=
       match roles with
       | [] => Ok (PStr "")
       | role :: rest =>
           name ← getitem role "name";
           if py_eqb name (PStr "CONTROLLER_HA") then getitem role "id" else go rest
       end) cluster_roles);
  service_disks ← (fun st => (get_service_disk_list st role_id, st));
  '(db_share_cluster_disk, service_lun_info) ← lift (
    foldl (fun acc (disk : dict) =>
      '(db_share_cluster_disk, service_lun_info) ← acc;
      service ← getitem disk "service";
      db_share_cluster_disk ←
        (if py_eqb service (PStr "db") then
           disk_location ← getitem disk "disk_location";
           Ok (if py_eqb disk_location (PStr "share_cluster")
               then db_share_cluster_disk ++ [disk] else db_share_cluster_disk)
         else Ok db_share_cluster_disk);
      disk_location ← getitem disk "disk_location";
      if py_eqb disk_location (PStr "share") then
        lun ← getitem disk "lun";
        ensure (hashable service) (Uncaught TypeError) ;;
        Ok (db_share_cluster_disk,
            service_lun_info ++ [PDict {[py_str service := lun]}])
      else Ok (db_share_cluster_disk, service_lun_info))
      (Ok ([], [])) service_disks);
  keyed ← lift (mapM (fun disk : dict => lun ← getitem disk "lun"; Ok (disk, lun))
                  db_share_cluster_disk);
  let sorted_db_share_cluster := sorted snd keyed in
  let db_service_lun_info :=
    List.find (fun p : pyval * (dict * pyval) => py_eqb host_min_mac (fst p))
      (zip sorted_ha_nodes_min_mac sorted_db_share_cluster) in
  let service_lun_info :=
    match db_service_lun_info with
    | Some (_, (_, lun)) => service_lun_info ++ [PDict {["db" := lun]}]
    | None => service_lun_info
    end in
  mret (match service_lun_info with
        | [] => host_meta
        | _ :: _ => <["lun" := PList service_lun_info]> host_meta
        end).

(** [Controller.get_host] *)
Definition get_host (req : request) (id : pyval) : M dict :=
  _enforce req "get_host" ;;
  host_meta ← get_host_meta_or_404 id;
  host_meta ← check_discover_state_with_no_hwm host_meta;
  host_vcpu_pin ← lift (allocate_cpus host_meta);
  let host_meta := dict_update host_vcpu_pin host_meta in
  controller_ha ← lift (if has_key host_meta "role"
                        then py_contains "CONTROLLER_HA" (get host_meta "role")
                        else Ok false);
  if controller_ha : bool then get_host_controller_ha host_meta else mret host_meta.

(** The loop of [Controller._verify_interface_among_hosts] over the
    registered hosts. *)
Fixpoint match_exist_nodes (req : request) (host_meta input_host_pxe_info : dict)
    (exist_nodes : list dict) : M (pyval * pyval) :=
  match exist_nodes with
  | [] => mret (PNone, PNone)
  | exist_node :: rest =>
      let id := get exist_node "id" in
      let os_status := get exist_node "os_status" in
      exist_node_info ← get_host req id;
      if negb (truthy (get exist_node_info "interfaces"))
      then match_exist_nodes req host_meta input_host_pxe_info rest
      else
        interfaces ← lift (dicts_of (get exist_node_info "interfaces"));
        match List.find (fun interface =>
                negb (negb (py_eqb (get interface "mac") (get input_host_pxe_info "mac"))
                      || py_eqb (get interface "type") (PStr "bond")))
                interfaces with
        | Some _ =>
            if truthy (get exist_node "dmi_uuid") &&
               negb (py_eqb (get exist_node "dmi_uuid") (get host_meta "dmi_uuid"))
            then raise (HTTP Forbidden
                   (Why "The 'mac' of host interface is exist in db, but 'dmi_uuid' is different."))
            else mret (id, os_status)
        | None => match_exist_nodes req host_meta input_host_pxe_info rest
        end
  end.

Fixpoint mapMM {A B} (f : A -> M B) (l : list A) : M (list B) :=
  match l with
  | [] => mret []
  | x :: r => y ← f x; ys ← mapMM f r; mret (y :: ys)
  end.

(** [Controller._verify_interface_among_hosts]: the id and [os_status] of
    the first registered host one of whose non-bond interfaces has the mac
    of the first deployment-marked interface of the request. *)
Definition _verify_interface_among_hosts (req : request) (host_meta : dict)
    : M (pyval * pyval) :=
  interfaces ← lift (getitem host_meta "interfaces");
  _verify_interface_in_same_host interfaces ;;
  input_host_pxe_info ← lift (_count_host_pxe_info interfaces);
  all_hosts ← reading hosts;
  exist_nodes ← mapMM (fun host => get_host_meta_or_404 (get host "id")) all_hosts;
  match input_host_pxe_info with
  | pxe :: _ => match_exist_nodes req host_meta pxe exist_nodes
  | [] => mret (PNone, PNone)
  end.

(** *** [Controller.update_host], block by block

    The method is one long sequence of guarded blocks over the patch
    [host_meta] (which it updates in place) and the stored host
    [orig_host_meta]. Each block is a function here, in the order of the
    source. Message texts are not built, except that the freeze messages
    subscript [host_meta['name']], which a patch need not carry. *)

(** [host_meta.get('os_status') != 'init' and
     orig_host_meta.get('os_status') == 'active'], the guard of every
    freeze-once-installed block. *)
Definition frozen (host_meta orig_host_meta : dict) : bool :=
  negb (py_eqb (get host_meta "os_status") (PStr "init")) &&
  py_eqb (get orig_host_meta "os_status") (PStr "active").

(** The raise of a freeze block: the message is formatted with
    [host_meta['name']] first. *)
Definition raise_frozen {A} (host_meta : dict) (field : string) : result A :=
  getitem host_meta "name" ;; Err (HTTP Forbidden (Frozen field)).

(** Lines 954-1008: the first look at the interfaces of the patch. (The
    block under [if '':] never runs.) *)
Definition update_host_interfaces_param (host_meta orig_host_meta : dict) : result unit :=
  if has_key host_meta "interfaces" then
    v ← eval (get host_meta "interfaces");
    interfaces_param ← dicts_of v;
    for_each (fun interface_param : dict =>
      ensure (negb (negb (truthy (get interface_param "pci")) &&
                    py_eqb (get interface_param "type") (PStr "ether")))
        (HTTP BadRequest (Why "The Interface need a non-null pci")) ;;
      ensure (negb (has_key interface_param "vswitch_type" &&
                    negb (py_eqb (get interface_param "vswitch_type") (PStr "")) &&
                    negb (py_in (get interface_param "vswitch_type") ML2_TYPE)))
        (HTTP BadRequest (Why "vswitch_type is not supported")))
      interfaces_param ;;
    if truthy (get orig_host_meta "interfaces") then
      interfaces_db ← dicts_of (get orig_host_meta "interfaces");
      let interfaces_db_ether :=
        List.filter (fun interface_db =>
          negb (py_eqb (get interface_db "type") (PStr "bond"))) interfaces_db in
      ensure (negb (length interfaces_param <? length interfaces_db_ether)%nat)
        (HTTP Forbidden (Why "Forbidden to update part of interfaces"))
    else Ok tt
  else Ok tt.

(** Lines 1010-1018: a host that is in a cluster stays in it. *)
Definition update_host_cluster (id : pyval) (host_meta orig_host_meta : dict) : M unit :=
  if has_key host_meta "cluster" then
    get_cluster_meta_or_404 (get host_meta "cluster") ;;
    if py_eqb (get orig_host_meta "status") (PStr "in-cluster") then
      host_cluster ← reading (fun st =>
        List.filter (fun r => py_eqb (get r "host_id") id) (host_clusters st));
      match host_cluster with
      | hc :: _ =>
          if negb (py_eqb (get host_meta "cluster") (get hc "cluster_id"))
          then raise (HTTP Forbidden
                 (Why "Forbidden to add host with status 'in-cluster' in another cluster"))
          else mret tt
      | [] => raise (Uncaught IndexError)
      end
    else mret tt
  else mret tt.

(** Lines 1020-1024 *)
Definition update_host_resource_type (host_meta : dict) : result unit :=
  ensure (negb (has_key host_meta "resource_type" &&
                negb (py_in (get host_meta "resource_type") support_resource_type)))
    (HTTP NotFound (Why "resource type is not supported")).

(** Lines 1026-1055: the root disk. The second component is the local
    variable [root_disk], which only the unfrozen branch binds. *)
Definition update_host_root_disk (host_meta orig_host_meta : dict) : result (dict * pyval) :=
  if frozen host_meta orig_host_meta then
    if truthy (get host_meta "root_disk") &&
       negb (py_eqb (get host_meta "root_disk") (get orig_host_meta "root_disk"))
    then raise_frozen host_meta "root_disk"
    else Ok (<["root_disk" := get orig_host_meta "root_disk"]> host_meta, PNone)
  else
    let '(host_meta, root_disk) :=
      if truthy (get host_meta "root_disk") then (host_meta, get host_meta "root_disk")
      else if truthy (get orig_host_meta "root_disk")
           then (host_meta, PStr (py_str (get orig_host_meta "root_disk")))
           else (<["root_disk" := PStr "sda"]> host_meta, PStr "sda") in
    ensure (truthy (get orig_host_meta "disks"))
      (HTTP NotFound (Why "there is no disks")) ;;
    disks ← as_dict (get orig_host_meta "disks");
    ensure (key_in root_disk disks)
      (HTTP BadRequest (Why "There is no disk named")) ;;
    Ok (host_meta, root_disk).

(** Lines 1084-1119: the size check of the root logical volume, on the
    text [root_lv_size] of the requested size. *)
Definition check_root_lv_size (orig_host_meta : dict) (root_disk root_lv_size : pyval)
    : result Z :=
  s ← as_str root_lv_size;
  if isdigit s then
    root_lv_size ← py_int (PStr s);
    disks ← as_dict (get orig_host_meta "disks");
    disk ← getitem disks (py_str root_disk);
    disk ← as_dict disk;
    size ← getitem disk "size";
    root_disk_storage_size_b_int ← leading_int (py_str size);
    let root_disk_storage_size_m := root_disk_storage_size_b_int / (1024 * 1024) in
    let boot_partition_m := 400 in
    let redundant_partiton_m := 600 in
    let free_root_disk_storage_size_m :=
      root_disk_storage_size_m - boot_partition_m - redundant_partiton_m in
    ensure (negb (free_root_disk_storage_size_m <? (root_lv_size / 4) * 4))
      (HTTP Forbidden (Why "root_lv_size is larger than the free_root_disk_storage_size.")) ;;
    ensure (negb ((root_lv_size / 4) * 4 <? 102400))
      (HTTP Forbidden (Why "root_lv_size is too small, it must be larger than 102400M.")) ;;
    Ok root_lv_size
  else Err (HTTP Forbidden
         (Why "root_lv_size is wrong, please input a number and it must be positive number")).

(** Lines 1057-1119: the root logical volume. The second component is the
    local variable [root_lv_size] (an integer once checked). *)
Definition update_host_root_lv_size (host_meta orig_host_meta : dict) (root_disk : pyval)
    : result (dict * Z) :=
  if frozen host_meta orig_host_meta then
    differs ← (if truthy (get host_meta "root_lv_size")
               then n ← py_int (get host_meta "root_lv_size");
                    Ok (negb (py_eqb (PInt n) (get orig_host_meta "root_lv_size")))
               else Ok false);
    if differs : bool then raise_frozen host_meta "root_lv_size"
    else Ok (<["root_lv_size" := PStr (py_str (get orig_host_meta "root_lv_size"))]> host_meta, 0)
  else
    let '(host_meta, root_lv_size) :=
      if truthy (get host_meta "root_lv_size") then (host_meta, get host_meta "root_lv_size")
      else if truthy (get orig_host_meta "root_lv_size")
           then (host_meta, PStr (py_str (get orig_host_meta "root_lv_size")))
           else (<["root_lv_size" := PStr "102400"]> host_meta, PStr "102400") in
    ensure (truthy (get orig_host_meta "disks"))
      (HTTP NotFound (Why "there is no disks")) ;;
    n ← check_root_lv_size orig_host_meta root_disk root_lv_size;
    Ok (host_meta, n).

(** The test of lines 1156-1163: a multipath or SAN-attached disk. *)
Definition disk_is_remote (disk : pyval) : result bool :=
  d ← item_of disk "disk"; d ← as_str d;
  if contains "-fc-" d then Ok true
  else if contains "-iscsi-" d then Ok true
  else n ← item_of disk "name"; n ← as_str n;
       Ok (contains "mpath" n || contains "spath" n).

(** Lines 1154-1169: the bytes of the local disks. *)
Definition local_disk_storage_size_b (disks : dict) : result Z :=
  foldl (fun acc '(key, disk) =>
    disk_storage_size_b ← acc;
    remote ← disk_is_remote disk;
    if remote : bool then Ok disk_storage_size_b
    else stroage_size_str ← item_of disk "size";
         stroage_size_str ← as_str stroage_size_str;
         stroage_size_b_int ← leading_int stroage_size_str;
         Ok (disk_storage_size_b + stroage_size_b_int))
    (Ok 0) (map_to_list disks).

(** Lines 1178-1198: the sizing hints of the default roles the host has.
    The answer is [(db_lv_size, nova_lv_size, glance_lv_size)]. *)
Definition role_lv_sizes (host_role_names : list pyval) (role_lists : list dict)
    : pyval * pyval * pyval :=
  let roles_of_host :=
    flat_map (fun host_role_name =>
      List.filter (fun role =>
        py_eqb host_role_name (get role "name") &&
        py_eqb (get role "type") (PStr "default")) role_lists) host_role_names in
  foldl (fun '(db_lv_size, nova_lv_size, glance_lv_size) role_of_host =>
    let '(db_lv_size, glance_lv_size) :=
      if py_eqb (get role_of_host "name") (PStr "CONTROLLER_HA") then
        (if truthy (get role_of_host "db_lv_size")
         then get role_of_host "db_lv_size" else db_lv_size,
         if truthy (get role_of_host "glance_lv_size")
         then get role_of_host "glance_lv_size" else glance_lv_size)
      else (db_lv_size, glance_lv_size) in
    let nova_lv_size :=
      if py_eqb (get role_of_host "name") (PStr "COMPUTER")
      then get role_of_host "nova_lv_size" else nova_lv_size in
    (db_lv_size, nova_lv_size, glance_lv_size))
    (PInt 0, PInt 0, PInt 0) roles_of_host.

(** Lines 1152-1232: the size check of the swap logical volume. *)
Definition check_swap_lv_size (host_meta orig_host_meta : dict) (root_lv_size : Z)
    (swap_lv_size : pyval) (role_lists : list dict) : result unit :=
  s ← as_str swap_lv_size;
  if isdigit s then
    swap_lv_size ← py_int (PStr s);
    disks ← as_dict (get orig_host_meta "disks");
    disk_storage_size_b ← local_disk_storage_size_b disks;
    let disk_storage_size_m := disk_storage_size_b / (1024 * 1024) in
    let boot_partition_m := 400 in
    let redundant_partiton_m := 600 in
    host_role_names ←
      (if truthy (get host_meta "role") then eval (get host_meta "role")
       else if truthy (get orig_host_meta "role") then Ok (get orig_host_meta "role")
       else Ok PNone);
    free_disk_storage_size_m ←
      (if truthy host_role_names then
         names ← as_list host_role_names;
         let '(db_lv_size, nova_lv_size, glance_lv_size) := role_lv_sizes names role_lists in
         glance_lv_size ← as_int glance_lv_size;
         nova_lv_size ← as_int nova_lv_size;
         db_lv_size ← as_int db_lv_size;
         Ok (disk_storage_size_m - boot_partition_m - redundant_partiton_m
             - (root_lv_size / 4) * 4 - (glance_lv_size / 4) * 4
             - (nova_lv_size / 4) * 4 - (db_lv_size / 4) * 4)
       else Ok (disk_storage_size_m - boot_partition_m - redundant_partiton_m
                - (root_lv_size / 4) * 4));
    ensure (negb (free_disk_storage_size_m <? (swap_lv_size / 4) * 4))
      (HTTP Forbidden (Why "the sum of swap_lv_size and glance_lv_size and nova_lv_size and db_lv_size is larger than the free_disk_storage_size.")) ;;
    ensure (negb ((swap_lv_size / 4) * 4 <? 2000))
      (HTTP Forbidden (Why "swap_lv_size is too small, it must be larger than 2000M."))
  else Err (HTTP Forbidden
         (Why "swap_lv_size is wrong, please input a number and it must be positive number")).

(** Lines 1121-1232: the swap logical volume. [role_lists] is the answer of
    [registry.get_roles_detail]. *)
Definition update_host_swap_lv_size (host_meta orig_host_meta : dict) (root_lv_size : Z)
    (role_lists : list dict) : result dict :=
  if frozen host_meta orig_host_meta then
    differs ← (if truthy (get host_meta "swap_lv_size")
               then n ← py_int (get host_meta "swap_lv_size");
                    Ok (negb (py_eqb (PInt n) (get orig_host_meta "swap_lv_size")))
               else Ok false);
    if differs : bool then raise_frozen host_meta "swap_lv_size"
    else Ok (<["swap_lv_size" := PStr (py_str (get orig_host_meta "swap_lv_size"))]> host_meta)
  else
    '(host_meta, swap_lv_size) ←
      (if truthy (get host_meta "swap_lv_size")
       then Ok (host_meta, get host_meta "swap_lv_size")
       else if truthy (get orig_host_meta "swap_lv_size")
       then Ok (host_meta, PStr (py_str (get orig_host_meta "swap_lv_size")))
       else
         ensure (truthy (get orig_host_meta "memory"))
           (HTTP NotFound (Why "there is no memory")) ;;
         total ← item_of (get orig_host_meta "memory") "total";
         memory_size_b_int ← leading_int (py_str total);
         let memory_size_m := memory_size_b_int / 1024 in
         let swap_lv_size_m := _get_swap_lv_size_m memory_size_m in
         Ok (<["swap_lv_size" := PStr (py_str (PInt swap_lv_size_m))]> host_meta,
             PStr (py_str (PInt swap_lv_size_m))));
    check_swap_lv_size host_meta orig_host_meta root_lv_size swap_lv_size role_lists ;;
    Ok host_meta.

(** Lines 1234-1254: the root password. *)
Definition update_host_root_pwd (host_meta orig_host_meta : dict) : result dict :=
  if frozen host_meta orig_host_meta then
    if truthy (get host_meta "root_pwd") &&
       negb (py_eqb (get host_meta "root_pwd") (get orig_host_meta "root_pwd"))
    then raise_frozen host_meta "root_pwd"
    else Ok (<["root_pwd" := get orig_host_meta "root_pwd"]> host_meta)
  else
    if negb (truthy (get host_meta "root_pwd")) &&
       negb (truthy (get orig_host_meta "root_pwd"))
    then Ok (<["root_pwd" := PStr "ossdbg1"]> host_meta)
    else Ok host_meta.

(** Lines 1283-1295: every bound of every range of [isolcpus] is a cpu. *)
Definition check_isolcpus (isolcpus cpu_num : pyval) : result unit :=
  s ← as_str isolcpus;
  let isolcpus_lists := List.map (split_on "-") (split_on "," (chars s)) in
  let isolcpus_list := List.concat isolcpus_lists in
  for_each (fun value =>
    match int_of_chars value with
    | None => Err (Uncaught ValueError)
    | Some n =>
        if n <? 0
        then Err (HTTP Forbidden (Why "isolcpus number must be lager than 0 and less than cpu_num"))
        else c ← as_int cpu_num;
             ensure (negb (c - 1 <? n))
               (HTTP Forbidden (Why "isolcpus number must be lager than 0 and less than cpu_num"))
    end) isolcpus_list.

(** Lines 1256-1295: the isolated cpus. *)
Definition update_host_isolcpus (host_meta orig_host_meta : dict) : result dict :=
  if frozen host_meta orig_host_meta then
    if truthy (get host_meta "isolcpus") &&
       negb (py_eqb (get host_meta "isolcpus") (get orig_host_meta "isolcpus"))
    then raise_frozen host_meta "isolcpus"
    else Ok (<["isolcpus" := get orig_host_meta "isolcpus"]> host_meta)
  else
    let '(host_meta, isolcpus) :=
      if truthy (get host_meta "isolcpus") then (host_meta, get host_meta "isolcpus")
      else if truthy (get orig_host_meta "isolcpus")
           then (host_meta, get orig_host_meta "isolcpus")
           else (<["isolcpus" := PNone]> host_meta, PNone) in
    ensure (truthy (get orig_host_meta "cpu"))
      (HTTP NotFound (Why "there is no cpu")) ;;
    cpu_num ← item_of (get orig_host_meta "cpu") "total";
    (if truthy isolcpus then check_isolcpus isolcpus cpu_num else Ok tt) ;;
    Ok host_meta.

(** Lines 1297-1303: the cluster the update is about. [clusters] is the
    answer of [registry.get_clusters_detail]. *)
Definition update_host_cluster_id (host_meta orig_host_meta : dict) (clusters : list dict)
    : pyval :=
  let orig_cluster_name := get orig_host_meta "cluster" in
  let orig_cluster_id :=
    foldl (fun orig_cluster_id cluster =>
      if py_eqb (get cluster "name") orig_cluster_name
      then get cluster "id" else orig_cluster_id) PNone clusters in
  default orig_cluster_id (host_meta !! "cluster").

(** Lines 1305-1326: role names become role ids. *)
Definition update_host_role (host_meta : dict) (role_list : list dict) : result dict :=
  if has_key host_meta "role" then
    if has_key host_meta "cluster" then
      let in_cluster :=
        List.filter (fun role_name =>
          py_eqb (get role_name "cluster_id") (get host_meta "cluster")) role_list in
      host_roles ← match in_cluster with
                   | [] => Ok []
                   | _ :: _ => v ← eval (get host_meta "role"); as_list v
                   end;
      let role_id_list :=
        flat_map (fun role_name =>
          flat_map (fun host_role =>
            if py_eqb (get role_name "name") host_role
            then [get role_name "id"] else []) host_roles) in_cluster in
      ensure (negb (negb (Nat.eqb (length role_id_list) (length host_roles)) &&
                    negb (py_eqb (get host_meta "role") (PStr "[u'']"))))
        (HTTP NotFound (Why "The role of params is not exist, please use the right name")) ;;
      Ok (<["role" := PList role_id_list]> host_meta)
    else Err (HTTP NotFound (Why "cluster params is none"))
  else Ok host_meta.

(** What the loops over the interfaces of a request collect. *)
Record nics := Nics {
  ether_nic_names_list : list pyval;
  bond_nic_names_list : list pyval;
  bond_slaves_lists : list pyval;
  assigned_networks_of_interfaces : list (list dict);
  have_assigned_network : bool;
  have_ip_netmask : bool;
  nics_host_meta : dict
}.

(** [interface['assigned_networks']] is there, is not [['']] and is not
    empty. *)
Definition has_assigned_networks (interface : dict) : bool :=
  has_key interface "assigned_networks" &&
  negb (py_eqb (get interface "assigned_networks") (PList [PStr ""])) &&
  truthy (get interface "assigned_networks").

(** Lines 1335-1393: one turn of the loop over the interfaces of the patch. *)
Definition update_host_interface (cluster_id : pyval) (acc : nics) (interface : dict)
    : M nics :=
  acc ← lift (
    if truthy (get interface "name") then
      if has_key interface "type" && py_eqb (get interface "type") (PStr "bond") then
        slave_list ←
          (if truthy (get interface "slaves") then Ok (get interface "slaves")
           else if truthy (get interface "slave1") && truthy (get interface "slave2")
           then Ok (PList [get interface "slave1"; get interface "slave2"])
           else Err (HTTP Forbidden
                  (Why "Slaves parameter can not be None when nic type was bond.")));
        Ok (Nics (ether_nic_names_list acc)
              (bond_nic_names_list acc ++ [get interface "name"])
              (bond_slaves_lists acc ++ [slave_list])
              (assigned_networks_of_interfaces acc)
              (have_assigned_network acc) (have_ip_netmask acc) (nics_host_meta acc))
      else
        Ok (Nics (ether_nic_names_list acc ++ [get interface "name"])
              (bond_nic_names_list acc)
              (bond_slaves_lists acc) (assigned_networks_of_interfaces acc)
              (have_assigned_network acc) (have_ip_netmask acc) (nics_host_meta acc))
    else Err (HTTP Forbidden (Why "Nic name can not be None.")));
  if has_assigned_networks interface then
    if truthy cluster_id then
      assigned_networks_of_one_interface ←
        _check_assigned_networks cluster_id (get interface "assigned_networks");
      _update_networks_phyname interface cluster_id ;;
      mret (Nics (ether_nic_names_list acc) (bond_nic_names_list acc)
              (bond_slaves_lists acc)
              (assigned_networks_of_interfaces acc ++ [assigned_networks_of_one_interface])
              true (have_ip_netmask acc)
              (<["cluster" := cluster_id]> (nics_host_meta acc)))
    else raise (HTTP BadRequest
           (Why "cluster must be given first when network plane is allocated"))
  else
    mret (Nics (ether_nic_names_list acc) (bond_nic_names_list acc)
            (bond_slaves_lists acc) (assigned_networks_of_interfaces acc ++ [[]])
            (have_assigned_network acc) (have_ip_netmask acc) (nics_host_meta acc)).

(** The end of both interface loops: bond slaves, then unique names. *)
Definition check_nics (acc : nics) : result unit :=
  check_bond_slaves_validity (bond_slaves_lists acc) (ether_nic_names_list acc) ;;
  let nic_name_list := ether_nic_names_list acc ++ bond_nic_names_list acc in
  names ← py_set (PList nic_name_list);
  ensure (Nat.eqb (length names) (length nic_name_list))
    (HTTP Forbidden (Why "Nic name must be unique.")).

(** Lines 1328-1404: the interfaces of the patch. *)
Definition update_host_interfaces (host_meta : dict) (cluster_id : pyval) : M dict :=
  if has_key host_meta "interfaces" then
    host_meta_interfaces ← lift (v ← eval (get host_meta "interfaces"); dicts_of v);
    acc ← foldM (update_host_interface cluster_id) host_meta_interfaces
                (Nics [] [] [] [] false false host_meta);
    lift (_compare_assigned_networks_between_interfaces
            (assigned_networks_of_interfaces acc)) ;;
    lift (check_nics acc) ;;
    mret (nics_host_meta acc)
  else mret host_meta.

Definition os_status_values : list pyval :=
  [PStr "init"; PStr "installing"; PStr "active"; PStr "failed"; PStr "none"].

(** Lines 1406-1410 *)
Definition update_host_os_status (host_meta : dict) : result unit :=
  ensure (negb (has_key host_meta "os_status" &&
                negb (py_in (get host_meta "os_status") os_status_values)))
    (HTTP NotFound (Why "os_status is not valid.")).

(** Lines 1412-1419: default IPMI credentials. *)
Definition update_host_ipmi (host_meta orig_host_meta : dict) : dict :=
  if (has_key host_meta "ipmi_addr" && truthy (get host_meta "ipmi_addr"))
     || truthy (get orig_host_meta "ipmi_addr") then
    let host_meta :=
      if negb (has_key host_meta "ipmi_user") && negb (truthy (get orig_host_meta "ipmi_user"))
      then <["ipmi_user" := PStr "zteroot"]> host_meta else host_meta in
    if negb (has_key host_meta "ipmi_passwd") && negb (truthy (get orig_host_meta "ipmi_passwd"))
    then <["ipmi_passwd" := PStr "superuser"]> host_meta else host_meta
  else host_meta.

(** [orig_host_meta.get('memory', {}).get('total', None)] *)
Definition memory_total (orig_host_meta : dict) : result pyval :=
  get_of (default (PDict ∅) (orig_host_meta !! "memory")) "total".

(** [int(memory.strip().split(' ')[0])] *)
Definition memory_int (memory : pyval) : result Z :=
  s ← as_str memory; leading_int_sp s.

(** Lines 1421-1453: the number of hugepages. *)
Definition update_host_hugepages (host_meta orig_host_meta : dict) : result dict :=
  if frozen host_meta orig_host_meta then
    differs ← (if truthy (get host_meta "hugepages")
               then n ← py_int (get host_meta "hugepages");
                    Ok (negb (py_eqb (PInt n) (get orig_host_meta "hugepages")))
               else Ok false);
    if differs : bool then raise_frozen host_meta "hugepages" else Ok host_meta
  else
    if has_key host_meta "hugepages" then
      memory ← memory_total orig_host_meta;
      ensure (truthy memory) (HTTP NotFound (Why "The host has no memory")) ;;
      let host_meta :=
        if py_eqb (get host_meta "hugepages") PNone
        then <["hugepages" := PInt 0]> host_meta else host_meta in
      n ← py_int (get host_meta "hugepages");
      ensure (negb (n <? 0))
        (HTTP BadRequest (Why "The parameter hugepages must be zero or positive integer.")) ;;
      (if negb (has_key host_meta "hugepagesize") && truthy (get orig_host_meta "hugepagesize")
       then m ← memory_int memory;
            _compute_hugepage_memory (get host_meta "hugepages") m
              (get orig_host_meta "hugepagesize")
       else Ok tt) ;;
      (if negb (has_key host_meta "hugepagesize") &&
          negb (truthy (get orig_host_meta "hugepagesize"))
       then m ← memory_int memory;
            _compute_hugepage_memory (get host_meta "hugepages") m (PStr "1G")
       else Ok tt) ;;
      Ok host_meta
    else Ok host_meta.

(** Lines 1455-1500: the size of a hugepage. *)
Definition update_host_hugepagesize (host_meta orig_host_meta : dict) : result dict :=
  if frozen host_meta orig_host_meta then
    if truthy (get host_meta "hugepagesize") &&
       negb (py_eqb (get host_meta "hugepagesize") (get orig_host_meta "hugepagesize"))
    then raise_frozen host_meta "hugepagesize"
    else Ok host_meta
  else
    if has_key host_meta "hugepagesize" then
      memory ← memory_total orig_host_meta;
      ensure (truthy memory) (HTTP NotFound (Why "The host has no memory")) ;;
      host_meta ←
        (if py_eqb (get host_meta "hugepagesize") PNone
         then Ok (<["hugepagesize" := PStr "1G"]> host_meta)
         else as_str (get host_meta "hugepagesize") ;;
              ensure (py_in (get host_meta "hugepagesize") SUPPORT_HOST_PAGE_SIZE)
                (HTTP BadRequest (Why "The value 0f parameter hugepagesize is not supported.")) ;;
              Ok host_meta);
      (if py_eqb (get host_meta "hugepagesize") (PStr "2M")
       then m ← memory_int memory;
            ensure (negb (m <? 2 * 1024))
              (HTTP Forbidden (Why "The host forbid to use hugepage because it's memory is too small"))
       else Ok tt) ;;
      (if py_eqb (get host_meta "hugepagesize") (PStr "1G")
       then m ← memory_int memory;
            ensure (negb (m <? 1 * 1024 * 1024))
              (HTTP BadRequest (Why "The hugepagesize is too big, you can choose 2M for a try."))
       else Ok tt) ;;
      (if has_key host_meta "hugepages"
       then m ← memory_int memory;
            _compute_hugepage_memory (get host_meta "hugepages") m (get host_meta "hugepagesize")
       else Ok tt) ;;
      (if negb (has_key host_meta "hugepages") && truthy (get orig_host_meta "hugepages")
       then m ← memory_int memory;
            _compute_hugepage_memory (get orig_host_meta "hugepages") m
              (get host_meta "hugepagesize")
       else Ok tt) ;;
      Ok host_meta
    else Ok host_meta.

(** [Controller._check_dvs_huge] *)
Definition _check_dvs_huge (host_meta orig_host_meta : dict) : result unit :=
  let host_interfaces :=
    if truthy (get host_meta "interfaces") then get host_meta "interfaces"
    else get orig_host_meta "interfaces" in
  if truthy host_interfaces then
    host_interfaces ← match host_interfaces with
                      | PList l => Ok l
                      | v => v' ← eval v; as_list v'
                      end;
    let has_dvs := get_dvs_interfaces host_interfaces in
    if truthy (PList has_dvs) then
      small ← (if has_key host_meta "hugepages"
               then n ← py_int (get host_meta "hugepages"); Ok (n <? 10)
               else Ok false);
      ensure (negb (small || (has_key host_meta "hugepagesize" &&
                              negb (py_eqb (get host_meta "hugepagesize") (PStr "1G")))))
        (HTTP Forbidden (Why "hugepages should be larger than 10G when dvs installed on host"))
    else Ok tt
  else Ok tt.

(** Lines 1504-1511: the OS version. *)
Definition update_host_os_version (host_meta orig_host_meta : dict) : result unit :=
  if frozen host_meta orig_host_meta then
    if truthy (get host_meta "os_version") &&
       negb (py_eqb (get host_meta "os_version") (get orig_host_meta "os_version_file"))
    then raise_frozen host_meta "os_version"
    else Ok tt
  else Ok tt.

(** Lines 1513-1517 *)
Definition update_host_config_set (host_meta orig_host_meta : dict) : M unit :=
  if truthy (get host_meta "config_set_id") &&
     negb (py_eqb (get host_meta "config_set_id") (get orig_host_meta "config_set_id"))
  then get_config_set_meta_or_404 (get host_meta "config_set_id") ;; mret tt
  else mret tt.

(** [Controller._ready_to_discover_host], on the patch. (The shell command
    it runs per mac of the stored host does not touch the registry.) *)
Definition _ready_to_discover_host (host_meta orig_host_meta : dict) : dict :=
  let host_meta :=
    if negb (has_key host_meta "role") && has_key orig_host_meta "status" &&
       py_eqb (get orig_host_meta "status") (PStr "with-role") &&
       negb (py_eqb (get orig_host_meta "os_status") (PStr "init"))
    then <["role" := PList []]> host_meta else host_meta in
  let host_meta :=
    if negb (has_key host_meta "os_progress")
    then <["os_progress" := PInt 0]> host_meta else host_meta in
  if negb (has_key host_meta "messages")
  then <["messages" := PStr ""]> host_meta else host_meta.

(** Modelled from the spec: [UpdateHost(id, patch)] of the registry client
    ([registry.update_host_metadata], outside the embedded files) overwrites
    the given columns of the host with that id and answers with the row;
    it fails with not-found when there is no such host. The row takes the
    values of the patch as they are. *)
Definition registry_update_host_metadata (id : pyval) (host_meta : dict) : M dict :=
  fun st =>
    match find_row "id" id (hosts st) with
    | Some h => (Ok (dict_update host_meta h), set_hosts (update_rows id host_meta) st)
    | None => (Err (HTTP NotFound (Why "Failed to find host to update")), st)
    end.

(** The call of [add_ssh_host_to_cluster_and_assigned_network] in
    [update_host], whose [exception.Forbidden] the method turns into 403. *)
Definition run_auto_join (cluster_id id : pyval) : M unit :=
  fun st =>
    match auto_join st cluster_id id with
    | JoinForbidden => (Err (HTTP Forbidden (Why "Forbidden to update host")), st)
    | JoinNothing => (Ok tt, st)
    | JoinWrite interfaces =>
        (Ok tt,
         set_hosts (update_rows id
           (<["cluster" := cluster_id]> {["interfaces" := interfaces]})) st)
    end.

(** Lines 1522-1532: the auto-join of a host without a deployment
    interface, then the write. *)
Definition update_host_persist (id : pyval) (host_meta : dict) : M dict :=
  (if truthy (get host_meta "cluster") then
     host_detail ← get_host_meta_or_404 id;
     interfaces ← lift (dicts_of (get host_detail "interfaces"));
     let pxe_macs :=
       List.filter (fun interface => truthy (get interface "is_deployment")) interfaces in
     match pxe_macs with
     | [] => run_auto_join (get host_meta "cluster") id
     | _ :: _ => mret tt
     end
   else mret tt) ;;
  registry_update_host_metadata id host_meta.

(** [Controller.update_host]. The answer is the row the registry returns
    and the patch as the method leaves it (it updates the caller's mapping
    in place). *)
Definition update_host (req : request) (id : pyval) (host_meta : dict) : M (dict * dict) :=
  _enforce req "update_host" ;;
  orig_host_meta ← get_host_meta_or_404 id;
  lift (ensure (negb (truthy (get orig_host_meta "deleted")))
          (HTTP Forbidden (Why "Forbidden to update deleted host."))) ;;
  lift (update_host_interfaces_param host_meta orig_host_meta) ;;
  update_host_cluster id host_meta orig_host_meta ;;
  lift (update_host_resource_type host_meta) ;;
  '(host_meta, root_disk) ← lift (update_host_root_disk host_meta orig_host_meta);
  '(host_meta, root_lv_size) ←
    lift (update_host_root_lv_size host_meta orig_host_meta root_disk);
  role_lists ← reading roles;
  host_meta ← lift (update_host_swap_lv_size host_meta orig_host_meta root_lv_size role_lists);
  host_meta ← lift (update_host_root_pwd host_meta orig_host_meta);
  host_meta ← lift (update_host_isolcpus host_meta orig_host_meta);
  clusters ← reading clusters;
  let cluster_id := update_host_cluster_id host_meta orig_host_meta clusters in
  role_list ← reading roles;
  host_meta ← lift (update_host_role host_meta role_list);
  host_meta ← update_host_interfaces host_meta cluster_id;
  lift (update_host_os_status host_meta) ;;
  let host_meta := update_host_ipmi host_meta orig_host_meta in
  host_meta ← lift (update_host_hugepages host_meta orig_host_meta);
  host_meta ← lift (update_host_hugepagesize host_meta orig_host_meta);
  lift (_check_dvs_huge host_meta orig_host_meta) ;;
  lift (update_host_os_version host_meta orig_host_meta) ;;
  update_host_config_set host_meta orig_host_meta ;;
  let host_meta :=
    if py_eqb (get host_meta "os_status") (PStr "init")
    then _ready_to_discover_host host_meta orig_host_meta else host_meta in
  row ← update_host_persist id host_meta;
  mret (row, host_meta).

(** *** Adding a host *)

(** [Controller._set_pxe_interface_for_host]: the one interface whose ip is
    in the deployment network becomes the deployment interface. *)
Definition _set_pxe_interface_for_host (host_meta : dict) : M dict :=
  all_networks ← get_cluster_networks_info PNone (PStr "system");
  let template_deploy_network :=
    List.filter (fun network =>
      py_eqb (get network "type") (PStr "system") &&
      py_eqb (get network "name") (PStr "DEPLOYMENT")) all_networks in
  match template_deploy_network with
  | [] => raise (HTTP NotFound (Why "error, can't find deployment network of system"))
  | network :: _ =>
      let dhcp_cidr := get network "cidr" in
      let dhcp_ip_ranges := get network "ip_ranges" in
      interfaces ← lift (v ← getitem host_meta "interfaces"; v ← eval v; dicts_of v);
      let marked :=
        List.map (fun interface : dict =>
          if has_key interface "ip" && truthy (get interface "ip") then
            let ip_in_cidr := is_ip_in_cidr (get interface "ip") dhcp_cidr in
            let ip_in_ranges :=
              if truthy dhcp_ip_ranges
              then is_ip_in_ranges (get interface "ip") dhcp_ip_ranges else true in
            if ip_in_cidr && ip_in_ranges
            then (<["is_deployment" := PInt 1]> interface, true)
            else (interface, false)
          else (interface, false)) interfaces in
      let deployment_interface_count :=
        length (List.filter (fun p : dict * bool => snd p) marked) in
      if negb (Nat.eqb deployment_interface_count 1)
      then raise (HTTP BadRequest (Why "error, can't find dhcp ip or find more than one dhcp ip"))
      else mret (<["interfaces" :=
                     PStr (repr (PList (List.map (fun p : dict * bool => PDict (fst p))
                                          marked)))]> host_meta)
  end.

(** Lines 335-421: one turn of the loop of [_check_add_host_interfaces]. *)
Definition add_host_interface (cluster_id : pyval) (acc : nics) (interface : dict)
    : M nics :=
  lift (ensure (negb (negb (py_eqb (get interface "type") (PStr "bond")) &&
                      negb (truthy (get interface "mac"))))
          (HTTP BadRequest (Why "The ether interface need a non-null mac"))) ;;
  lift (ensure (negb (py_eqb (get interface "type") (PStr "ether") &&
                      negb (truthy (get interface "pci"))))
          (HTTP BadRequest (Why "The Interface need a non-null pci"))) ;;
  acc ← lift (
    if truthy (get interface "name") then
      if has_key interface "type" && py_eqb (get interface "type") (PStr "bond") then
        slaves ←
          (if truthy (get interface "slaves") then Ok (get interface "slaves")
           else Err (HTTP Forbidden
                  (Why "Slaves parameter can not be None when nic type was bond.")));
        Ok (Nics (ether_nic_names_list acc)
              (bond_nic_names_list acc ++ [get interface "name"])
              (bond_slaves_lists acc ++ [slaves])
              (assigned_networks_of_interfaces acc)
              (have_assigned_network acc) (have_ip_netmask acc) (nics_host_meta acc))
      else
        Ok (Nics (ether_nic_names_list acc ++ [get interface "name"])
              (bond_nic_names_list acc)
              (bond_slaves_lists acc) (assigned_networks_of_interfaces acc)
              (have_assigned_network acc) (have_ip_netmask acc) (nics_host_meta acc))
    else Err (HTTP Forbidden (Why "Nic name can not be None.")));
  assigned_networks_of_one_interface ←
    (if has_assigned_networks interface then
       if truthy cluster_id
       then _check_assigned_networks cluster_id (get interface "assigned_networks")
       else raise (HTTP BadRequest
              (Why "cluster must be given first when network plane is allocated"))
     else mret []);
  let have_assigned_network :=
    have_assigned_network acc || has_assigned_networks interface in
  let have_ip_netmask :=
    have_ip_netmask acc ||
    (has_key interface "ip" && truthy (get interface "ip") &&
     has_key interface "netmask" && truthy (get interface "netmask")) in
  host_meta ←
    (if has_key interface "mac" && has_key interface "ip" then
       host_infos ← reading (fun st => get_host_interface st (nics_host_meta acc));
       mret (foldl (fun host_meta (host_info : dict) =>
               if has_key host_info "host_id"
               then <["id" := get host_info "host_id"]> host_meta else host_meta)
             (nics_host_meta acc) host_infos)
     else mret (nics_host_meta acc));
  lift (ensure (negb (has_key interface "vswitch_type" &&
                      negb (py_eqb (get interface "vswitch_type") (PStr "")) &&
                      negb (py_in (get interface "vswitch_type") ML2_TYPE)))
          (HTTP BadRequest (Why "vswitch_type is not supported"))) ;;
  mret (Nics (ether_nic_names_list acc) (bond_nic_names_list acc) (bond_slaves_lists acc)
          (assigned_networks_of_interfaces acc ++ [assigned_networks_of_one_interface])
          have_assigned_network have_ip_netmask host_meta).

(** [Controller._check_add_host_interfaces]. The answer is the request as
    the method leaves it; what the method itself returns is dropped by its
    only caller, [add_host]. *)
Definition _check_add_host_interfaces (req : request) (host_meta : dict) : M dict :=
  if has_key host_meta "interfaces" then
    host_meta_interfaces ← lift (v ← eval (get host_meta "interfaces"); dicts_of v);
    let cluster_id := get host_meta "cluster" in
    '(exist_id, os_status) ← _verify_interface_among_hosts req host_meta;
    if truthy exist_id then
      if py_eqb os_status (PStr "active")
      then raise (HTTP BadRequest
             (Why "The host os_status is active, forbidden ironic to add host."))
      else
        let host_meta := <["id" := exist_id]> host_meta in
        '(_, host_meta) ← update_host req exist_id host_meta;
        mret host_meta
    else
      acc ← foldM (add_host_interface cluster_id) host_meta_interfaces
                  (Nics [] [] [] [] false false host_meta);
      lift (_compare_assigned_networks_between_interfaces
              (assigned_networks_of_interfaces acc)) ;;
      lift (ensure (have_assigned_network acc || have_ip_netmask acc)
              (HTTP BadRequest
                 (Why "ip and netmask must be given when network plane is not allocated"))) ;;
      lift (check_nics acc) ;;
      mret (nics_host_meta acc)
  else mret host_meta.

(** Lines 490-514 of [add_host]: role names become role ids. *)
Definition add_host_role (host_meta : dict) (role_list : list dict) : result dict :=
  if has_key host_meta "role" && truthy (get host_meta "role") then
    if has_key host_meta "cluster" then
      let in_cluster :=
        List.filter (fun role_name =>
          py_eqb (get role_name "cluster_id") (get host_meta "cluster")) role_list in
      host_roles ← match in_cluster with
                   | [] => Ok []
                   | _ :: _ => v ← eval (get host_meta "role"); as_list v
                   end;
      let role_id_list :=
        flat_map (fun role_name =>
          flat_map (fun host_role =>
            if py_eqb (get role_name "name") host_role
            then [get role_name "id"] else []) host_roles) in_cluster in
      ensure (Nat.eqb (length role_id_list) (length host_roles))
        (HTTP BadRequest (Why "The role of params is not exist, please use the right name")) ;;
      Ok (<["role" := PList role_id_list]> host_meta)
    else Err (HTTP BadRequest (Why "cluster params is none"))
  else Ok host_meta.

(** Lines 551-554 of [add_host]: the hardware facts arrive as text. *)
Definition eval_ironic_keywords (host_meta : dict) : result dict :=
  foldl (fun acc ironic_keyword =>
    host_meta ← acc;
    if truthy (get host_meta ironic_keyword)
    then v ← eval (get host_meta ironic_keyword); Ok (<[ironic_keyword := v]> host_meta)
    else Ok host_meta)
    (Ok host_meta) ["cpu"; "system"; "memory"; "pci"; "disks"; "devices"].

(** Lines 483-517 of [add_host]: what comes before the interfaces. *)
Definition add_host_begin (req : request) (host_meta : dict) : M dict :=
  _enforce req "add_host" ;;
  (if truthy (get host_meta "cluster")
   then get_cluster_meta_or_404 (get host_meta "cluster") ;; mret tt
   else mret tt) ;;
  role_list ← reading roles;
  host_meta ← lift (add_host_role host_meta role_list);
  if py_eqb (get host_meta "os_status") (PStr "init")
  then _set_pxe_interface_for_host host_meta else mret host_meta.

(** Lines 521-558 of [add_host]: what comes after the interfaces. *)
Definition add_host_end (host_meta : dict) : M dict :=
  host_meta ← lift (
    if has_key host_meta "resource_type" then
      ensure (py_in (get host_meta "resource_type") support_resource_type)
        (HTTP BadRequest (Why "resource type is not supported")) ;;
      Ok host_meta
    else Ok (<["resource_type" := PStr "baremetal"]> host_meta));
  lift (ensure (negb (has_key host_meta "os_status" &&
                      negb (py_in (get host_meta "os_status") os_status_values)))
          (HTTP BadRequest (Why "os_status is not valid."))) ;;
  let host_meta :=
    if has_key host_meta "ipmi_addr" && truthy (get host_meta "ipmi_addr") then
      let host_meta :=
        if negb (has_key host_meta "ipmi_user")
        then <["ipmi_user" := PStr "zteroot"]> host_meta else host_meta in
      if negb (has_key host_meta "ipmi_passwd")
      then <["ipmi_passwd" := PStr "superuser"]> host_meta else host_meta
    else host_meta in
  lift (_check_dvs_huge host_meta ∅) ;;
  (if truthy (get host_meta "config_set_id")
   then get_config_set_meta_or_404 (get host_meta "config_set_id") ;; mret tt
   else mret tt) ;;
  host_meta ← lift (eval_ironic_keywords host_meta);
  add_host_metadata host_meta.

(** [Controller.add_host]. It goes on after [_check_add_host_interfaces]
    whatever that method did. *)
Definition add_host (req : request) (host_meta : dict) : M dict :=
  host_meta ← add_host_begin req host_meta;
  host_meta ← _check_add_host_interfaces req host_meta;
  add_host_end host_meta.

(** *** Discovery *)

(** Modelled from the spec: [ListAllHostInterfaces(filters)] of the registry
    client ([registry.get_all_host_interfaces]) with no filter answers with
    the interfaces of the registered hosts, each with the id of its host. *)
Definition get_all_host_interfaces : M (list dict) :=
  reading (fun st =>
    flat_map (fun host =>
      match get host "interfaces" with
      | PList l =>
          flat_map (fun i => match i with
                             | PDict d => [<["host_id" := get host "id"]> d]
                             | _ => []
                             end) l
      | _ => []
      end) (hosts st)).

(** Modelled from the spec: [UpdateDiscoverHost(id, patch)] of the registry
    client ([registry.update_discover_host_metadata]). *)
Definition update_discover_host_metadata (id : pyval) (patch : dict) : M dict :=
  fun st =>
    match find_row "id" id (discover_hosts st) with
    | Some h => (Ok (dict_update patch h), set_discover_hosts (update_rows id patch) st)
    | None => (Err (HTTP NotFound (Why "discover host not found")), st)
    end.

(** [Controller.update_progress_to_db] *)
Definition update_progress_to_db (update_info discover_host_meta : dict) : M unit :=
  let discover : dict :=
    <["message" := get update_info "message"]> {["status" := get update_info "status"]} in
  let discover :=
    if truthy (get update_info "host_id")
    then <["host_id" := get update_info "host_id"]> discover else discover in
  update_discover_host_metadata (get discover_host_meta "id") discover ;;
  mret tt.

(** The first loop of [Controller.discover_host_bin]. *)
Definition mark_discovering (discover_host_meta_list : list dict) : M unit :=
  for_eachM (fun discover_host : dict =>
    if negb (py_eqb (get discover_host "status") (PStr "DISCOVERY_SUCCESSFUL")) then
      update_progress_to_db
        (<["host_id" := PStr "None"]>
           (<["message" := PStr "DISCOVERING"]> {["status" := PStr "DISCOVERING"]}))
        discover_host
    else mret tt) discover_host_meta_list.

(** The second loop of [Controller.discover_host_bin]: the answer is the
    list of the records a probe thread ([thread_bin]) is started for. *)
Fixpoint start_probes (host_interfaces discover_host_meta_list : list dict)
    : M (list dict) :=
  match discover_host_meta_list with
  | [] => mret []
  | discover_host_meta :: rest =>
      let existed_host_ip := List.map (fun host => get host "ip") host_interfaces in
      if py_in (get discover_host_meta "ip") existed_host_ip then
        let host_id_list :=
          List.map (fun host => get host "host_id")
            (List.filter (fun host =>
               py_eqb (get discover_host_meta "ip") (get host "ip")) host_interfaces) in
        match host_id_list with
        | host_id :: _ =>
            update_progress_to_db
              (<["host_id" := host_id]>
                 (<["message" := PStr (String.append "discover host for "
                                        (String.append (py_str (get discover_host_meta "ip"))
                                                       " successfully!"))]>
                    {["status" := PStr "DISCOVERY_SUCCESSFUL"]}))
              discover_host_meta ;;
            start_probes host_interfaces rest
        | [] => raise (Uncaught IndexError)
        end
      else if negb (py_eqb (get discover_host_meta "status") (PStr "DISCOVERY_SUCCESSFUL"))
      then threads ← start_probes host_interfaces rest;
           mret (discover_host_meta :: threads)
      else start_probes host_interfaces rest
  end.

(** [Controller.discover_host_bin], up to the start of the probe threads.
    What the threads do afterwards ([thread_bin]: remote shell commands,
    then a write to the thread's own discovery record) is not part of this
    function's own effect. *)
Definition discover_host_bin (host_meta : dict) : M (list dict) :=
  let cluster_id := get host_meta "cluster_id" in
  discover_host_meta_list ← get_discover_hosts_detail cluster_id;
  host_interfaces ← get_all_host_interfaces;
  mark_discovering discover_host_meta_list ;;
  start_probes host_interfaces discover_host_meta_list.

(** [Controller._get_discover_host_ip] *)
Definition _get_discover_host_ip : M (list pyval) :=
  discover_hosts ← get_discover_hosts_detail PNone;
  mret (List.map (fun host => get host "ip")
          (List.filter (fun host => truthy (get host "ip")) discover_hosts)).

(** [Controller.add_discover_host] *)
Definition add_discover_host (req : request) (host_meta : dict) : M dict :=
  _enforce req "add_discover_host" ;;
  if negb (truthy (get host_meta "ip")) then
    raise (HTTP BadRequest (Why "IP parameter can not be None."))
  else
    discover_hosts_ip ← _get_discover_host_ip;
    if py_in (get host_meta "ip") discover_hosts_ip then
      host ← _get_host_by_ip (get host_meta "ip");
      match host with
      | Some host =>
          if truthy (PDict host) &&
             negb (py_eqb (get host "status") (PStr "DISCOVERY_SUCCESSFUL")) then
            let host_info : dict :=
              <["ip" := default (get host "ip") (host_meta !! "ip")]>
              (<["passwd" := default (get host "passwd") (host_meta !! "passwd")]>
              (<["user" := default (get host "user") (host_meta !! "user")]>
              (<["status" := PStr "init"]>
              {["message" := PStr "None"]}))) in
            update_discover_host_metadata (get host "id") host_info
          else raise (HTTP Forbidden
                 (Why "ip already existed and this host has been discovered successfully."))
      | None => raise (HTTP Forbidden
                 (Why "ip already existed and this host has been discovered successfully."))
      end
    else
      lift (validate_ip_format (get host_meta "ip")) ;;
      let host_meta :=
        if negb (truthy (get host_meta "user"))
        then <["user" := PStr "root"]> host_meta else host_meta in
      lift (ensure (truthy (get host_meta "passwd"))
              (HTTP BadRequest (Why "PASSWD parameter can not be None."))) ;;
      let host_meta :=
        if negb (truthy (get host_meta "status"))
        then <["status" := PStr "init"]> host_meta else host_meta in
      add_discover_host_metadata host_meta.

End Controller.

End Hosts.

(** ** The kolla password file ([daisy/api/backends/kolla/config.py]) *)

Module KollaConfig.

Definition uuid_keys : list string := ["ceph_cluster_fsid"; "rbd_secret_uuid"].
Definition ssh_keys : list string := ["nova_ssh_key"].
Definition blank_keys : list string := ["docker_registry_password"].
Definition keystone_admin_password : list string := ["keystone_admin_password"].
Definition length_of_password : nat := 40.

Definition mem (k : string) (l : list string) : bool := existsb (String.eqb k) l.

(** [string.ascii_letters + string.digits] *)
Definition alphabet : list ascii :=
  chars "abcdefghijklmnopqrstuvwxyzABCDEFGHIJKLMNOPQRSTUVWXYZ0123456789".

Section Entropy.

(** The sources of randomness, each a function of the number of draws made
    so far: [generate_RSA()], [str(uuid.uuid4())] and the position that
    [random.SystemRandom().choice] picks in the sequence it is given. *)
Variable generate_RSA : nat -> string * string.
Variable uuid4 : nat -> string.
Variable choice : nat -> nat.

Definition pick (tick : nat) : ascii :=
  nth (choice tick mod length alphabet) alphabet "a"%char.

(** [[choice(alphabet) for n in range(length)]] *)
Fixpoint random_chars (n tick : nat) : list ascii :=
  match n with
  | O => []
  | S n' => pick tick :: random_chars n' (S tick)
  end.

Definition random_password (tick : nat) : string :=
  String.string_of_list_ascii (random_chars length_of_password tick).

Definition keypair (tick : nat) : pyval :=
  let '(private_key, public_key) := generate_RSA tick in
  PDict (<["private_key" := PStr private_key]> {["public_key" := PStr public_key]}).

(** One turn of the loop of [update_password_yml] over [passwords.items()]:
    the draws made so far and the mapping, before and after. *)
Definition fill (k : string) (v : pyval) (st : nat * dict) : result (nat * dict) :=
  let '(tick, passwords) := st in
  regenerate ←
    (if mem k ssh_keys then
       if py_eqb v PNone then Ok true
       else public_key ← get_of v "public_key";
            if py_eqb public_key PNone
            then private_key ← get_of v "private_key"; Ok (py_eqb private_key PNone)
            else Ok false
     else Ok false);
  if regenerate : bool then
    Ok (S tick, <[k := keypair tick]> passwords)
  else if py_eqb v PNone then
    if mem k blank_keys then Ok (tick, passwords)
    else
      let '(tick, passwords) :=
        if mem k uuid_keys
        then (S tick, <[k := PStr (uuid4 tick)]> passwords)
        else (tick, passwords) in
      if mem k keystone_admin_password
      then Ok (tick, <[k := PStr "keystone"]> passwords)
      else Ok ((tick + length_of_password)%nat, <[k := PStr (random_password tick)]> passwords)
  else Ok (tick, passwords).

Definition fill_all (items : list (string * pyval)) (st : nat * dict)
    : result (nat * dict) :=
  foldl (fun acc '(k, v) => st ← acc; fill k v st) (Ok st) items.

(** [update_password_yml], from the mapping read from
    [/etc/kolla/passwords.yml] to the mapping written back. *)
Definition update_password_yml (passwords : dict) : result dict :=
  st ← fill_all (map_to_list passwords) (O, passwords);
  Ok (snd st).

End Entropy.

End KollaConfig.

Import Hosts.
Import KollaConfig.

(** * Vocabulary of the statements *)

(** ** The two refusals of the root logical volume check *)

Definition too_large : error :=
  HTTP Forbidden (Why "root_lv_size is larger than the free_root_disk_storage_size.").

Definition too_small : error :=
  HTTP Forbidden (Why "root_lv_size is too small, it must be larger than 102400M.").

(** ** Bond slaves and duplicated interfaces *)

(** What [check_bond_slaves_validity] asks of one bond. *)
Definition slaves_ok (ether_nic_names_list : list pyval) (bond_slaves : pyval) : Prop :=
  exists members ether,
    py_set bond_slaves = Ok members /\ length members = 2%nat /\
    py_set (PList ether_nic_names_list) = Ok ether /\ issubset members ether = true.

Definition same_pci_error : error :=
  HTTP Forbidden (Why "The nic name of interface with same pci, please check!").

(** Every interface that has a name has a text as its name. *)
Definition text_names (interfaces : list dict) : Prop :=
  Forall (fun interface : dict =>
            truthy (get interface "name") = true -> exists s, get interface "name" = PStr s)
         interfaces.

(** The state after the duplicate-MAC warning, if there is one. *)
Definition logged (interfaces : list dict) (st : registry) : registry :=
  if bool_decide (same_mac_list interfaces = []) then st
  else add_log (same_mac_list interfaces) st.

(** ** Row updates of the discovery batch *)

(** One registry update seen from one row. *)
Definition touch (id : pyval) (patch r : dict) : dict :=
  if py_eqb (get r "id") id then dict_update patch r else r.

Definition discovering_patch : dict :=
  <["host_id" := PStr "None"]>
    (<["message" := PStr "DISCOVERING"]> {["status" := PStr "DISCOVERING"]}).

Definition successful_patch (ip host_id : pyval) : dict :=
  <["host_id" := host_id]>
    (<["message" := PStr (String.append "discover host for "
                           (String.append (py_str ip) " successfully!"))]>
       {["status" := PStr "DISCOVERY_SUCCESSFUL"]}).

Definition is_successful (r : dict) : bool :=
  py_eqb (get r "status") (PStr "DISCOVERY_SUCCESSFUL").

(** The rows a registry table holds after a list of updates. *)
Definition mark_rows (loaded rows : list dict) : list dict :=
  foldl (fun rows r =>
    if is_successful r then rows else update_rows (get r "id") discovering_patch rows)
    rows loaded.

Definition hit (host_interfaces : list dict) (r : dict) : option pyval :=
  match List.filter (fun host => py_eqb (get r "ip") (get host "ip")) host_interfaces with
  | host :: _ => Some (get host "host_id")
  | [] => None
  end.

Definition probe_rows (host_interfaces loaded rows : list dict) : list dict :=
  foldl (fun rows r =>
    match hit host_interfaces r with
    | Some host_id => update_rows (get r "id") (successful_patch (get r "ip") host_id) rows
    | None => rows
    end) rows loaded.

Definition well_keyed (rows : list dict) : Prop :=
  Forall (fun r => exists j, get r "id" = PStr j) rows.

(** Every loaded record is a row of the table, whose ids are strings. *)
Definition present (loaded rows : list dict) : Prop :=
  Forall (fun r => exists j, get r "id" = PStr j /\
                     exists h, In h rows /\ get h "id" = PStr j) loaded.

(** The records a probe thread is started for. *)
Definition probed (host_interfaces loaded : list dict) : list dict :=
  List.filter (fun r =>
    negb (py_in (get r "ip") (List.map (fun host => get host "ip") host_interfaces)) &&
    negb (is_successful r)) loaded.

(** ** What a discovery batch loads *)

(** A sequence of row-wise updates, seen from one row. *)
Definition run_steps (fs : list (dict -> dict)) (r : dict) : dict :=
  foldl (fun r f => f r) r fs.

Definition mark_step (r : dict) : dict -> dict :=
  if is_successful r then (fun x => x) else touch (get r "id") discovering_patch.

Definition probe_step (host_interfaces : list dict) (r : dict) : dict -> dict :=
  match hit host_interfaces r with
  | Some host_id => touch (get r "id") (successful_patch (get r "ip") host_id)
  | None => fun x => x
  end.

(** The records a batch loads and the interfaces it compares them with. *)
Definition loaded_records (cluster_id : pyval) (st : registry) : list dict :=
  if truthy cluster_id
  then List.filter (fun r => py_eqb (get r "cluster_id") cluster_id) (discover_hosts st)
  else discover_hosts st.

Definition registered_interfaces (st : registry) : list dict :=
  flat_map (fun host =>
    match get host "interfaces" with
    | PList l =>
        flat_map (fun i => match i with
                           | PDict d => [<["host_id" := get host "id"]> d]
                           | _ => []
                           end) l
    | _ => []
    end) (hosts st).

(** ** Resubmitting a discover host *)

(** The columns [add_discover_host] writes on a resubmission. *)
Definition reset_info (host_meta host : dict) : dict :=
  <["ip" := default (get host "ip") (host_meta !! "ip")]>
  (<["passwd" := default (get host "passwd") (host_meta !! "passwd")]>
  (<["user" := default (get host "user") (host_meta !! "user")]>
  (<["status" := PStr "init"]>
  {["message" := PStr "None"]}))).

Definition already_discovered : error :=
  HTTP Forbidden (Why "ip already existed and this host has been discovered successfully.").

(** ** The password file *)

(** The test of the first branch of the loop: an ssh key without a value,
    or with a pair whose two halves are both missing. *)
Definition wants_keypair (k : string) (v : pyval) : bool :=
  mem k ssh_keys &&
  (py_eqb v PNone ||
   match v with
   | PDict d => py_eqb (get d "public_key") PNone && py_eqb (get d "private_key") PNone
   | _ => false
   end).

(** What one turn of the loop leaves under the key it visits. The value of
    a UUID-typed key is left open here. *)
Definition filled (generate_RSA : nat -> string * string) (choice : nat -> nat)
    (k : string) (v : pyval) (o : option pyval) : Prop :=
  if wants_keypair k v then exists t, o = Some (keypair generate_RSA t)
  else if py_eqb v PNone then
    if mem k blank_keys then o = Some PNone
    else if mem k keystone_admin_password then o = Some (PStr "keystone")
    else if mem k uuid_keys then True
    else exists t, o = Some (PStr (random_password choice t))
  else o = Some v.

Definition readable (k : string) (v : pyval) : Prop :=
  mem k ssh_keys = true -> v = PNone \/ exists d, v = PDict d.

(** The letters and digits, by their codes. *)
Definition is_alnum (c : ascii) : bool :=
  let n := nat_of_ascii c in
  ((48 <=? n) && (n <=? 57) || (65 <=? n) && (n <=? 90) || (97 <=? n) && (n <=? 122))%nat.

Definition demo_rsa (tick : nat) : string * string := ("PRIVATE", "PUBLIC").

Definition demo_uuid4 (tick : nat) : string := "123e4567-e89b-42d3-a456-426614174000".

Definition demo_choice (tick : nat) : nat := O.

Definition demo_passwords : dict :=
  list_to_map
    [("nova_ssh_key",
      PDict (list_to_map [("private_key", PNone); ("public_key", PNone)]));
     ("ceph_cluster_fsid", PNone);
     ("keystone_admin_password", PNone);
     ("docker_registry_password", PNone);
     ("database_password", PNone);
     ("rabbitmq_password", PStr "guest")].

(** ** Freeze rejections and carried entries *)

Definition not_frozen (e : error) : Prop :=
  forall field, e <> HTTP Forbidden (Frozen field).

(** [r] is not a freeze rejection. *)
Definition nf {A} (r : result A) : Prop := forall e, r = Err e -> not_frozen e.

Definition nfM {A} (m : M A) : Prop :=
  forall st e st', m st = (Err e, st') -> not_frozen e.

(** The host_meta that [r] returns has the entry of [hm] under [k]. *)
Definition keeps {A} (proj : A -> dict) (k : string) (hm : dict) (r : result A) : Prop :=
  forall a, r = Ok a -> proj a !! k = hm !! k.

(** ** Adding a host that is already registered *)

(** The test of the inner loop of [_verify_interface_among_hosts]: a
    non-bond interface with the mac of the deployment interface. *)
Definition has_mac_of (input_host_pxe_info interface : dict) : bool :=
  negb (negb (py_eqb (get interface "mac") (get input_host_pxe_info "mac"))
        || py_eqb (get interface "type") (PStr "bond")).

(** Whether a registered host, as [get_host] answers with it, has such an
    interface. *)
Definition node_matches (input_host_pxe_info exist_node_info : dict) : Prop :=
  truthy (get exist_node_info "interfaces") = true /\
  exists interfaces interface,
    dicts_of (get exist_node_info "interfaces") = Ok interfaces /\
    List.find (has_mac_of input_host_pxe_info) interfaces = Some interface.

Definition node_differs (input_host_pxe_info exist_node_info : dict) : Prop :=
  truthy (get exist_node_info "interfaces") = false \/
  exists interfaces,
    dicts_of (get exist_node_info "interfaces") = Ok interfaces /\
    List.find (has_mac_of input_host_pxe_info) interfaces = None.

(** [get_host] answers for the registered host [exist_node], with a host
    that has no interface with the mac of the deployment interface. *)
Definition passed_over (env : collaborators) (req : request) (st : registry)
    (input_host_pxe_info exist_node : dict) : Prop :=
  exists exist_node_info,
    get_host env req (get exist_node "id") st = (Ok exist_node_info, st) /\
    node_differs input_host_pxe_info exist_node_info.

(** The stored dmi_uuid of [exist_node] is there and is not the one of the
    request. *)
Definition dmi_differs (host_meta exist_node : dict) : bool :=
  truthy (get exist_node "dmi_uuid") &&
  negb (py_eqb (get exist_node "dmi_uuid") (get host_meta "dmi_uuid")).

Definition dmi_conflict : error :=
  HTTP Forbidden (Why "The 'mac' of host interface is exist in db, but 'dmi_uuid' is different.").

Definition active_host_error : error :=
  HTTP BadRequest (Why "The host os_status is active, forbidden ironic to add host.").

(** What [update_host] answers to [_check_add_host_interfaces]. *)
Definition as_update (r : result (dict * dict) * registry) : result dict * registry :=
  match r with
  | (Ok (_, host_meta), st) => (Ok host_meta, st)
  | (Err e, st) => (Err e, st)
  end.

(** ** T13 *)

(** The fields the freeze-once-installed policy guards in [update_host]
    and that a reinstallation may set anew. *)
Definition reinstall_fields : list string :=
  ["root_disk"; "root_lv_size"; "swap_lv_size"; "root_pwd"; "isolcpus";
   "hugepages"; "hugepagesize"].

(** The checks of [update_host] on these fields, in the order of the
    source, with what they leave of the patch: root disk, root and swap
    volume, root password, isolated cpus, IPMI defaults, hugepages and
    their size, the dvs cross-check, and the clearing of the discovery
    state. *)
Definition ordinary_checks (env : collaborators) (host_meta orig_host_meta : dict)
    (role_lists : list dict) : result dict :=
  '(host_meta, root_disk) ← update_host_root_disk host_meta orig_host_meta;
  '(host_meta, root_lv_size) ← update_host_root_lv_size host_meta orig_host_meta root_disk;
  host_meta ← update_host_swap_lv_size env host_meta orig_host_meta root_lv_size role_lists;
  host_meta ← update_host_root_pwd host_meta orig_host_meta;
  host_meta ← update_host_isolcpus host_meta orig_host_meta;
  let host_meta := update_host_ipmi host_meta orig_host_meta in
  host_meta ← update_host_hugepages host_meta orig_host_meta;
  host_meta ← update_host_hugepagesize host_meta orig_host_meta;
  _check_dvs_huge env host_meta orig_host_meta ;;
  Ok (_ready_to_discover_host host_meta orig_host_meta).

(** [f] is os_status, or one of the seven fields with a value in [hm]. *)
Definition carried (f : string) (hm : dict) : Prop :=
  f = "os_status" \/ (In f reinstall_fields /\ truthy (get hm f) = true).

(** ** Sample data *)

(** The row an update hands back, when it goes through. *)
Definition stored_row {A} (r : result (dict * A) * registry) : dict :=
  match fst r with
  | Ok (row, _) => row
  | Err _ => ∅
  end.

Module Sample.

Definition nic (name mac pci : string) : dict :=
  list_to_map [("name", PStr name); ("type", PStr "ether"); ("mac", PStr mac);
               ("pci", PStr pci); ("ip", PStr "10.0.0.5");
               ("netmask", PStr "255.255.255.0")].

Definition bond (name : string) (slaves : list string) : dict :=
  list_to_map [("name", PStr name); ("type", PStr "bond");
               ("slaves", PList (PStr <$> slaves))].

Definition eth0 : dict := nic "eth0" "aa:bb:cc:dd:ee:01" "0000:00:03.0".
Definition eth1 : dict := nic "eth1" "aa:bb:cc:dd:ee:02" "0000:00:04.0".
Definition eth1_same_mac : dict := nic "eth1" "aa:bb:cc:dd:ee:01" "0000:00:04.0".
Definition eth1_same_pci : dict := nic "eth1" "aa:bb:cc:dd:ee:02" "0000:00:03.0".
Definition pxe0 : dict := <["is_deployment" := PStr "True"]> eth0.
Definition untyped (interface : dict) : dict := delete "type" interface.

(** The interface lists a request can carry as text. *)
Definition literals : list (string * pyval) :=
  [("[eth0]", PList [PDict eth0]);
   ("[eth0, eth1 with the mac of eth0]", PList (PDict <$> [eth0; eth1_same_mac]));
   ("[eth0, eth1 with the pci of eth0]", PList (PDict <$> [eth0; eth1_same_pci]));
   ("[eth0, eth1, bond0, bond1]",
    PList (PDict <$> [eth0; eth1; bond "bond0" ["eth0"; "eth1"];
                      bond "bond1" ["eth0"; "eth1"]]));
   ("[eth0, eth1 with the mac of eth0, both without a type]",
    PList (PDict <$> [untyped eth0; untyped eth1_same_mac]));
   ("[pxe0]", PList (PDict <$> [pxe0]))].

Definition eval_str (s : string) : option pyval :=
  snd <$> List.find (fun p => String.eqb (fst p) s) literals.

Definition env : collaborators :=
  Collaborators eval_str (fun _ => "") (fun _ _ => false) (fun _ _ => false)
    (fun _ => []) (fun _ _ => []) (fun d st => (Ok d, st)) (fun d st => (Ok d, st))
    (fun _ _ _ => JoinNothing)
    (fun _ => Ok ∅) (fun _ _ => Ok []) (fun _ => Ok PNone) (fun _ => Ok PNone)
    (fun _ _ => Ok []) (fun _ _ => Ok []) (fun _ _ => true).

Definition req : request := Request (fun _ => true).

Definition disk (name size : string) : pyval :=
  PDict (list_to_map [("disk", PStr "pci-0000:00:1f.2-ata-1"); ("name", PStr name);
                      ("size", PStr size)]).

(** A registered host. *)
Definition host (id os_status : string) (dmi_uuid : pyval) : dict :=
  list_to_map
    [("id", PStr id); ("name", PStr "host1"); ("os_status", PStr os_status);
     ("status", PStr "init"); ("deleted", PBool false); ("dmi_uuid", dmi_uuid);
     ("root_disk", PStr "sda"); ("root_lv_size", PInt 102400);
     ("swap_lv_size", PInt 4096); ("root_pwd", PStr "ossdbg1"); ("isolcpus", PNone);
     ("hugepages", PInt 0); ("hugepagesize", PStr "1G");
     ("disks", PDict (list_to_map [("sda", disk "sda" "500107862016 bytes");
                                   ("sdb", disk "sdb" "500107862016 bytes")]));
     ("memory", PDict {["total" := PStr "16384000 kB"]});
     ("cpu", PDict {["total" := PInt 8]});
     ("interfaces", PList [PDict eth0]);
     ("ipmi_addr", PNone); ("ipmi_user", PNone); ("ipmi_passwd", PNone)].

Definition active_host : dict := host "h1" "active" PNone.
Definition failed_host : dict := host "h1" "failed" PNone.
Definition active_host_dmi : dict := host "h1" "active" (PStr "4C4C4544-0000").

Definition discover (id ip status : string) : dict :=
  list_to_map [("id", PStr id); ("ip", PStr ip); ("user", PStr "root");
               ("passwd", PStr "secret"); ("status", PStr status);
               ("message", PStr ""); ("host_id", PNone)].

Definition registry_of (hosts discover_hosts : list dict) : registry :=
  Registry hosts discover_hosts [] [] [] [] [] [] [].

Definition st_active : registry :=
  registry_of [active_host]
    [discover "d1" "10.0.0.5" "init";
     discover "d2" "10.0.0.9" "DISCOVERY_FAILED";
     discover "d3" "10.0.0.7" "DISCOVERY_SUCCESSFUL"].
Definition st_failed : registry := registry_of [failed_host] [].
Definition st_active_dmi : registry := registry_of [active_host_dmi] [].
Definition st_empty : registry := registry_of [] [].

Definition other_root_disk : dict :=
  list_to_map [("name", PStr "host1"); ("root_disk", PStr "sdb")].
Definition other_root_disk_no_name : dict := list_to_map [("root_disk", PStr "sdb")].
Definition other_root_disk_bad_type : dict :=
  list_to_map [("name", PStr "host1"); ("root_disk", PStr "sdb");
               ("resource_type", PStr "vm")].
Definition empty_root_disk : dict :=
  list_to_map [("name", PStr "host1"); ("root_disk", PStr "")].
Definition no_root_disk : dict := list_to_map [("name", PStr "host1")].
Definition reinstall : dict :=
  list_to_map [("name", PStr "host1"); ("os_status", PStr "init");
               ("root_disk", PStr "sdb"); ("root_lv_size", PStr "204800");
               ("swap_lv_size", PStr "8192"); ("root_pwd", PStr "new");
               ("isolcpus", PStr "1-3,5"); ("hugepages", PStr "2");
               ("hugepagesize", PStr "2M")].

Definition resubmit (ip : string) : dict := {["ip" := PStr ip]}.

Definition add_request (interfaces : string) : dict :=
  list_to_map [("name", PStr "host2"); ("interfaces", PStr interfaces)].

Definition disk_200000M : pyval := disk "sda" "209715200000 bytes".
Definition host_200000M : dict :=
  list_to_map [("id", PStr "h4"); ("disks", PDict {["sda" := disk_200000M]})].

End Sample.

(** * Properties *)

(** ** Decimal texts and the swap size (C5) *)

Lemma is_digit_bounds c :
  is_digit c = true -> (48 <= nat_of_ascii c <= 57)%nat.
Proof.
  unfold is_digit. cbv zeta. rewrite andb_true_iff, !Nat.leb_le. tauto.
Qed.

Lemma is_digit_not_space c : is_digit c = true -> is_space c = false.
Proof.
  intros H%is_digit_bounds. unfold is_space. cbv zeta.
  destruct (Nat.eqb_spec (nat_of_ascii c) 32); [lia|].
  destruct (Nat.leb_spec 9 (nat_of_ascii c)), (Nat.leb_spec (nat_of_ascii c) 13);
    simpl; auto; lia.
Qed.

Lemma is_digit_not_sign c :
  is_digit c = true -> Ascii.eqb c "-" = false /\ Ascii.eqb c "+" = false.
Proof.
  intros H%is_digit_bounds.
  split; apply Ascii.eqb_neq; intros ->; vm_compute in H; lia.
Qed.

Lemma drop_while_head p c cs : p c = false -> drop_while p (c :: cs) = c :: cs.
Proof. intros H. simpl. now rewrite H. Qed.

Lemma strip_digits cs :
  cs <> [] -> forallb is_digit cs = true -> strip_chars cs = cs.
Proof.
  intros Hne Hall. unfold strip_chars, rstrip_chars.
  destruct cs as [|c cs]; [congruence|].
  rewrite drop_while_head.
  2:{ simpl in Hall. apply andb_true_iff in Hall as [H _]. now apply is_digit_not_space. }
  assert (Hrev : forallb is_digit (rev (c :: cs)) = true).
  { rewrite forallb_forall in *. intros x Hx. apply Hall. now apply in_rev. }
  destruct (rev (c :: cs)) as [|d ds] eqn:E.
  - apply (f_equal (@rev _)) in E. rewrite rev_involutive in E. discriminate.
  - rewrite drop_while_head.
    + rewrite <- E. apply rev_involutive.
    + simpl in Hrev. apply andb_true_iff in Hrev as [H _]. now apply is_digit_not_space.
Qed.

Lemma isdigit_all_digits s :
  isdigit s = true -> chars s <> [] /\ forallb is_digit (chars s) = true.
Proof.
  unfold isdigit. destruct (chars s) as [|c cs]; [discriminate|]. intros H. split; [discriminate|exact H].
Qed.

(** On a text of decimal digits, [int] is the number the digits denote. *)
Lemma int_of_digits s :
  isdigit s = true -> int_of_chars (chars s) = Some (digits_val (chars s)).
Proof.
  intros [Hne Hall]%isdigit_all_digits. unfold int_of_chars.
  rewrite strip_digits by assumption.
  destruct (chars s) as [|c ds]; [congruence|].
  pose proof Hall as Hall'. simpl in Hall'. apply andb_true_iff in Hall' as [Hc _].
  destruct (is_digit_not_sign c Hc) as [-> ->].
  unfold all_digits. now rewrite Hall.
Qed.

Lemma py_int_digits s :
  isdigit s = true -> py_int (PStr s) = Ok (digits_val (chars s)).
Proof. intros H. unfold py_int. now rewrite int_of_digits. Qed.

(** C5. For every non-negative memory size m in MB, [_get_swap_lv_size_m]
    returns 4096 when m <= 4096, 8192 when 4096 < m <= 16384, 32768 when
    16384 < m <= 65536, and 65536 otherwise; so it is monotonic
    non-decreasing in m, and its range is exactly
    {4096, 8192, 32768, 65536}. *)
Theorem swap_lv_size_steps (m : Z) (Hm : 0 <= m) :
  (m <= 4096 -> _get_swap_lv_size_m m = 4096) /\
  (4096 < m <= 16384 -> _get_swap_lv_size_m m = 8192) /\
  (16384 < m <= 65536 -> _get_swap_lv_size_m m = 32768) /\
  (65536 < m -> _get_swap_lv_size_m m = 65536) /\
  (forall m', m <= m' -> _get_swap_lv_size_m m <= _get_swap_lv_size_m m') /\
  In (_get_swap_lv_size_m m) [4096; 8192; 32768; 65536] /\
  (forall v, In v [4096; 8192; 32768; 65536] ->
             exists m0, 0 <= m0 /\ _get_swap_lv_size_m m0 = v).
Proof.
  unfold _get_swap_lv_size_m.
  repeat split.
  - intros H. destruct (Z.leb_spec m 4096); [reflexivity|lia].
  - intros H. destruct (Z.leb_spec m 4096); [lia|].
    destruct (Z.leb_spec m 16384); [reflexivity|lia].
  - intros H. destruct (Z.leb_spec m 4096); [lia|].
    destruct (Z.leb_spec m 16384); [lia|].
    destruct (Z.leb_spec m 65536); [reflexivity|lia].
  - intros H. destruct (Z.leb_spec m 4096); [lia|].
    destruct (Z.leb_spec m 16384); [lia|].
    destruct (Z.leb_spec m 65536); [lia|reflexivity].
  - intros m' Hle.
    destruct (Z.leb_spec m 4096), (Z.leb_spec m 16384), (Z.leb_spec m 65536),
      (Z.leb_spec m' 4096), (Z.leb_spec m' 16384), (Z.leb_spec m' 65536); lia.
  - destruct (Z.leb_spec m 4096); [simpl; auto|].
    destruct (Z.leb_spec m 16384); [simpl; auto|].
    destruct (Z.leb_spec m 65536); simpl; auto.
  - intros v Hv. simpl in Hv.
    destruct Hv as [<-|[<-|[<-|[<-|[]]]]].
    + exists 4096. split; [lia|reflexivity].
    + exists 16384. split; [lia|reflexivity].
    + exists 65536. split; [lia|reflexivity].
    + exists 65537. split; [lia|reflexivity].
Qed.

Lemma swap_lv_size_steps_witness :
  0 <= 4097 /\ _get_swap_lv_size_m 4097 = 8192.
Proof.
  split; [lia|].
  apply (swap_lv_size_steps 4097); lia.
Defined.

(** ** The size of the root logical volume (C4) *)

(** The size check of the root logical volume, in closed form. *)
Lemma check_root_lv_size_eq orig_host_meta root_disk disks disk size b s :
  get orig_host_meta "disks" = PDict disks ->
  disks !! py_str root_disk = Some (PDict disk) ->
  disk !! "size" = Some size ->
  leading_int (py_str size) = Ok b ->
  isdigit s = true ->
  check_root_lv_size orig_host_meta root_disk (PStr s) =
    let n := digits_val (chars s) in
    if b / (1024 * 1024) - 400 - 600 <? (n / 4) * 4 then Err too_large
    else if (n / 4) * 4 <? 102400 then Err too_small
    else Ok n.
Proof.
  intros Hdisks Hdisk Hsize Hb Hs. unfold check_root_lv_size.
  cbn [as_str mbind result_bind]. rewrite Hs, (py_int_digits _ Hs). cbn [mbind result_bind].
  rewrite Hdisks. cbn [as_dict mbind result_bind].
  unfold getitem. rewrite Hdisk. cbn [as_dict mbind result_bind].
  rewrite Hsize. cbn [mbind result_bind]. rewrite Hb. cbn [mbind result_bind].
  cbv zeta.
  destruct (b / (1024 * 1024) - 400 - 600 <? _);
    destruct (_ / 4 * 4 <? 102400); reflexivity.
Qed.

(** C4 as the code has it. For a root disk of capacity C MB (its size in
    bytes divided by 1024*1024) and a requested size n given in decimal
    digits, the size is rounded down to a multiple r of 4; r below 102400 is
    rejected, r above C - 400 - 600 is rejected, and every other request is
    accepted, in particular any multiple of 4 with 102400 <= n <= C - 1000.
    A request of 102096 is always rejected. A request of C - 999 is rejected
    exactly when C - 999 is a multiple of 4 or rounds to less than 102400:
    otherwise it rounds down to at most C - 1000 and is accepted. *)
Theorem root_lv_size_validation
    (orig_host_meta disks disk : dict) (root_disk size : pyval) (b : Z) (s : string)
    (Hdisks : get orig_host_meta "disks" = PDict disks)
    (Hdisk : disks !! py_str root_disk = Some (PDict disk))
    (Hsize : disk !! "size" = Some size)
    (Hb : leading_int (py_str size) = Ok b)
    (Hs : isdigit s = true) :
  let C := b / (1024 * 1024) in
  let n := digits_val (chars s) in
  let r := (n / 4) * 4 in
  let rejected := exists m, check_root_lv_size orig_host_meta root_disk (PStr s)
                            = Err (HTTP Forbidden (Why m)) in
  let accepted := check_root_lv_size orig_host_meta root_disk (PStr s) = Ok n in
  (r mod 4 = 0 /\ n - 4 < r <= n) /\
  (r < 102400 -> rejected) /\
  (C - 400 - 600 < r -> rejected) /\
  (102400 <= r <= C - 1000 -> accepted) /\
  (n mod 4 = 0 -> 102400 <= n <= C - 1000 -> accepted) /\
  (n = 102096 -> rejected) /\
  (n = C - 999 -> (rejected <-> (C - 999) mod 4 = 0 \/ r < 102400)).
Proof.
  intros C n r rejected accepted.
  pose proof (check_root_lv_size_eq _ _ _ _ _ _ _ Hdisks Hdisk Hsize Hb Hs) as E.
  cbv zeta in E. fold n C r in E.
  assert (Hr : r mod 4 = 0 /\ n - 4 < r <= n).
  { subst r. split; [apply Z.mod_mul; lia|].
    pose proof (Z.div_mod n 4 ltac:(lia)). pose proof (Z.mod_pos_bound n 4 ltac:(lia)). lia. }
  assert (Hrej : r < 102400 \/ C - 400 - 600 < r -> rejected).
  { intros H. unfold rejected. rewrite E.
    destruct (Z.ltb_spec (C - 400 - 600) r); [eexists; reflexivity|].
    destruct (Z.ltb_spec r 102400); [eexists; reflexivity|lia]. }
  assert (Hacc : 102400 <= r <= C - 1000 -> accepted).
  { intros H. unfold accepted. rewrite E.
    destruct (Z.ltb_spec (C - 400 - 600) r); [lia|].
    destruct (Z.ltb_spec r 102400); [lia|reflexivity]. }
  split; [exact Hr|].
  split; [auto|]. split; [auto|]. split; [exact Hacc|].
  split.
  { intros Hm Hn. apply Hacc. subst r.
    pose proof (Z.div_mod n 4 ltac:(lia)). lia. }
  split.
  { intros Hn. apply Hrej. left. subst r. rewrite Hn. reflexivity. }
  intros Hn. split.
  - intros [m Hm].
    destruct (Z.eq_dec ((C - 999) mod 4) 0) as [|Hne]; [now left|right].
    destruct (Z.lt_ge_cases r 102400) as [|Hge]; [assumption|exfalso].
    assert (r <= C - 1000).
    { destruct Hr as [Hr1 Hr2].
      destruct (Z.eq_dec r n) as [Heq|]; [|lia].
      rewrite <- Hn, <- Heq in Hne. contradiction. }
    unfold accepted in Hacc. rewrite Hacc in Hm by lia. discriminate.
  - intros [Hmul|Hlt]; apply Hrej; [right|now left].
    subst r. rewrite Hn.
    pose proof (Z.div_mod (C - 999) 4 ltac:(lia)). lia.
Qed.

Lemma root_lv_size_validation_witness :
  get Sample.host_200000M "disks" = PDict {["sda" := Sample.disk_200000M]} /\
  leading_int "209715200000 bytes" = Ok 209715200000 /\
  isdigit "102400" = true /\
  check_root_lv_size Sample.host_200000M (PStr "sda") (PStr "102400") = Ok 102400.
Proof.
  assert (H1 : get Sample.host_200000M "disks" = PDict {["sda" := Sample.disk_200000M]}) by reflexivity.
  assert (H2 : ({["sda" := Sample.disk_200000M]} : dict) !! py_str (PStr "sda")
               = Some Sample.disk_200000M) by reflexivity.
  assert (H3 : (list_to_map [("disk", PStr "pci-0000:00:1f.2-ata-1"); ("name", PStr "sda");
                             ("size", PStr "209715200000 bytes")] : dict) !! "size"
               = Some (PStr "209715200000 bytes")) by reflexivity.
  assert (H4 : leading_int (py_str (PStr "209715200000 bytes")) = Ok 209715200000)
    by (vm_compute; reflexivity).
  assert (H5 : isdigit "102400" = true) by reflexivity.
  split; [exact H1|]. split; [exact H4|]. split; [exact H5|].
  apply (root_lv_size_validation _ _ _ _ _ _ _ H1 H2 H3 H4 H5); vm_compute; split; congruence.
Defined.

(** C4, as stated, fails: on a disk of C = 200000 MB a request of
    C - 999 = 199001 MB rounds down to 199000 = C - 1000 and is accepted. *)
Lemma root_lv_size_C_minus_999_accepted :
  leading_int "209715200000 bytes" = Ok (200000 * (1024 * 1024)) /\
  digits_val (chars "199001") = 200000 - 999 /\
  check_root_lv_size Sample.host_200000M (PStr "sda") (PStr "199001") = Ok 199001.
Proof. vm_compute. repeat split; reflexivity. Qed.

(** ** Bond slaves and interfaces of one host (C2, C8) *)

(** [check_bond_slaves_validity] looks at one bond at a time: it accepts
    exactly when every bond, on its own, has two distinct slaves among the
    ether interfaces. *)
Lemma check_bond_slaves_validity_ok bond_slaves_lists ether_nic_names_list :
  check_bond_slaves_validity bond_slaves_lists ether_nic_names_list = Ok tt <->
  Forall (slaves_ok ether_nic_names_list) bond_slaves_lists.
Proof.
  unfold check_bond_slaves_validity.
  induction bond_slaves_lists as [|sl rest IH]; cbn [for_each].
  - split; [constructor|reflexivity].
  - rewrite Forall_cons, <- IH. unfold slaves_ok, ensure.
    destruct (py_set sl) as [members|e]; cbn [mbind result_bind].
    2:{ split; [discriminate|]. intros [(? & ? & [=] & _) _]. }
    destruct (Nat.eqb_spec (length members) 2) as [E|E]; cbn [mbind result_bind].
    2:{ split; [discriminate|]. intros [(? & ? & [= <-] & ? & _) _]. contradiction. }
    destruct (py_set (PList ether_nic_names_list)) as [ether|e]; cbn [mbind result_bind].
    2:{ split; [discriminate|]. intros [(? & ? & _ & _ & [=] & _) _]. }
    destruct (issubset members ether) eqn:S; cbn [mbind result_bind].
    + split; [intros H; split; [eauto 6|exact H]|intros [_ H]; exact H].
    + split; [discriminate|]. intros [(? & ? & [= <-] & _ & [= <-] & S') _]. congruence.
Qed.

(** A bond whose slave set has one or three distinct members is refused. *)
Lemma bond_with_1_or_3_slaves_fails bond_slaves_lists ether_nic_names_list bond_slaves
    members :
  In bond_slaves bond_slaves_lists ->
  py_set bond_slaves = Ok members ->
  length members = 1%nat \/ length members = 3%nat ->
  is_ok (check_bond_slaves_validity bond_slaves_lists ether_nic_names_list) = false.
Proof.
  intros Hin Hset Hlen.
  destruct (check_bond_slaves_validity _ _) as [[]|e] eqn:E; [|reflexivity].
  apply check_bond_slaves_validity_ok in E. rewrite Forall_forall in E.
  destruct (E bond_slaves ltac:(now apply list_elem_of_In)) as (m & _ & Hm & Hl & _).
  rewrite Hset in Hm. injection Hm as <-. lia.
Qed.

Lemma mapM_PDict (l : list dict) :
  mapM (fun x => match x with
                 | PDict d => Ok d
                 | _ => Err (Uncaught AttributeError)
                 end) (PDict <$> l) = Ok l.
Proof.
  induction l as [|d l IH]; [reflexivity|].
  cbn [fmap list_fmap mapM mbind result_bind]. cbn in IH. rewrite IH. reflexivity.
Qed.

Lemma dicts_of_PList (l : list dict) : dicts_of (PList (PDict <$> l)) = Ok l.
Proof. unfold dicts_of. cbn [as_list mbind result_bind]. apply mapM_PDict. Qed.

Lemma in_names_where p interfaces x :
  In x (names_where p interfaces) <->
  exists i1 i2, In i1 interfaces /\ In i2 interfaces /\ p i1 i2 = true /\ x = get i1 "name".
Proof.
  unfold names_where. rewrite in_flat_map. split.
  - intros (i1 & H1 & H). apply in_flat_map in H as (i2 & H2 & H).
    destruct (p i1 i2) eqn:E; [|destruct H].
    destruct H as [<-|[]]. eauto 6.
  - intros (i1 & i2 & H1 & H2 & Hp & ->). exists i1. split; [assumption|].
    apply in_flat_map. exists i2. split; [assumption|]. rewrite Hp. now left.
Qed.

Lemma names_where_ext (R : dict -> dict -> Prop) p l l' :
  Forall2 R l l' ->
  (forall a a' b b', R a a' -> R b b' ->
     p a b = p a' b' /\ get a "name" = get a' "name") ->
  names_where p l = names_where p l'.
Proof.
  intros HF Hp. unfold names_where.
  assert (G : forall l1 l1', Forall2 R l1 l1' ->
    flat_map (fun i1 => flat_map (fun i2 =>
      if p i1 i2 then [get i1 "name"] else []) l) l1 =
    flat_map (fun i1 => flat_map (fun i2 =>
      if p i1 i2 then [get i1 "name"] else []) l') l1').
  { intros l1 l1' H1. induction H1 as [|a a' l1 l1' Ha _ IH]; [reflexivity|].
    cbn [flat_map]. rewrite IH. f_equal.
    clear IH. induction HF as [|b b' l2 l2' Hb _ IH2]; [reflexivity|].
    cbn [flat_map]. rewrite IH2. destruct (Hp _ _ _ _ Ha Hb) as [-> ->]. reflexivity. }
  now apply G.
Qed.

Lemma truthy_PStr s : s <> "" -> truthy (PStr s) = true.
Proof.
  intros H. cbn. destruct (String.eqb_spec s ""); [contradiction|reflexivity].
Qed.

Lemma py_eqb_PStr s t : py_eqb (PStr s) (PStr t) = String.eqb s t.
Proof. reflexivity. Qed.

Lemma py_eqb_PStr_r v s : py_eqb v (PStr s) = true -> v = PStr s.
Proof.
  destruct v; cbn; try discriminate. intros H. f_equal. now apply String.eqb_eq.
Qed.

Lemma py_eqb_PStr_ne v s : v <> PStr s -> py_eqb v (PStr s) = false.
Proof.
  intros H. destruct (py_eqb v (PStr s)) eqn:E; [|reflexivity].
  apply py_eqb_PStr_r in E. contradiction.
Qed.

Lemma get_delete_ne (d : dict) k k' : k <> k' -> get (delete k d) k' = get d k'.
Proof. intros H. unfold get. now rewrite lookup_delete_ne. Qed.

Lemma hosts_logged interfaces st : hosts (logged interfaces st) = hosts st.
Proof. unfold logged. destruct (bool_decide _); reflexivity. Qed.

Lemma join_names_texts names :
  Forall (fun v => exists s, v = PStr s) names -> join_names names = Ok tt.
Proof.
  unfold join_names. induction 1 as [|v l [s ->] _ IH]; cbn [for_each]; [reflexivity|].
  exact IH.
Qed.

Lemma names_where_texts p interfaces :
  text_names interfaces ->
  (forall a b, p a b = true -> truthy (get a "name") = true) ->
  Forall (fun v => exists s, v = PStr s) (names_where p interfaces).
Proof.
  intros Ht Hp. apply Forall_forall. intros v Hv%list_elem_of_In.
  apply in_names_where in Hv as (i1 & i2 & H1 & _ & Hp12 & ->).
  unfold text_names in Ht. rewrite Forall_forall in Ht.
  apply Ht; [now apply list_elem_of_In|]. eapply Hp; eassumption.
Qed.

Lemma same_mac_named a b : same_mac a b = true -> truthy (get a "name") = true.
Proof. unfold same_mac. destruct (truthy (get a "name")); [reflexivity|discriminate]. Qed.

Lemma same_pci_named a b : same_pci a b = true -> truthy (get a "name") = true.
Proof. unfold same_pci. destruct (truthy (get a "name")); [reflexivity|discriminate]. Qed.

Lemma names_where_nil p interfaces :
  (forall a b, In a interfaces -> p a b = false) -> names_where p interfaces = [].
Proof.
  intros H. destruct (names_where p interfaces) as [|v l] eqn:E; [reflexivity|].
  assert (Hin : In v (names_where p interfaces)) by (rewrite E; now left).
  apply in_names_where in Hin as (i1 & i2 & H1 & _ & Hp & _).
  rewrite (H i1 i2 H1) in Hp. discriminate.
Qed.

(** [_verify_interface_in_same_host] on a list whose names are texts. *)
Lemma _verify_interface_in_same_host_run env text interfaces st :
  eval env text = Ok (PList (PDict <$> interfaces)) ->
  text_names interfaces ->
  _verify_interface_in_same_host env text st =
    (if bool_decide (same_pci_list interfaces = []) then Ok tt else Err same_pci_error,
     logged interfaces st).
Proof.
  intros H Ht. unfold _verify_interface_in_same_host, logged.
  unfold mbind at 1. unfold M_bind. unfold lift at 1.
  rewrite H. cbn [mbind result_bind]. rewrite dicts_of_PList.
  assert (Jm : join_names (same_mac_list interfaces) = Ok tt).
  { apply join_names_texts, names_where_texts; [assumption|apply same_mac_named]. }
  assert (Jp : join_names (same_pci_list interfaces) = Ok tt).
  { apply join_names_texts, names_where_texts; [assumption|apply same_pci_named]. }
  unfold mbind, M_bind, lift. rewrite Jm, Jp.
  destruct (bool_decide (same_mac_list interfaces = [])); cbn;
    destruct (bool_decide (same_pci_list interfaces = [])); reflexivity.
Qed.

(** C8 as the code has it. Within one submitted interface list (the text
    [text] and the mappings it evaluates to) in which every interface name
    is a text: two ether interfaces with the same non-empty pci and
    different non-empty names are always rejected with Forbidden. Two
    interfaces whose type is given and is not 'bond', with the same
    non-empty mac and different non-empty names, are never rejected on that
    ground: [_verify_interface_in_same_host] logs a warning that names them,
    and accepts the list when no pci is duplicated; whether a list is
    rejected does not depend on any mac. Interfaces without a type take no
    part in either check: a list of untyped interfaces passes and nothing
    is logged. *)
Theorem duplicate_pci_rejected_duplicate_mac_logged
    (env : collaborators) (text : pyval) (interfaces : list dict) (st : registry)
    (Heval : eval env text = Ok (PList (PDict <$> interfaces)))
    (Hnames : text_names interfaces) :
  let run := _verify_interface_in_same_host env text st in
  (forall i1 i2 n1 n2 p,
     In i1 interfaces -> In i2 interfaces ->
     get i1 "type" = PStr "ether" -> get i2 "type" = PStr "ether" ->
     get i1 "pci" = PStr p -> get i2 "pci" = PStr p -> p <> "" ->
     get i1 "name" = PStr n1 -> get i2 "name" = PStr n2 ->
     n1 <> "" -> n2 <> "" -> n1 <> n2 ->
     run = (Err same_pci_error, logged interfaces st)) /\
  (forall i1 i2 n1 n2 t1 t2 m,
     In i1 interfaces -> In i2 interfaces ->
     get i1 "type" = PStr t1 -> get i2 "type" = PStr t2 ->
     t1 <> "" -> t2 <> "" -> t1 <> "bond" -> t2 <> "bond" ->
     get i1 "mac" = PStr m -> get i2 "mac" = PStr m -> m <> "" ->
     get i1 "name" = PStr n1 -> get i2 "name" = PStr n2 ->
     n1 <> "" -> n2 <> "" -> n1 <> n2 ->
     In (PStr n1) (same_mac_list interfaces) /\
     log (snd run) = log st ++ [same_mac_list interfaces] /\
     (same_pci_list interfaces = [] -> fst run = Ok tt)) /\
  (same_pci_list interfaces = [] -> fst run = Ok tt) /\
  (forall text' interfaces' st',
     eval env text' = Ok (PList (PDict <$> interfaces')) ->
     Forall2 (fun i i' => delete "mac" i = delete "mac" i') interfaces interfaces' ->
     fst (_verify_interface_in_same_host env text' st') = fst run) /\
  (Forall (fun interface : dict => truthy (get interface "type") = false) interfaces ->
     run = (Ok tt, st)).
Proof.
  intros run.
  pose proof (_verify_interface_in_same_host_run env text interfaces st Heval Hnames) as E.
  fold run in E.
  assert (G : forall (x x' : dict) k, delete "mac" x = delete "mac" x' ->
                k <> "mac" -> get x k = get x' k).
  { intros x x' k Hx Hk. rewrite <- (get_delete_ne x "mac" k), <- (get_delete_ne x' "mac" k)
      by congruence. now rewrite Hx. }
  split; [|split; [|split; [|split]]].
  - intros i1 i2 n1 n2 p H1 H2 T1 T2 P1 P2 Hp N1 N2 Hn1 Hn2 Hne.
    assert (Hin : In (PStr n1) (same_pci_list interfaces)).
    { apply in_names_where. exists i1, i2. repeat split; try assumption; [|congruence].
      unfold same_pci. rewrite N1, N2, P1, P2, T1, T2.
      rewrite !truthy_PStr by (assumption || discriminate).
      rewrite !py_eqb_PStr, !String.eqb_refl.
      destruct (String.eqb_spec n1 n2); [contradiction|reflexivity]. }
    assert (Hnn : same_pci_list interfaces <> []).
    { intros Hnil. rewrite Hnil in Hin. destruct Hin. }
    rewrite E, (bool_decide_eq_false_2 _ Hnn). reflexivity.
  - intros i1 i2 n1 n2 t1 t2 m H1 H2 T1 T2 Ht1 Ht2 Hb1 Hb2 M1 M2 Hm N1 N2 Hn1 Hn2 Hne.
    assert (Hin : In (PStr n1) (same_mac_list interfaces)).
    { apply in_names_where. exists i1, i2. repeat split; try assumption; [|congruence].
      unfold same_mac. rewrite N1, N2, M1, M2, T1, T2.
      rewrite !truthy_PStr by assumption.
      rewrite !py_eqb_PStr, !String.eqb_refl.
      destruct (String.eqb_spec n1 n2); [contradiction|].
      destruct (String.eqb_spec t1 "bond"); [contradiction|].
      destruct (String.eqb_spec t2 "bond"); [contradiction|reflexivity]. }
    assert (Hnn : same_mac_list interfaces <> []).
    { intros Hnil. rewrite Hnil in Hin. destruct Hin. }
    split; [exact Hin|]. rewrite E. cbn [fst snd]. unfold logged.
    split.
    + rewrite (bool_decide_eq_false_2 _ Hnn). reflexivity.
    + intros ->. reflexivity.
  - intros Hnil. rewrite E, Hnil. reflexivity.
  - intros text' interfaces' st' Heval' HF.
    assert (Hnames' : text_names interfaces').
    { unfold text_names in *. clear -HF Hnames G.
      induction HF as [|a a' l l' Ha _ IH]; [constructor|].
      apply Forall_cons in Hnames as [Hn Hl]. constructor; [|now apply IH].
      rewrite <- (G a a' "name") by (assumption || discriminate). exact Hn. }
    rewrite (_verify_interface_in_same_host_run env text' interfaces' st' Heval' Hnames'), E.
    cbn [fst].
    replace (same_pci_list interfaces') with (same_pci_list interfaces); [reflexivity|].
    apply (names_where_ext _ _ _ _ HF).
    intros a a' b b' Ha Hb.
    unfold same_pci.
    rewrite !(G a a' "name"), !(G a a' "pci"), !(G a a' "type"),
            !(G b b' "name"), !(G b b' "pci"), !(G b b' "type") by (assumption || discriminate).
    split; reflexivity.
  - intros Hun. rewrite Forall_forall in Hun.
    assert (Hm : same_mac_list interfaces = []).
    { apply names_where_nil. intros a b Ha. unfold same_mac.
      rewrite (Hun a) by now apply list_elem_of_In.
      rewrite !andb_false_r. reflexivity. }
    assert (Hp : same_pci_list interfaces = []).
    { apply names_where_nil. intros a b Ha. unfold same_pci.
      rewrite (Hun a) by now apply list_elem_of_In.
      rewrite !andb_false_r. reflexivity. }
    rewrite E. unfold logged. rewrite Hm, Hp. reflexivity.
Qed.

(** ** Rows of the registry tables *)

Lemma py_eqb_PStr_refl s : py_eqb (PStr s) (PStr s) = true.
Proof. cbn. apply String.eqb_refl. Qed.

Lemma get_dict_update_Some (patch d : dict) k v :
  patch !! k = Some v -> get (dict_update patch d) k = v.
Proof.
  intros H. unfold get, dict_update. now rewrite (lookup_union_Some_l _ _ _ _ H).
Qed.

Lemma get_dict_update_None (patch d : dict) k :
  patch !! k = None -> get (dict_update patch d) k = get d k.
Proof.
  intros H. unfold get, dict_update. now rewrite lookup_union_r.
Qed.

Lemma update_rows_touch id patch rows : update_rows id patch rows = List.map (touch id patch) rows.
Proof. reflexivity. Qed.

Lemma touch_id id patch r : patch !! "id" = None -> get (touch id patch r) "id" = get r "id".
Proof.
  intros H. unfold touch. destruct (py_eqb _ _); [|reflexivity].
  now apply get_dict_update_None.
Qed.

Lemma find_row_map f i rows :
  (forall r, get (f r) "id" = get r "id") ->
  find_row "id" i (List.map f rows) = f <$> find_row "id" i rows.
Proof.
  intros Hf. unfold find_row. induction rows as [|r rows IH]; [reflexivity|].
  cbn [List.map List.find]. rewrite Hf. destruct (py_eqb (get r "id") i); [reflexivity|exact IH].
Qed.

Lemma find_row_In key v rows r :
  In r rows -> py_eqb (get r key) v = true -> is_Some (find_row key v rows).
Proof.
  unfold find_row. induction rows as [|x rows IH]; [intros []|].
  intros [->|Hin] E; cbn [List.find].
  - rewrite E. eauto.
  - destruct (py_eqb (get x key) v); [eauto|]. now apply IH.
Qed.

Lemma find_row_Some key v rows r :
  find_row key v rows = Some r -> In r rows /\ py_eqb (get r key) v = true.
Proof. unfold find_row. apply find_some. Qed.

(** With distinct ids, the row found under the id of a row is that row. *)
Lemma find_row_NoDup rows r i :
  NoDup (List.map (fun r => get r "id") rows) ->
  In r rows -> get r "id" = PStr i ->
  Forall (fun r => exists j, get r "id" = PStr j) rows ->
  find_row "id" (PStr i) rows = Some r.
Proof.
  unfold find_row. induction rows as [|x rows IH]; [intros _ []|].
  intros Hnd Hin Hid Hall. cbn [List.map] in Hnd. apply NoDup_cons in Hnd as [Hx Hnd].
  apply Forall_cons in Hall as [[j Hj] Hall]. cbn [List.find].
  destruct Hin as [->|Hin].
  - rewrite Hid, py_eqb_PStr_refl. reflexivity.
  - rewrite Hj. cbn [py_eqb]. destruct (String.eqb_spec j i) as [->|Hne].
    + exfalso. apply Hx. rewrite Hj, <- Hid. apply list_elem_of_In, in_map_iff.
      exists r. split; [reflexivity|assumption].
    + now apply IH.
Qed.

Lemma update_progress_to_db_ok update_info (r h : dict) st :
  find_row "id" (get r "id") (discover_hosts st) = Some h ->
  truthy (get update_info "host_id") = true ->
  update_progress_to_db update_info r st =
    (Ok tt, set_discover_hosts
              (update_rows (get r "id")
                 (<["host_id" := get update_info "host_id"]>
                    (<["message" := get update_info "message"]>
                       {["status" := get update_info "status"]}))) st).
Proof.
  intros Hfind Ht. unfold update_progress_to_db. rewrite Ht.
  unfold mbind, M_bind, update_discover_host_metadata. rewrite Hfind. reflexivity.
Qed.

Lemma well_keyed_map f rows :
  (forall r, get (f r) "id" = get r "id") -> well_keyed rows -> well_keyed (List.map f rows).
Proof.
  intros Hf H. unfold well_keyed in *. rewrite Forall_forall in *.
  intros r Hr. apply list_elem_of_In, in_map_iff in Hr as (r0 & <- & Hr0).
  rewrite Hf. apply H. now apply list_elem_of_In.
Qed.

Lemma ids_map f (rows : list dict) :
  (forall r, get (f r) "id" = get r "id") ->
  List.map (fun r => get r "id") (List.map f rows) = List.map (fun r => get r "id") rows.
Proof. intros Hf. rewrite List.map_map. apply List.map_ext. intros r. apply Hf. Qed.

Lemma discovering_patch_id : discovering_patch !! "id" = None.
Proof. reflexivity. Qed.

Lemma successful_patch_id ip h : successful_patch ip h !! "id" = None.
Proof. reflexivity. Qed.

Lemma set_discover_hosts_discover_hosts f st :
  discover_hosts (set_discover_hosts f st) = f (discover_hosts st).
Proof. reflexivity. Qed.

Lemma set_discover_hosts_compose f g st :
  set_discover_hosts g (set_discover_hosts f st) = set_discover_hosts (fun x => g (f x)) st.
Proof. reflexivity. Qed.

Lemma present_map f loaded rows :
  (forall r, get (f r) "id" = get r "id") -> present loaded rows -> present loaded (List.map f rows).
Proof.
  intros Hf H. unfold present in *. rewrite Forall_forall in *.
  intros r Hr. destruct (H r Hr) as (j & Hj & h & Hh & Hhj).
  exists j. split; [assumption|]. exists (f h). split; [now apply in_map|]. now rewrite Hf.
Qed.

Lemma mark_discovering_run loaded st :
  present loaded (discover_hosts st) ->
  mark_discovering loaded st = (Ok tt, set_discover_hosts (mark_rows loaded) st).
Proof.
  revert st. induction loaded as [|r loaded IH]; intros st Hp.
  - destruct st; reflexivity.
  - apply Forall_cons in Hp as [(j & Hj & h & Hh & Hhj) Hp].
    unfold mark_discovering. cbn [for_eachM]. fold (mark_discovering loaded).
    unfold mark_rows. cbn [foldl]. fold (mark_rows loaded). fold (is_successful r).
    destruct (is_successful r) eqn:E; cbn [negb].
    + unfold mbind, M_bind. cbn. apply IH. exact Hp.
    + destruct (find_row_In "id" (get r "id") _ h Hh) as [h' Hh'].
      { rewrite Hhj, Hj. apply py_eqb_PStr_refl. }
      unfold mbind at 1. unfold M_bind at 1.
      rewrite (update_progress_to_db_ok _ _ _ _ Hh') by reflexivity.
      rewrite IH.
      * reflexivity.
      * rewrite set_discover_hosts_discover_hosts, update_rows_touch.
        apply present_map; [|exact Hp]. intros x. now apply touch_id.
Qed.

Lemma hit_in host_interfaces r :
  py_in (get r "ip") (List.map (fun host => get host "ip") host_interfaces) = true ->
  exists h, hit host_interfaces r = Some h.
Proof.
  unfold py_in, hit. rewrite existsb_exists. intros (x & Hx & E).
  apply in_map_iff in Hx as (host & <- & Hhost).
  destruct (List.filter _ host_interfaces) as [|y l] eqn:F; [|eauto].
  exfalso. assert (In host []) as []. rewrite <- F. apply filter_In. auto.
Qed.

Lemma hit_not_in host_interfaces r :
  py_in (get r "ip") (List.map (fun host => get host "ip") host_interfaces) = false ->
  hit host_interfaces r = None.
Proof.
  unfold py_in, hit. intros E.
  destruct (List.filter _ host_interfaces) as [|y l] eqn:F; [reflexivity|].
  assert (Hy : In y (y :: l)) by now left. rewrite <- F in Hy. apply filter_In in Hy as [Hy1 Hy2].
  assert (existsb (py_eqb (get r "ip")) (List.map (fun host => get host "ip") host_interfaces) = true).
  { apply existsb_exists. exists (get y "ip"). split; [|assumption].
    apply in_map_iff. exists y. split; [reflexivity|assumption]. }
  congruence.
Qed.

Lemma start_probes_run host_interfaces loaded st :
  present loaded (discover_hosts st) ->
  Forall (fun host => truthy (get host "host_id") = true) host_interfaces ->
  start_probes host_interfaces loaded st =
    (Ok (probed host_interfaces loaded),
     set_discover_hosts (probe_rows host_interfaces loaded) st).
Proof.
  intros Hp Hids. revert st Hp. induction loaded as [|r loaded IH]; intros st Hp.
  - destruct st; reflexivity.
  - apply Forall_cons in Hp as [(j & Hj & h & Hh & Hhj) Hp].
    cbn [start_probes]. unfold probe_rows, probed. cbn [foldl List.filter].
    fold (probe_rows host_interfaces loaded). fold (probed host_interfaces loaded).
    fold (is_successful r).
    destruct (py_in _ _) eqn:E.
    + destruct (hit_in _ _ E) as [hid Hhit]. rewrite Hhit.
      unfold hit in Hhit.
      destruct (List.filter _ host_interfaces) as [|host l] eqn:F; [discriminate|].
      injection Hhit as <-. cbn [List.map negb andb].
      destruct (find_row_In "id" (get r "id") _ h Hh) as [h' Hh'].
      { rewrite Hhj, Hj. apply py_eqb_PStr_refl. }
      unfold mbind at 1. unfold M_bind at 1.
      rewrite (update_progress_to_db_ok _ _ _ _ Hh').
      2:{ change (truthy (get host "host_id") = true).
          rewrite Forall_forall in Hids. apply Hids, list_elem_of_In.
          assert (Hy : In host (host :: l)) by now left.
          rewrite <- F in Hy. now apply filter_In in Hy as [? _]. }
      rewrite IH.
      * reflexivity.
      * rewrite set_discover_hosts_discover_hosts, update_rows_touch.
        apply present_map; [|exact Hp]. intros x. now apply touch_id.
    + rewrite (hit_not_in _ _ E). cbn [negb andb].
      destruct (is_successful r); cbn [negb].
      * now apply IH.
      * unfold mbind, M_bind. rewrite IH by assumption. reflexivity.
Qed.

(** ** The discovery batch (C7) *)

Lemma foldl_map_steps (fs : list (dict -> dict)) rows :
  foldl (fun rows f => List.map f rows) rows fs = List.map (run_steps fs) rows.
Proof.
  revert rows. induction fs as [|f fs IH]; intros rows; cbn [foldl].
  - symmetry. unfold run_steps. cbn. apply List.map_id.
  - rewrite IH, List.map_map. reflexivity.
Qed.

Lemma run_steps_cons f fs x : run_steps (f :: fs) x = run_steps fs (f x).
Proof. reflexivity. Qed.

Lemma mark_rows_steps loaded rows :
  mark_rows loaded rows = List.map (run_steps (List.map mark_step loaded)) rows.
Proof.
  rewrite <- foldl_map_steps. unfold mark_rows. revert rows.
  induction loaded as [|r loaded IH]; intros rows; [reflexivity|].
  cbn [foldl List.map]. rewrite <- IH. f_equal. unfold mark_step.
  destruct (is_successful r); [symmetry; apply List.map_id|reflexivity].
Qed.

Lemma probe_rows_steps host_interfaces loaded rows :
  probe_rows host_interfaces loaded rows =
  List.map (run_steps (List.map (probe_step host_interfaces) loaded)) rows.
Proof.
  rewrite <- foldl_map_steps. unfold probe_rows. revert rows.
  induction loaded as [|r loaded IH]; intros rows; [reflexivity|].
  cbn [foldl List.map]. rewrite <- IH. f_equal. unfold probe_step.
  destruct (hit host_interfaces r); [reflexivity|symmetry; apply List.map_id].
Qed.

Lemma mark_step_id r x : get (mark_step r x) "id" = get x "id".
Proof. unfold mark_step. destruct (is_successful r); [reflexivity|]. now apply touch_id. Qed.

Lemma probe_step_id ifs r x : get (probe_step ifs r x) "id" = get x "id".
Proof. unfold probe_step. destruct (hit ifs r); [|reflexivity]. now apply touch_id. Qed.

Lemma run_steps_id fs x :
  Forall (fun f => forall y, get (f y) "id" = get y "id") fs ->
  get (run_steps fs x) "id" = get x "id".
Proof.
  unfold run_steps. revert x. induction fs as [|f fs IH]; intros x H; [reflexivity|].
  apply Forall_cons in H as [Hf H]. cbn [foldl]. rewrite IH by assumption. apply Hf.
Qed.

Lemma mark_steps_id loaded x :
  get (run_steps (List.map mark_step loaded) x) "id" = get x "id".
Proof.
  apply run_steps_id. apply Forall_forall. intros f Hf y.
  apply list_elem_of_In, in_map_iff in Hf as (r & <- & _). apply mark_step_id.
Qed.

Lemma probe_steps_id ifs loaded x :
  get (run_steps (List.map (probe_step ifs) loaded) x) "id" = get x "id".
Proof.
  apply run_steps_id. apply Forall_forall. intros f Hf y.
  apply list_elem_of_In, in_map_iff in Hf as (r & <- & _). apply probe_step_id.
Qed.

(** After the first loop the row of a loaded record that was not yet
    successful says DISCOVERING. *)
Lemma mark_steps_status loaded r x i :
  In r loaded -> is_successful r = false ->
  get r "id" = PStr i -> get x "id" = PStr i ->
  get (run_steps (List.map mark_step loaded) x) "status" = PStr "DISCOVERING".
Proof.
  intros Hin Hs Hr Hx.
  assert (Keep : forall l y, get y "status" = PStr "DISCOVERING" ->
            get (run_steps (List.map mark_step l) y) "status" = PStr "DISCOVERING").
  { induction l as [|a l IH]; intros y Hy; [exact Hy|].
    cbn [List.map]. rewrite run_steps_cons. apply IH.
    unfold mark_step. destruct (is_successful a); [exact Hy|].
    unfold touch. destruct (py_eqb _ _); [|exact Hy].
    now apply get_dict_update_Some. }
  revert x Hx. induction loaded as [|a l IH]; intros x Hx; [destruct Hin|].
  cbn [List.map]. rewrite run_steps_cons.
  destruct Hin as [->|Hin].
  - apply Keep. unfold mark_step. rewrite Hs. unfold touch.
    rewrite Hx, Hr, py_eqb_PStr_refl. now apply get_dict_update_Some.
  - apply IH; [assumption|]. now rewrite mark_step_id.
Qed.

(** After the second loop the row of a loaded record whose ip is bound to
    a registered interface says DISCOVERY_SUCCESSFUL, with the host of the
    first such interface. *)
Lemma probe_steps_status ifs loaded r x i hid :
  NoDup (List.map (fun r => get r "id") loaded) ->
  well_keyed loaded ->
  In r loaded -> hit ifs r = Some hid ->
  get r "id" = PStr i -> get x "id" = PStr i ->
  get (run_steps (List.map (probe_step ifs) loaded) x) "status" = PStr "DISCOVERY_SUCCESSFUL" /\
  get (run_steps (List.map (probe_step ifs) loaded) x) "host_id" = hid.
Proof.
  intros Hnd Hk Hin Hhit Hr Hx.
  assert (Skip : forall l y, get y "id" = PStr i ->
            ~ In (PStr i) (List.map (fun r => get r "id") l) -> well_keyed l ->
            run_steps (List.map (probe_step ifs) l) y = y).
  { induction l as [|a l IH]; intros y Hy Hni Hkl; [reflexivity|].
    apply Forall_cons in Hkl as [[j Hj] Hkl].
    cbn [List.map] in *. rewrite run_steps_cons.
    assert (E : probe_step ifs a y = y).
    { unfold probe_step. destruct (hit ifs a); [|reflexivity]. unfold touch.
      rewrite Hy, Hj. cbn [py_eqb]. destruct (String.eqb_spec i j) as [->|]; [|reflexivity].
      exfalso. apply Hni. left. exact Hj. }
    rewrite E. apply IH; [assumption| |assumption]. intros H. apply Hni. now right. }
  revert x Hx. induction loaded as [|a l IH]; intros x Hx; [destruct Hin|].
  cbn [List.map] in *. apply NoDup_cons in Hnd as [Ha Hnd]. apply Forall_cons in Hk as [[j Hj] Hk].
  rewrite run_steps_cons.
  destruct Hin as [->|Hin].
  - rewrite Skip.
    + unfold probe_step. rewrite Hhit. unfold touch. rewrite Hx, Hr, py_eqb_PStr_refl.
      split; now apply get_dict_update_Some.
    + now rewrite probe_step_id.
    + rewrite <- Hr. intros H. apply Ha. now apply list_elem_of_In.
    + assumption.
  - assert (E : probe_step ifs a x = x).
    { unfold probe_step. destruct (hit ifs a); [|reflexivity]. unfold touch.
      rewrite Hx, Hj. cbn [py_eqb]. destruct (String.eqb_spec i j) as [->|]; [|reflexivity].
      exfalso. apply Ha. rewrite Hj, <- Hr. apply list_elem_of_In, in_map_iff.
      exists r. split; [reflexivity|assumption]. }
    rewrite E. now apply IH.
Qed.

Lemma loaded_records_In cid st r : In r (loaded_records cid st) -> In r (discover_hosts st).
Proof.
  unfold loaded_records. destruct (truthy cid); [|auto]. intros H. now apply filter_In in H as [? _].
Qed.

Lemma NoDup_map_filter {A B} (f : A -> B) p (l : list A) :
  NoDup (List.map f l) -> NoDup (List.map f (List.filter p l)).
Proof.
  induction l as [|a l IH]; [auto|]. cbn [List.map List.filter]. intros H.
  apply NoDup_cons in H as [Ha H]. destruct (p a); [|auto].
  cbn [List.map]. apply NoDup_cons. split; [|auto].
  intros Hin. apply Ha. apply list_elem_of_In in Hin. apply list_elem_of_In.
  apply in_map_iff in Hin as (x & Hx & Hin). apply in_map_iff. exists x.
  split; [assumption|]. now apply filter_In in Hin as [? _].
Qed.

Lemma registered_interfaces_host_id st :
  Forall (fun h => truthy (get h "id") = true) (hosts st) ->
  Forall (fun host => truthy (get host "host_id") = true) (registered_interfaces st).
Proof.
  intros H. apply Forall_forall. intros x Hx.
  apply list_elem_of_In in Hx. unfold registered_interfaces in Hx.
  apply in_flat_map in Hx as (h & Hh & Hx).
  destruct (get h "interfaces") as [| | | |l|]; try contradiction.
  apply in_flat_map in Hx as (i & Hi & Hx). destruct i as [| | | | |d]; try contradiction.
  destruct Hx as [<-|[]]. unfold get. rewrite lookup_insert_eq. cbn [default].
  rewrite Forall_forall in H. apply H. now apply list_elem_of_In.
Qed.

(** C7. At the start of a discovery batch every loaded DiscoverHost record
    whose status is not DISCOVERY_SUCCESSFUL is set to DISCOVERING; then
    every loaded record whose ip is the ip of a registered host interface is
    set to DISCOVERY_SUCCESSFUL with the host id of that interface recorded,
    and no probe thread is started for it. (The registry holds one record
    per id, ids are strings, and every registered host has an id.) *)
Theorem discovery_batch_start (host_meta : dict) (st : registry)
    (Hkeys : Forall (fun r => exists j, get r "id" = PStr j) (discover_hosts st))
    (Hnodup : NoDup (List.map (fun r => get r "id") (discover_hosts st)))
    (Hhosts : Forall (fun h => truthy (get h "id") = true) (hosts st)) :
  let loaded := loaded_records (get host_meta "cluster_id") st in
  let host_interfaces := registered_interfaces st in
  get_discover_hosts_detail (get host_meta "cluster_id") st = (Ok loaded, st) /\
  get_all_host_interfaces st = (Ok host_interfaces, st) /\
  (exists st1, mark_discovering loaded st = (Ok tt, st1) /\
     forall r, In r loaded -> get r "status" <> PStr "DISCOVERY_SUCCESSFUL" ->
       exists r1, find_row "id" (get r "id") (discover_hosts st1) = Some r1 /\
                  get r1 "status" = PStr "DISCOVERING") /\
  (exists threads st2, discover_host_bin host_meta st = (Ok threads, st2) /\
     forall r host,
       In r loaded ->
       List.find (fun host => py_eqb (get r "ip") (get host "ip")) host_interfaces
         = Some host ->
       ~ In r threads /\
       exists r2, find_row "id" (get r "id") (discover_hosts st2) = Some r2 /\
                  get r2 "status" = PStr "DISCOVERY_SUCCESSFUL" /\
                  get r2 "host_id" = get host "host_id").
Proof.
  intros loaded host_interfaces.
  assert (Hload : get_discover_hosts_detail (get host_meta "cluster_id") st = (Ok loaded, st)).
  { unfold get_discover_hosts_detail, reading, loaded, loaded_records.
    destruct (truthy _); reflexivity. }
  assert (Hifs : get_all_host_interfaces st = (Ok host_interfaces, st)) by reflexivity.
  assert (Hpres : present loaded (discover_hosts st)).
  { apply Forall_forall. intros r Hr%list_elem_of_In.
    rewrite Forall_forall in Hkeys.
    pose proof (loaded_records_In _ _ _ Hr) as Hin.
    destruct (Hkeys r ltac:(now apply list_elem_of_In)) as [j Hj].
    exists j. split; [assumption|]. exists r. split; assumption. }
  assert (Hlk : well_keyed loaded).
  { apply Forall_forall. intros r Hr%list_elem_of_In. rewrite Forall_forall in Hkeys.
    apply Hkeys, list_elem_of_In. eapply loaded_records_In; eassumption. }
  assert (Hlnd : NoDup (List.map (fun r => get r "id") loaded)).
  { unfold loaded, loaded_records. destruct (truthy _); [|assumption].
    now apply NoDup_map_filter. }
  split; [exact Hload|]. split; [exact Hifs|]. split.
  - eexists. split; [apply mark_discovering_run; exact Hpres|].
    intros r Hr Hs. apply py_eqb_PStr_ne in Hs. fold (is_successful r) in Hs.
    destruct (proj1 (Forall_forall _ _) Hlk r ltac:(now apply list_elem_of_In)) as [i Hi].
    rewrite set_discover_hosts_discover_hosts, mark_rows_steps, Hi.
    rewrite find_row_map by apply mark_steps_id.
    rewrite (find_row_NoDup _ r i Hnodup) by (eauto using loaded_records_In).
    eexists. split; [reflexivity|]. cbn [fmap option_fmap option_map].
    eapply mark_steps_status; eassumption.
  - unfold discover_host_bin.
    unfold mbind at 1. unfold M_bind at 1. rewrite Hload.
    unfold mbind at 1. unfold M_bind at 1. rewrite Hifs.
    unfold mbind at 1. unfold M_bind at 1. rewrite (mark_discovering_run _ _ Hpres).
    rewrite start_probes_run.
    2:{ rewrite set_discover_hosts_discover_hosts, mark_rows_steps.
        apply present_map; [apply mark_steps_id|exact Hpres]. }
    2:{ now apply registered_interfaces_host_id. }
    do 2 eexists. split; [reflexivity|].
    intros r host Hr Hfind.
    assert (Hhit : hit host_interfaces r = Some (get host "host_id")).
    { unfold hit. clear -Hfind. induction host_interfaces as [|a l IH]; [discriminate|].
      cbn [List.find List.filter] in *.
      destruct (py_eqb (get r "ip") (get a "ip")); [now injection Hfind as ->|auto]. }
    split.
    + unfold probed. rewrite filter_In. intros [_ H].
      apply andb_true_iff in H as [H _]. apply negb_true_iff in H.
      rewrite (hit_not_in _ _ H) in Hhit. discriminate.
    + destruct (proj1 (Forall_forall _ _) Hlk r ltac:(now apply list_elem_of_In)) as [i Hi].
      rewrite !set_discover_hosts_discover_hosts, mark_rows_steps, probe_rows_steps, Hi.
      rewrite find_row_map by apply probe_steps_id.
      rewrite find_row_map by apply mark_steps_id.
      rewrite (find_row_NoDup _ r i Hnodup) by (eauto using loaded_records_In).
      eexists. split; [reflexivity|]. cbn [fmap option_fmap option_map].
      eapply probe_steps_status; try eassumption.
      now rewrite mark_steps_id.
Qed.

(** ** Resubmitting a discover host (C6) *)

Lemma truthy_PDict_key (d : dict) k v : d !! k = Some v -> truthy (PDict d) = true.
Proof.
  intros H. cbn. destruct (Nat.eqb_spec (size d) 0) as [E|]; [|reflexivity].
  apply map_size_empty_inv in E. subst d. rewrite lookup_empty in H. discriminate.
Qed.

Lemma get_PStr_lookup (d : dict) k s : get d k = PStr s -> d !! k = Some (PStr s).
Proof. unfold get. destruct (d !! k); cbn; [congruence|discriminate]. Qed.

Lemma _get_discover_host_ip_run st :
  _get_discover_host_ip st =
    (Ok (List.map (fun host => get host "ip")
           (List.filter (fun host => truthy (get host "ip")) (discover_hosts st))), st).
Proof. reflexivity. Qed.

Lemma _get_host_by_ip_run host_ip st :
  _get_host_by_ip host_ip st =
    (Ok (List.find (fun host => py_eqb (get host "ip") host_ip) (discover_hosts st)), st).
Proof. reflexivity. Qed.

(** C6 as the code has it. Let [host] be the (first) DiscoverHost record
    with the ip of an authorised discover-host request. If its status is
    anything but DISCOVERY_SUCCESSFUL, in particular DISCOVERY_FAILED, the
    request resets the record: status 'init', message 'None'. If its status
    is DISCOVERY_SUCCESSFUL the request is refused with Forbidden and no
    record changes. *)
Theorem discover_host_resubmission
    (env : collaborators) (req : request) (host_meta host : dict) (st : registry)
    (ip hid : string)
    (Hpolicy : policy_allows req "add_discover_host" = true)
    (Hip : get host_meta "ip" = PStr ip)
    (Hne : ip <> "")
    (Hfirst : List.find (fun r => py_eqb (get r "ip") (PStr ip)) (discover_hosts st)
              = Some host)
    (Hid : get host "id" = PStr hid) :
  let reset :=
    exists row,
      add_discover_host env req host_meta st =
        (Ok row,
         set_discover_hosts (update_rows (PStr hid) (reset_info host_meta host)) st) /\
      In (dict_update (reset_info host_meta host) host)
         (update_rows (PStr hid) (reset_info host_meta host) (discover_hosts st)) /\
      get (dict_update (reset_info host_meta host) host) "status" = PStr "init" /\
      get (dict_update (reset_info host_meta host) host) "message" = PStr "None" /\
      get (dict_update (reset_info host_meta host) host) "id" = PStr hid in
  (get host "status" <> PStr "DISCOVERY_SUCCESSFUL" -> reset) /\
  (get host "status" = PStr "DISCOVERY_FAILED" -> reset) /\
  (get host "status" = PStr "DISCOVERY_SUCCESSFUL" ->
     add_discover_host env req host_meta st = (Err already_discovered, st)).
Proof.
  destruct (find_some _ _ Hfirst) as [Hin Heq].
  apply py_eqb_PStr_r in Heq.
  assert (Hips : py_in (PStr ip)
            (List.map (fun host => get host "ip")
               (List.filter (fun host => truthy (get host "ip")) (discover_hosts st))) = true).
  { unfold py_in. apply existsb_exists. exists (PStr ip). split; [|apply py_eqb_PStr_refl].
    apply in_map_iff. exists host. split; [assumption|]. apply filter_In. split; [assumption|].
    rewrite Heq. now apply truthy_PStr. }
  assert (Htruthy : truthy (PDict host) = true).
  { eapply truthy_PDict_key. apply get_PStr_lookup. exact Hid. }
  assert (Hrow : is_Some (find_row "id" (PStr hid) (discover_hosts st))).
  { eapply find_row_In; [exact Hin|]. rewrite Hid. apply py_eqb_PStr_refl. }
  assert (Hrun : add_discover_host env req host_meta st =
    if negb (py_eqb (get host "status") (PStr "DISCOVERY_SUCCESSFUL"))
    then update_discover_host_metadata (PStr hid) (reset_info host_meta host) st
    else (Err already_discovered, st)).
  { unfold add_discover_host, _enforce. rewrite Hpolicy.
    unfold mbind at 1. unfold M_bind at 1. unfold mret at 1. unfold M_ret at 1.
    rewrite Hip, (truthy_PStr _ Hne). cbn [negb].
    unfold mbind at 1. unfold M_bind at 1. rewrite _get_discover_host_ip_run, Hips.
    unfold mbind at 1. unfold M_bind at 1. rewrite _get_host_by_ip_run, Hfirst, Htruthy, Hid.
    cbn [andb].
    destruct (py_eqb (get host "status") (PStr "DISCOVERY_SUCCESSFUL")); reflexivity. }
  assert (Hreset : get host "status" <> PStr "DISCOVERY_SUCCESSFUL" ->
    exists row,
      add_discover_host env req host_meta st =
        (Ok row,
         set_discover_hosts (update_rows (PStr hid) (reset_info host_meta host)) st) /\
      In (dict_update (reset_info host_meta host) host)
         (update_rows (PStr hid) (reset_info host_meta host) (discover_hosts st)) /\
      get (dict_update (reset_info host_meta host) host) "status" = PStr "init" /\
      get (dict_update (reset_info host_meta host) host) "message" = PStr "None" /\
      get (dict_update (reset_info host_meta host) host) "id" = PStr hid);
    [|split; [exact Hreset|split]].
  - intros Hs. rewrite Hrun, (py_eqb_PStr_ne _ _ Hs). cbn [negb].
    destruct Hrow as [h Hh]. unfold update_discover_host_metadata. rewrite Hh.
    eexists. split; [reflexivity|].
    split.
    { rewrite update_rows_touch. apply in_map_iff. exists host. split; [|assumption].
      unfold touch. now rewrite Hid, py_eqb_PStr_refl. }
    split; [now apply get_dict_update_Some|].
    split; [now apply get_dict_update_Some|].
    rewrite get_dict_update_None by reflexivity. exact Hid.
  - intros Hs. apply Hreset. rewrite Hs. discriminate.
  - intros Hs. rewrite Hrun, Hs, py_eqb_PStr_refl. reflexivity.
Qed.

(** ** The password file (C3) *)

Section Passwords.

Variable generate_RSA : nat -> string * string.

Variable uuid4 : nat -> string.

Variable choice : nat -> nat.

Lemma py_eqb_PNone v : py_eqb v PNone = true <-> v = PNone.
Proof. destruct v; cbn; split; congruence. Qed.

Lemma fill_spec k v tick (m : dict) :
  readable k v -> m !! k = Some v ->
  exists tick' m',
    fill generate_RSA uuid4 choice k v (tick, m) = Ok (tick', m') /\
    (forall k', k' <> k -> m' !! k' = m !! k') /\
    filled generate_RSA choice k v (m' !! k).
Proof.
  intros Hr Hm. unfold fill, filled, wants_keypair.
  destruct (mem k ssh_keys) eqn:Essh; cbn [andb].
  - destruct (Hr Essh) as [->|[d ->]]; cbn [py_eqb orb mbind result_bind get_of].
    + do 2 eexists. split; [reflexivity|]. split.
      * intros k' Hk. now rewrite lookup_insert_ne.
      * rewrite lookup_insert_eq. eauto.
    + destruct (py_eqb (get d "public_key") PNone); cbn [andb mbind result_bind].
      * destruct (py_eqb (get d "private_key") PNone); cbn [mbind result_bind].
        -- do 2 eexists. split; [reflexivity|]. split.
           ++ intros k' Hk. now rewrite lookup_insert_ne.
           ++ rewrite lookup_insert_eq. eauto.
        -- do 2 eexists. split; [reflexivity|]. split; [reflexivity|exact Hm].
      * do 2 eexists. split; [reflexivity|]. split; [reflexivity|exact Hm].
  - cbn [mbind result_bind].
    destruct (py_eqb v PNone) eqn:Ev.
    + apply py_eqb_PNone in Ev. subst v.
      destruct (mem k blank_keys).
      { do 2 eexists. split; [reflexivity|]. split; [reflexivity|exact Hm]. }
      destruct (mem k uuid_keys), (mem k keystone_admin_password);
        do 2 eexists; (split; [reflexivity|]); (split;
          [intros k' Hk; rewrite ?lookup_insert_ne by congruence; reflexivity
          |rewrite ?lookup_insert_eq; eauto]).
    + do 2 eexists. split; [reflexivity|]. split; [reflexivity|exact Hm].
Qed.

Lemma fill_all_spec items :
  NoDup (items.*1) ->
  forall tick (m : dict),
  (forall k v, In (k, v) items -> readable k v /\ m !! k = Some v) ->
  exists tick' m',
    fill_all generate_RSA uuid4 choice items (tick, m) = Ok (tick', m') /\
    (forall k', ~ In k' (items.*1) -> m' !! k' = m !! k') /\
    (forall k v, In (k, v) items -> filled generate_RSA choice k v (m' !! k)).
Proof.
  unfold fill_all.
  induction items as [|[k v] items IH]; intros Hnd tick m Hitems.
  - exists tick, m. split; [reflexivity|]. split; [reflexivity|]. intros k v [].
  - cbn [fmap list_fmap fst] in Hnd. apply NoDup_cons in Hnd as [Hk Hnd].
    destruct (Hitems k v ltac:(now left)) as [Hr Hm].
    destruct (fill_spec k v tick m Hr Hm) as (t1 & m1 & E1 & F1 & P1).
    destruct (IH Hnd t1 m1) as (t2 & m2 & E2 & F2 & P2).
    { intros k' v' Hin. destruct (Hitems k' v' ltac:(now right)) as [Hr' Hm'].
      split; [assumption|]. rewrite F1; [assumption|].
      intros ->. apply Hk. apply list_elem_of_In, in_map_iff. exists (k, v'). auto. }
    exists t2, m2. cbn [foldl]. cbn [mbind result_bind]. rewrite E1. split; [exact E2|]. split.
    + intros k' Hk'. cbn [fmap list_fmap fst] in Hk'.
      rewrite F2 by (intros H; apply Hk'; now right).
      apply F1. intros ->. apply Hk'. now left.
    + intros k' v' [[= -> ->]|Hin]; [|now apply P2].
      rewrite F2; [exact P1|]. intros H. apply Hk. now apply list_elem_of_In.
Qed.

Lemma pick_alphabet t : In (pick choice t) alphabet.
Proof.
  unfold pick. apply nth_In. apply Nat.mod_upper_bound. vm_compute. discriminate.
Qed.

Lemma random_chars_spec n t :
  length (random_chars choice n t) = n /\
  Forall (fun c => In c alphabet) (random_chars choice n t).
Proof.
  revert t. induction n as [|n IH]; intros t; cbn [random_chars].
  - split; [reflexivity|constructor].
  - destruct (IH (S t)) as [H1 H2]. split; [cbn; now rewrite H1|].
    constructor; [apply pick_alphabet|exact H2].
Qed.

Lemma alphabet_alnum : forallb is_alnum alphabet = true.
Proof. vm_compute. reflexivity. Qed.

Lemma length_string_of_list_ascii l :
  String.length (String.string_of_list_ascii l) = length l.
Proof. induction l as [|c l IH]; cbn; [reflexivity|now rewrite IH]. Qed.

(** A generated password: forty letters and digits. *)
Lemma random_password_spec t :
  String.length (random_password choice t) = 40%nat /\
  forallb is_alnum (chars (random_password choice t)) = true.
Proof.
  unfold random_password, chars.
  destruct (random_chars_spec length_of_password t) as [H1 H2].
  rewrite String.list_ascii_of_string_of_list_ascii. split.
  - rewrite length_string_of_list_ascii. exact H1.
  - apply forallb_forall. intros c Hc. rewrite Forall_forall in H2.
    apply list_elem_of_In, H2 in Hc.
    pose proof alphabet_alnum as A. rewrite forallb_forall in A. now apply A.
Qed.

(** C3 as the code has it. Provided every SSH-key-pair key holds nothing
    or a mapping, [update_password_yml] returns, and under every key k of
    the file: an SSH-key-pair key whose value is None, or a mapping with
    neither public_key nor private_key, receives a generated RSA keypair;
    otherwise, when the value is None, a blank-exempt key stays None, the
    keystone admin key receives 'keystone', and every key that is neither
    of these nor UUID-typed receives 40 random letters and digits; every
    other key keeps its value. *)
Theorem password_fill_policy (passwords : dict)
    (Hssh : forall k v, passwords !! k = Some v -> mem k ssh_keys = true ->
              v = PNone \/ exists d, v = PDict d) :
  exists out,
    update_password_yml generate_RSA uuid4 choice passwords = Ok out /\
    forall k v, passwords !! k = Some v ->
      (wants_keypair k v = true -> exists t, out !! k = Some (keypair generate_RSA t)) /\
      (wants_keypair k v = false -> v = PNone -> mem k blank_keys = true ->
         out !! k = Some PNone) /\
      (wants_keypair k v = false -> v = PNone -> mem k blank_keys = false ->
         mem k keystone_admin_password = true -> out !! k = Some (PStr "keystone")) /\
      (wants_keypair k v = false -> v = PNone -> mem k blank_keys = false ->
         mem k keystone_admin_password = false -> mem k uuid_keys = false ->
         exists t, out !! k = Some (PStr (random_password choice t)) /\
                   String.length (random_password choice t) = 40%nat /\
                   forallb is_alnum (chars (random_password choice t)) = true) /\
      (wants_keypair k v = false -> v <> PNone -> out !! k = Some v).
Proof.
  destruct (fill_all_spec (map_to_list passwords) (NoDup_fst_map_to_list _) O passwords)
    as (t & out & E & _ & P).
  { intros k v Hin. apply list_elem_of_In, elem_of_map_to_list in Hin.
    split; [|assumption]. intros Hm. eauto. }
  exists out. split.
  { unfold update_password_yml. rewrite E. reflexivity. }
  intros k v Hkv.
  assert (Hin : In (k, v) (map_to_list passwords))
    by now apply list_elem_of_In, elem_of_map_to_list.
  specialize (P k v Hin). unfold filled in P.
  repeat split.
  - intros W. now rewrite W in P.
  - intros W -> B. now rewrite W, B in P.
  - intros W -> B K. now rewrite W, B, K in P.
  - intros W -> B K U. rewrite W, B, K, U in P. cbn [py_eqb] in P.
    destruct P as [t' Ht']. exists t'. split; [assumption|]. apply random_password_spec.
  - intros W Hv. rewrite W in P.
    destruct (py_eqb v PNone) eqn:Ev; [apply py_eqb_PNone in Ev; contradiction|assumption].
Qed.

End Passwords.

(** ** The freeze blocks of [update_host] *)

Lemma M_bind_run {A B} (m : M A) (f : A -> M B) st :
  (m ≫= f) st = match m st with
                | (Ok a, st') => f a st'
                | (Err e, st') => (Err e, st')
                end.
Proof. reflexivity. Qed.

Lemma M_bind_ok {A B} (m : M A) (f : A -> M B) st b st' :
  (m ≫= f) st = (Ok b, st') ->
  exists a st1, m st = (Ok a, st1) /\ f a st1 = (Ok b, st').
Proof.
  rewrite M_bind_run. destruct (m st) as [[a|e] st1]; [eauto|discriminate].
Qed.

Lemma lift_ok {A} (r : result A) st a st' :
  lift r st = (Ok a, st') -> r = Ok a /\ st' = st.
Proof. unfold lift. intros [= -> ->]. auto. Qed.

Lemma result_bind_ok {A B} (m : result A) (f : A -> result B) b :
  m ≫= f = Ok b -> exists a, m = Ok a /\ f a = Ok b.
Proof. destruct m as [a|e]; cbn; [eauto|discriminate]. Qed.

Lemma nf_ok {A} (a : A) : nf (Ok a).
Proof. intros e [=]. Qed.

Lemma nf_why {A} k msg : nf (@Err A (HTTP k (Why msg))).
Proof. intros e [= <-] f. discriminate. Qed.

Lemma nf_uncaught {A} x : nf (@Err A (Uncaught x)).
Proof. intros e [= <-] f. discriminate. Qed.

Lemma nf_bind {A B} (m : result A) (f : A -> result B) :
  nf m -> (forall a, nf (f a)) -> nf (m ≫= f).
Proof.
  intros Hm Hf e. destruct m as [a|e']; cbn; [apply Hf|]. intros [= <-]. now apply Hm.
Qed.

Lemma nf_ensure b k msg : nf (ensure b (HTTP k (Why msg))).
Proof. destruct b; [apply nf_ok|apply nf_why]. Qed.

Lemma nf_for_each {A} (f : A -> result unit) l : (forall x, nf (f x)) -> nf (for_each f l).
Proof.
  intros Hf. induction l as [|x l IH]; cbn [for_each]; [apply nf_ok|].
  apply nf_bind; [apply Hf|intros _; exact IH].
Qed.

Lemma nf_mapM {A B} (f : A -> result B) l : (forall x, nf (f x)) -> nf (mapM f l).
Proof.
  intros Hf. induction l as [|x l IH]; cbn [mapM]; [apply nf_ok|].
  apply nf_bind; [apply Hf|intros y]. apply nf_bind; [exact IH|intros ys; apply nf_ok].
Qed.

Lemma nf_foldl {A B} (g : B -> A -> result B) (init : result B) l :
  nf init -> (forall b x, nf (g b x)) ->
  nf (foldl (fun acc x => b ← acc; g b x) init l).
Proof.
  intros Hi Hg. revert init Hi. induction l as [|x l IH]; intros init Hi; cbn [foldl]; [exact Hi|].
  apply IH. apply nf_bind; [exact Hi|intros b; apply Hg].
Qed.

Lemma nf_getitem d k : nf (getitem d k).
Proof. unfold getitem. destruct (d !! k); [apply nf_ok|apply nf_uncaught]. Qed.

Lemma nf_py_int v : nf (py_int v).
Proof.
  destruct v; cbn; try apply nf_ok; try apply nf_uncaught.
  destruct (int_of_chars _); [apply nf_ok|apply nf_uncaught].
Qed.

Lemma nf_as_str v : nf (as_str v).
Proof. destruct v; cbn; try apply nf_ok; apply nf_uncaught. Qed.

Lemma nf_as_list v : nf (as_list v).
Proof. destruct v; cbn; try apply nf_ok; apply nf_uncaught. Qed.

Lemma nf_as_dict v : nf (as_dict v).
Proof. destruct v; cbn; try apply nf_ok; apply nf_uncaught. Qed.

Lemma nf_as_int v : nf (as_int v).
Proof. destruct v; cbn; try apply nf_ok; apply nf_uncaught. Qed.

Lemma nf_py_set v : nf (py_set v).
Proof.
  unfold py_set. apply nf_bind.
  - destruct v; cbn; try apply nf_ok; apply nf_uncaught.
  - intros l. destruct (forallb hashable l); [apply nf_ok|apply nf_uncaught].
Qed.

Lemma nf_get_of v k : nf (get_of v k).
Proof. destruct v; cbn; try apply nf_ok; apply nf_uncaught. Qed.

Lemma nf_item_of v k : nf (item_of v k).
Proof. unfold item_of. apply nf_bind; [apply nf_as_dict|intros d; apply nf_getitem]. Qed.

Lemma nf_leading_int s : nf (leading_int s).
Proof.
  unfold leading_int. destruct (words _); [apply nf_uncaught|].
  destruct (int_of_chars _); [apply nf_ok|apply nf_uncaught].
Qed.

Lemma nf_leading_int_sp s : nf (leading_int_sp s).
Proof.
  unfold leading_int_sp. destruct (split_on _ _); [apply nf_uncaught|].
  destruct (int_of_chars _); [apply nf_ok|apply nf_uncaught].
Qed.

Lemma nf_eval env v : nf (eval env v).
Proof.
  destruct v; cbn; try apply nf_uncaught. destruct (ext_eval_str env s); [apply nf_ok|apply nf_uncaught].
Qed.

Lemma nf_dicts_of v : nf (dicts_of v).
Proof.
  unfold dicts_of. apply nf_bind; [apply nf_as_list|intros l]. apply nf_mapM.
  intros x. destruct x; try apply nf_uncaught. apply nf_ok.
Qed.

Create HintDb nf.

#[export] Hint Resolve nf_ok nf_why nf_uncaught nf_ensure nf_getitem nf_py_int nf_as_str
  nf_as_list nf_as_dict nf_as_int nf_py_set nf_get_of nf_item_of nf_leading_int
  nf_leading_int_sp nf_eval nf_dicts_of : nf.

(** Structural descent through a computation in the error monad. *)
Ltac nf_step :=
  match goal with
  | |- nf (mbind _ _) => apply nf_bind; [|intros ?]
  | |- nf (for_each _ _) => apply nf_for_each; intros ?
  | |- nf (mapM _ _) => apply nf_mapM; intros ?
  | |- nf (foldl _ _ _) => apply nf_foldl; [|intros ? ?]
  | |- nf (if ?b then _ else _) => destruct b
  | |- nf (let '(_, _) := ?x in _) => destruct x
  | |- nf (match ?x with _ => _ end) => destruct x
  | |- nf _ => solve [auto with nf]
  end.

Ltac solve_nf := repeat nf_step.

Lemma nf_validate_ip_format v : nf (validate_ip_format v).
Proof. unfold validate_ip_format. solve_nf. Qed.

Lemma nf_compare_between l : nf (_compare_assigned_networks_between_interfaces l).
Proof.
  induction l as [|i1 rest IH]; cbn [_compare_assigned_networks_between_interfaces]; [apply nf_ok|].
  apply nf_bind; [|intros _; exact IH]. solve_nf.
Qed.

Lemma nf_compute_hugepage_memory h m s : nf (_compute_hugepage_memory h m s).
Proof. unfold _compute_hugepage_memory. solve_nf. Qed.

Lemma nf_check_bond_slaves_validity l e : nf (check_bond_slaves_validity l e).
Proof. unfold check_bond_slaves_validity. solve_nf. Qed.

#[export] Hint Resolve nf_validate_ip_format nf_compare_between nf_compute_hugepage_memory
  nf_check_bond_slaves_validity : nf.

Lemma nf_check_nics acc : nf (check_nics acc).
Proof. unfold check_nics. solve_nf. Qed.

Lemma nf_update_host_interfaces_param env hm orig :
  nf (update_host_interfaces_param env hm orig).
Proof. unfold update_host_interfaces_param. solve_nf. Qed.

Lemma nf_update_host_resource_type hm : nf (update_host_resource_type hm).
Proof. unfold update_host_resource_type. solve_nf. Qed.

Lemma nf_check_root_lv_size orig rd v : nf (check_root_lv_size orig rd v).
Proof. unfold check_root_lv_size. solve_nf. Qed.

Lemma nf_disk_is_remote d : nf (disk_is_remote d).
Proof. unfold disk_is_remote. solve_nf. Qed.

#[export] Hint Resolve nf_check_nics nf_check_root_lv_size nf_disk_is_remote : nf.

Lemma nf_local_disk_storage_size_b disks : nf (local_disk_storage_size_b disks).
Proof.
  unfold local_disk_storage_size_b.
  generalize (map_to_list disks). intros l.
  assert (G : forall init, nf init ->
    nf (foldl (fun acc '(key, disk) =>
      disk_storage_size_b ← acc;
      remote ← disk_is_remote disk;
      if remote : bool then Ok disk_storage_size_b
      else stroage_size_str ← item_of disk "size";
           stroage_size_str ← as_str stroage_size_str;
           stroage_size_b_int ← leading_int stroage_size_str;
           Ok (disk_storage_size_b + stroage_size_b_int)) init l)).
  { induction l as [|[k d] l IH]; intros init Hi; cbn [foldl]; [exact Hi|].
    apply IH. solve_nf. }
  apply G, nf_ok.
Qed.

#[export] Hint Resolve nf_local_disk_storage_size_b : nf.

Lemma nf_check_swap_lv_size env hm orig n v roles :
  nf (check_swap_lv_size env hm orig n v roles).
Proof. unfold check_swap_lv_size. solve_nf. Qed.

Lemma nf_check_isolcpus i c : nf (check_isolcpus i c).
Proof. unfold check_isolcpus. solve_nf. Qed.

#[export] Hint Resolve nf_check_swap_lv_size nf_check_isolcpus : nf.

Lemma nf_update_host_role env hm roles : nf (update_host_role env hm roles).
Proof. unfold update_host_role. solve_nf. Qed.

Lemma nf_update_host_os_status hm : nf (update_host_os_status hm).
Proof. unfold update_host_os_status. solve_nf. Qed.

Lemma nf_memory_total orig : nf (memory_total orig).
Proof. unfold memory_total. solve_nf. Qed.

Lemma nf_memory_int m : nf (memory_int m).
Proof. unfold memory_int. solve_nf. Qed.

#[export] Hint Resolve nf_memory_total nf_memory_int : nf.

Lemma nf_check_dvs_huge env hm orig : nf (_check_dvs_huge env hm orig).
Proof. unfold _check_dvs_huge. solve_nf. Qed.

Section Unfrozen.

Context (env : collaborators) (host_meta orig_host_meta : dict).

Hypothesis Hfree : frozen host_meta orig_host_meta = false.

Lemma nf_update_host_root_disk : nf (update_host_root_disk host_meta orig_host_meta).
Proof. unfold update_host_root_disk. rewrite Hfree. solve_nf. Qed.

Lemma nf_update_host_root_lv_size rd :
  nf (update_host_root_lv_size host_meta orig_host_meta rd).
Proof. unfold update_host_root_lv_size. rewrite Hfree. solve_nf. Qed.

Lemma nf_update_host_swap_lv_size n roles :
  nf (update_host_swap_lv_size env host_meta orig_host_meta n roles).
Proof. unfold update_host_swap_lv_size. rewrite Hfree. solve_nf. Qed.

Lemma nf_update_host_root_pwd : nf (update_host_root_pwd host_meta orig_host_meta).
Proof. unfold update_host_root_pwd. rewrite Hfree. solve_nf. Qed.

Lemma nf_update_host_isolcpus : nf (update_host_isolcpus host_meta orig_host_meta).
Proof. unfold update_host_isolcpus. rewrite Hfree. solve_nf. Qed.

Lemma nf_update_host_hugepages : nf (update_host_hugepages host_meta orig_host_meta).
Proof. unfold update_host_hugepages. rewrite Hfree. solve_nf. Qed.

Lemma nf_update_host_hugepagesize : nf (update_host_hugepagesize host_meta orig_host_meta).
Proof. unfold update_host_hugepagesize. rewrite Hfree. solve_nf. Qed.

Lemma nf_update_host_os_version : nf (update_host_os_version host_meta orig_host_meta).
Proof. unfold update_host_os_version. rewrite Hfree. solve_nf. Qed.

End Unfrozen.

Ltac keeps_inv H :=
  repeat match type of H with
         | context [if ?b then _ else _] => destruct b
         | (_ ≫= _) = Ok _ =>
             let x := fresh "x" in let E := fresh "E" in
             apply result_bind_ok in H as (x & E & H)
         | (let '(_, _) := ?x in _) = _ => destruct x
         | raise_frozen _ _ = Ok _ =>
             unfold raise_frozen in H
         | Ok _ = Ok _ => injection H as <-
         | Ok _ = Ok _ => injection H as <- <-
         | Err _ = Ok _ => discriminate H
         end.

Ltac solve_keeps :=
  let a := fresh "a" in let H := fresh "H" in
  intros a H; keeps_inv H; cbn [fst snd];
  rewrite ?lookup_insert_ne by congruence; reflexivity.

Section Keeps.

Context (env : collaborators) (k : string) (host_meta orig_host_meta : dict).

Lemma keeps_root_disk :
  k <> "root_disk" -> keeps fst k host_meta (update_host_root_disk host_meta orig_host_meta).
Proof. intros Hk. unfold update_host_root_disk. solve_keeps. Qed.

Lemma keeps_root_lv_size rd :
  k <> "root_lv_size" ->
  keeps fst k host_meta (update_host_root_lv_size host_meta orig_host_meta rd).
Proof. intros Hk. unfold update_host_root_lv_size. solve_keeps. Qed.

Lemma keeps_swap_lv_size n roles :
  k <> "swap_lv_size" ->
  keeps (fun x => x) k host_meta (update_host_swap_lv_size env host_meta orig_host_meta n roles).
Proof.
  intros Hk. unfold update_host_swap_lv_size. intros a H.
  destruct (frozen _ _).
  - keeps_inv H; rewrite ?lookup_insert_ne by congruence; reflexivity.
  - apply result_bind_ok in H as ([hm sw] & E & H).
    apply result_bind_ok in H as (? & _ & [= <-]).
    keeps_inv E; rewrite ?lookup_insert_ne by congruence; reflexivity.
Qed.

Lemma keeps_root_pwd :
  k <> "root_pwd" -> keeps (fun x => x) k host_meta (update_host_root_pwd host_meta orig_host_meta).
Proof. intros Hk. unfold update_host_root_pwd. solve_keeps. Qed.

Lemma keeps_isolcpus :
  k <> "isolcpus" -> keeps (fun x => x) k host_meta (update_host_isolcpus host_meta orig_host_meta).
Proof. intros Hk. unfold update_host_isolcpus. solve_keeps. Qed.

Lemma keeps_role roles :
  k <> "role" -> keeps (fun x => x) k host_meta (update_host_role env host_meta roles).
Proof. intros Hk. unfold update_host_role. solve_keeps. Qed.

Lemma keeps_hugepages :
  k <> "hugepages" -> keeps (fun x => x) k host_meta (update_host_hugepages host_meta orig_host_meta).
Proof. intros Hk. unfold update_host_hugepages. solve_keeps. Qed.

Lemma keeps_hugepagesize :
  k <> "hugepagesize" ->
  keeps (fun x => x) k host_meta (update_host_hugepagesize host_meta orig_host_meta).
Proof.
  intros Hk. unfold update_host_hugepagesize. intros a H.
  destruct (frozen _ _).
  - keeps_inv H; reflexivity.
  - destruct (has_key host_meta "hugepagesize"); [|now injection H as <-].
    apply result_bind_ok in H as (? & _ & H).
    apply result_bind_ok in H as (? & _ & H).
    apply result_bind_ok in H as (hm & E & H).
    repeat (apply result_bind_ok in H as (? & _ & H)). injection H as <-.
    keeps_inv E; rewrite ?lookup_insert_ne by congruence; reflexivity.
Qed.

Lemma keeps_ipmi :
  k <> "ipmi_user" -> k <> "ipmi_passwd" ->
  update_host_ipmi host_meta orig_host_meta !! k = host_meta !! k.
Proof.
  intros H1 H2. unfold update_host_ipmi.
  repeat match goal with |- context [if ?b then _ else _] => destruct b end;
    rewrite ?lookup_insert_ne by congruence; reflexivity.
Qed.

Lemma keeps_ready :
  k <> "role" -> k <> "os_progress" -> k <> "messages" ->
  _ready_to_discover_host host_meta orig_host_meta !! k = host_meta !! k.
Proof.
  intros H1 H2 H3. unfold _ready_to_discover_host.
  repeat match goal with |- context [if ?b then _ else _] => destruct b end;
    rewrite ?lookup_insert_ne by congruence; reflexivity.
Qed.

End Keeps.

(** ** No freeze rejection under an os_status of init *)

Lemma nfM_bind {A B} (m : M A) (f : A -> M B) :
  nfM m -> (forall st a st', m st = (Ok a, st') -> nfM (f a)) -> nfM (m ≫= f).
Proof.
  intros Hm Hf st e st'. rewrite M_bind_run.
  destruct (m st) as [[a|e'] st1] eqn:E.
  - intros H. eapply Hf; eassumption.
  - intros [= <- <-]. eapply Hm; eassumption.
Qed.

Lemma nfM_ret {A} (a : A) : nfM (mret a).
Proof. intros st e st' [=]. Qed.

Lemma nfM_lift {A} (r : result A) : nf r -> nfM (lift r).
Proof. intros H st e st' [= -> _]. now apply H. Qed.

Lemma nfM_raise_why {A} k msg : nfM (@raise A (HTTP k (Why msg))).
Proof. intros st e st' [= <- _] f. discriminate. Qed.

Lemma nfM_raise_uncaught {A} x : nfM (@raise A (Uncaught x)).
Proof. intros st e st' [= <- _] f. discriminate. Qed.

Lemma nfM_reading {A} (f : registry -> A) : nfM (reading f).
Proof. intros st e st' [=]. Qed.

Lemma nfM_writing f : nfM (writing f).
Proof. intros st e st' [=]. Qed.

Lemma nfM_enforce req action : nfM (_enforce req action).
Proof. unfold _enforce. destruct (policy_allows req action); [apply nfM_ret|apply nfM_raise_why]. Qed.

Lemma nfM_get_host_meta_or_404 id : nfM (get_host_meta_or_404 id).
Proof.
  intros st e st'. unfold get_host_meta_or_404.
  destruct (find_row _ _ _); intros [= <- _] f; discriminate.
Qed.

Lemma nfM_get_cluster_meta_or_404 id : nfM (get_cluster_meta_or_404 id).
Proof.
  intros st e st'. unfold get_cluster_meta_or_404.
  destruct (find_row _ _ _); intros [= <- _] f; discriminate.
Qed.

Lemma nfM_get_config_set_meta_or_404 id : nfM (get_config_set_meta_or_404 id).
Proof.
  intros st e st'. unfold get_config_set_meta_or_404.
  destruct (find_row _ _ _); intros [= <- _] f; discriminate.
Qed.

Create HintDb nfM.

#[export] Hint Resolve nfM_ret nfM_raise_why nfM_raise_uncaught nfM_reading nfM_writing
  nfM_enforce nfM_get_host_meta_or_404 nfM_get_cluster_meta_or_404
  nfM_get_config_set_meta_or_404 : nfM.

Ltac nfM_step :=
  match goal with
  | |- nfM (mbind _ _) => apply nfM_bind; [|intros ? ? ? _]
  | |- nfM (lift _) => apply nfM_lift; solve_nf
  | |- nfM (if ?b then _ else _) => destruct b
  | |- nfM (let '(_, _) := ?x in _) => destruct x
  | |- nfM (match ?x with _ => _ end) => destruct x
  | |- nfM _ => solve [auto with nfM]
  end.

Ltac solve_nfM := repeat nfM_step.

Lemma nfM_get_cluster_networks_info cid t : nfM (get_cluster_networks_info cid t).
Proof. unfold get_cluster_networks_info. solve_nfM. Qed.

#[export] Hint Resolve nfM_get_cluster_networks_info : nfM.

Lemma nfM_check_assigned_networks env cid an : nfM (_check_assigned_networks env cid an).
Proof. unfold _check_assigned_networks. solve_nfM. Qed.

Lemma nfM_update_networks_phyname i cid : nfM (_update_networks_phyname i cid).
Proof. unfold _update_networks_phyname. solve_nfM. Qed.

#[export] Hint Resolve nfM_check_assigned_networks nfM_update_networks_phyname : nfM.

Lemma nfM_update_host_cluster id hm orig : nfM (update_host_cluster id hm orig).
Proof. unfold update_host_cluster. solve_nfM. Qed.

Lemma nfM_update_host_interface env cid acc i : nfM (update_host_interface env cid acc i).
Proof. unfold update_host_interface. solve_nfM. Qed.

Lemma nfM_foldM {A B} (f : B -> A -> M B) l b : (forall b x, nfM (f b x)) -> nfM (foldM f l b).
Proof.
  intros Hf. revert b. induction l as [|x l IH]; intros b; cbn [foldM]; [apply nfM_ret|].
  apply nfM_bind; [apply Hf|intros ? ? ? _; apply IH].
Qed.

Lemma nfM_update_host_interfaces env hm cid : nfM (update_host_interfaces env hm cid).
Proof.
  unfold update_host_interfaces. destruct (has_key _ _); [|apply nfM_ret].
  apply nfM_bind; [apply nfM_lift; solve_nf|intros ? ? ? _].
  apply nfM_bind; [apply nfM_foldM; intros; apply nfM_update_host_interface|intros ? ? ? _].
  solve_nfM.
Qed.

Lemma nfM_update_host_config_set hm orig : nfM (update_host_config_set hm orig).
Proof. unfold update_host_config_set. solve_nfM. Qed.

Lemma nfM_run_auto_join env cid id : nfM (run_auto_join env cid id).
Proof.
  intros st e st'. unfold run_auto_join.
  destruct (ext_auto_join env st cid id); intros [= <- _] f; discriminate.
Qed.

Lemma nfM_registry_update_host_metadata id hm : nfM (registry_update_host_metadata id hm).
Proof.
  intros st e st'. unfold registry_update_host_metadata.
  destruct (find_row _ _ _); intros [= <- _] f; discriminate.
Qed.

#[export] Hint Resolve nfM_update_host_cluster nfM_update_host_interfaces
  nfM_update_host_config_set nfM_run_auto_join nfM_registry_update_host_metadata : nfM.

Lemma nfM_update_host_persist env id hm : nfM (update_host_persist env id hm).
Proof. unfold update_host_persist. solve_nfM. Qed.

(** The entries of the patch that the interface loop leaves alone. *)
Lemma update_host_interface_keeps env cid acc i st acc' st' k :
  k <> "cluster" ->
  update_host_interface env cid acc i st = (Ok acc', st') ->
  nics_host_meta acc' !! k = nics_host_meta acc !! k.
Proof.
  intros Hk H. unfold update_host_interface in H.
  apply M_bind_ok in H as (acc1 & st1 & E & H).
  apply lift_ok in E as [E ->].
  assert (E1 : nics_host_meta acc1 = nics_host_meta acc).
  { keeps_inv E; reflexivity. }
  rewrite <- E1. clear E E1.
  destruct (has_assigned_networks i).
  - destruct (truthy cid); [|discriminate].
    apply M_bind_ok in H as (? & ? & _ & H).
    apply M_bind_ok in H as (? & ? & _ & H).
    injection H as <- _. cbn. now rewrite lookup_insert_ne.
  - injection H as <- _. reflexivity.
Qed.

Lemma foldM_keeps env cid l acc st acc' st' k :
  k <> "cluster" ->
  foldM (update_host_interface env cid) l acc st = (Ok acc', st') ->
  nics_host_meta acc' !! k = nics_host_meta acc !! k.
Proof.
  intros Hk. revert acc st. induction l as [|x l IH]; intros acc st H; cbn [foldM] in H.
  - now injection H as <- _.
  - apply M_bind_ok in H as (acc1 & st1 & E & H).
    rewrite (IH _ _ H). eapply update_host_interface_keeps; eassumption.
Qed.

Lemma update_host_interfaces_keeps env hm cid st hm' st' k :
  k <> "cluster" ->
  update_host_interfaces env hm cid st = (Ok hm', st') -> hm' !! k = hm !! k.
Proof.
  intros Hk H. unfold update_host_interfaces in H.
  destruct (has_key hm "interfaces"); [|now injection H as <- _].
  apply M_bind_ok in H as (ifs & st1 & _ & H).
  apply M_bind_ok in H as (acc & st2 & E & H).
  apply M_bind_ok in H as (? & ? & _ & H).
  apply M_bind_ok in H as (? & ? & _ & H).
  injection H as <- _. now rewrite (foldM_keeps _ _ _ _ _ _ _ _ Hk E).
Qed.

Lemma frozen_init hm orig : get hm "os_status" = PStr "init" -> frozen hm orig = false.
Proof. intros H. unfold frozen. now rewrite H. Qed.

Lemma get_keeps (hm hm' : dict) k : hm' !! k = hm !! k -> get hm' k = get hm k.
Proof. unfold get. now intros ->. Qed.

(** A patch that sets os_status to 'init' never meets a rejection of the
    freeze policy, whatever the stored host. *)
Lemma update_host_init_not_frozen env req id host_meta :
  get host_meta "os_status" = PStr "init" -> nfM (update_host env req id host_meta).
Proof.
  intros Hinit. unfold update_host.
  apply nfM_bind; [solve_nfM|intros _ _ _ _].
  apply nfM_bind; [solve_nfM|intros _ orig _ _].
  apply nfM_bind; [solve_nfM|intros _ _ _ _].
  apply nfM_bind; [apply nfM_lift, nf_update_host_interfaces_param|intros _ _ _ _].
  apply nfM_bind; [solve_nfM|intros _ _ _ _].
  apply nfM_bind; [apply nfM_lift, nf_update_host_resource_type|intros _ _ _ _].
  apply nfM_bind;
    [apply nfM_lift, nf_update_host_root_disk, frozen_init, Hinit
    |intros ? [hm1 rd] ? [H1 _]%lift_ok].
  apply keeps_root_disk with (k := "os_status") in H1; [|discriminate].
  apply get_keeps in H1. cbn [fst] in H1. rewrite Hinit in H1.
  apply nfM_bind;
    [apply nfM_lift, nf_update_host_root_lv_size, frozen_init, H1
    |intros ? [hm2 n] ? [H2 _]%lift_ok].
  apply keeps_root_lv_size with (k := "os_status") in H2; [|discriminate].
  apply get_keeps in H2. cbn [fst] in H2. rewrite H1 in H2.
  apply nfM_bind; [solve_nfM|intros _ roles _ _].
  apply nfM_bind;
    [apply nfM_lift, nf_update_host_swap_lv_size, frozen_init, H2
    |intros ? hm3 ? [H3 _]%lift_ok].
  apply keeps_swap_lv_size with (k := "os_status") in H3; [|discriminate].
  apply get_keeps in H3. rewrite H2 in H3.
  apply nfM_bind;
    [apply nfM_lift, nf_update_host_root_pwd, frozen_init, H3
    |intros ? hm4 ? [H4 _]%lift_ok].
  apply keeps_root_pwd with (k := "os_status") in H4; [|discriminate].
  apply get_keeps in H4. rewrite H3 in H4.
  apply nfM_bind;
    [apply nfM_lift, nf_update_host_isolcpus, frozen_init, H4
    |intros ? hm5 ? [H5 _]%lift_ok].
  apply keeps_isolcpus with (k := "os_status") in H5; [|discriminate].
  apply get_keeps in H5. rewrite H4 in H5.
  apply nfM_bind; [solve_nfM|intros _ clusters _ _].
  apply nfM_bind; [solve_nfM|intros _ role_list _ _].
  apply nfM_bind; [apply nfM_lift, nf_update_host_role|intros ? hm6 ? [H6 _]%lift_ok].
  apply keeps_role with (k := "os_status") in H6; [|discriminate].
  apply get_keeps in H6. rewrite H5 in H6.
  apply nfM_bind; [apply nfM_update_host_interfaces|intros ? hm7 ? H7].
  apply update_host_interfaces_keeps with (k := "os_status") in H7; [|discriminate].
  apply get_keeps in H7. rewrite H6 in H7.
  apply nfM_bind; [apply nfM_lift, nf_update_host_os_status|intros _ _ _ _].
  assert (H8 : get (update_host_ipmi hm7 orig) "os_status" = PStr "init").
  { rewrite <- H7. apply get_keeps, keeps_ipmi; discriminate. }
  apply nfM_bind;
    [apply nfM_lift, nf_update_host_hugepages, frozen_init, H8
    |intros ? hm9 ? [H9 _]%lift_ok].
  apply keeps_hugepages with (k := "os_status") in H9; [|discriminate].
  apply get_keeps in H9. rewrite H8 in H9.
  apply nfM_bind;
    [apply nfM_lift, nf_update_host_hugepagesize, frozen_init, H9
    |intros ? hm10 ? [H10 _]%lift_ok].
  apply keeps_hugepagesize with (k := "os_status") in H10; [|discriminate].
  apply get_keeps in H10. rewrite H9 in H10.
  apply nfM_bind; [apply nfM_lift, nf_check_dvs_huge|intros _ _ _ _].
  apply nfM_bind;
    [apply nfM_lift, nf_update_host_os_version, frozen_init, H10|intros _ _ _ _].
  apply nfM_bind; [apply nfM_update_host_config_set|intros _ _ _ _].
  apply nfM_bind; [apply nfM_update_host_persist|intros _ row _ _].
  apply nfM_ret.
Qed.

(** ** The root disk of an active host (C1) *)

Lemma py_eqb_PStr_l s v : py_eqb (PStr s) v = true -> v = PStr s.
Proof.
  destruct v; cbn; try discriminate. intros H%String.eqb_eq. now subst.
Qed.

Lemma lookup_get (d : dict) k v : d !! k = Some v -> get d k = v.
Proof. unfold get. now intros ->. Qed.

Lemma frozen_active hm orig :
  get orig "os_status" = PStr "active" -> get hm "os_status" <> PStr "init" ->
  frozen hm orig = true.
Proof.
  intros Ha Hn. unfold frozen. rewrite Ha, (py_eqb_PStr_ne _ _ Hn). reflexivity.
Qed.

Lemma update_host_cluster_state id hm orig st :
  snd (update_host_cluster id hm orig st) = st.
Proof.
  unfold update_host_cluster. destruct (has_key hm "cluster"); [|reflexivity].
  rewrite M_bind_run. unfold get_cluster_meta_or_404.
  destruct (find_row _ _ (clusters st)); [|reflexivity].
  destruct (py_eqb _ _); [|reflexivity].
  rewrite M_bind_run. unfold reading.
  destruct (List.filter _ _); [reflexivity|].
  destruct (negb _); reflexivity.
Qed.

Lemma get_host_meta_or_404_run id st orig :
  find_row "id" id (hosts st) = Some orig -> get_host_meta_or_404 id st = (Ok orig, st).
Proof. intros H. unfold get_host_meta_or_404. now rewrite H. Qed.

Lemma registry_update_host_metadata_ok id hm st row st' :
  registry_update_host_metadata id hm st = (Ok row, st') ->
  In row (hosts st') /\ forall k v, hm !! k = Some v -> get row k = v.
Proof.
  unfold registry_update_host_metadata.
  destruct (find_row "id" id (hosts st)) as [h|] eqn:E; [|discriminate].
  intros [= <- <-]. apply find_row_Some in E as [Hin Hid]. split.
  - cbn. rewrite update_rows_touch. apply in_map_iff. exists h. split; [|assumption].
    unfold touch. now rewrite Hid.
  - intros k v Hk. now apply get_dict_update_Some.
Qed.

Lemma update_host_persist_ok env id hm st row st' :
  update_host_persist env id hm st = (Ok row, st') ->
  In row (hosts st') /\ forall k v, hm !! k = Some v -> get row k = v.
Proof.
  unfold update_host_persist. intros H.
  apply M_bind_ok in H as (? & st1 & _ & H).
  eapply registry_update_host_metadata_ok; eassumption.
Qed.

Ltac mstep H := apply M_bind_ok in H as (? & ? & ? & H).

(** C1 as the code has it. The stored host [orig_host_meta] is active and
    the patch does not set os_status to 'init'. If the patch has a
    non-empty root_disk other than the stored one, [update_host] fails and
    writes nothing; the failure is Forbidden when the patch carries a name
    and the checks that come before the root disk (policy, deleted host,
    interfaces, cluster, resource type) pass. If the patch has no root_disk
    (or an empty one), the stored value is put into the patch, and whenever
    the update goes through, the host the registry has stored carries the
    stored root_disk. *)
Theorem active_host_root_disk_frozen
    (env : collaborators) (req : request) (id : pyval) (host_meta : dict)
    (st : registry) (orig_host_meta : dict)
    (Horig : find_row "id" id (hosts st) = Some orig_host_meta)
    (Hactive : get orig_host_meta "os_status" = PStr "active")
    (Hnotinit : get host_meta "os_status" <> PStr "init") :
  (forall d, get host_meta "root_disk" = PStr d -> d <> "" ->
     get orig_host_meta "root_disk" <> PStr d ->
     (exists e, update_host env req id host_meta st = (Err e, st)) /\
     (policy_allows req "update_host" = true ->
      truthy (get orig_host_meta "deleted") = false ->
      update_host_interfaces_param env host_meta orig_host_meta = Ok tt ->
      fst (update_host_cluster id host_meta orig_host_meta st) = Ok tt ->
      update_host_resource_type host_meta = Ok tt ->
      is_Some (host_meta !! "name") ->
      update_host env req id host_meta st = (Err (HTTP Forbidden (Frozen "root_disk")), st))) /\
  (truthy (get host_meta "root_disk") = false ->
     update_host_root_disk host_meta orig_host_meta =
       Ok (<["root_disk" := get orig_host_meta "root_disk"]> host_meta, PNone) /\
     forall row host_meta' st',
       update_host env req id host_meta st = (Ok (row, host_meta'), st') ->
       get host_meta' "root_disk" = get orig_host_meta "root_disk" /\
       get row "root_disk" = get orig_host_meta "root_disk" /\
       In row (hosts st')).
Proof.
  pose proof (frozen_active _ _ Hactive Hnotinit) as Hfrozen.
  split.
  - intros d Hd Hne Hdiff.
    assert (Hblock : update_host_root_disk host_meta orig_host_meta =
                     raise_frozen host_meta "root_disk").
    { unfold update_host_root_disk. rewrite Hfrozen, Hd, (truthy_PStr _ Hne).
      destruct (py_eqb (PStr d) (get orig_host_meta "root_disk")) eqn:E; [|reflexivity].
      apply py_eqb_PStr_l in E. contradiction. }
    assert (Hrun : update_host env req id host_meta st =
      if policy_allows req "update_host" then
        if truthy (get orig_host_meta "deleted")
        then (Err (HTTP Forbidden (Why "Forbidden to update deleted host.")), st)
        else match update_host_interfaces_param env host_meta orig_host_meta with
             | Err e => (Err e, st)
             | Ok _ =>
                 match fst (update_host_cluster id host_meta orig_host_meta st) with
                 | Err e => (Err e, st)
                 | Ok _ =>
                     match update_host_resource_type host_meta with
                     | Err e => (Err e, st)
                     | Ok _ =>
                         match host_meta !! "name" with
                         | Some _ => (Err (HTTP Forbidden (Frozen "root_disk")), st)
                         | None => (Err (Uncaught (KeyError "name")), st)
                         end
                     end
                 end
             end
      else (Err (HTTP Forbidden (Why "policy")), st)).
    { unfold update_host, _enforce.
      destruct (policy_allows req "update_host"); [|reflexivity].
      rewrite M_bind_run. cbn [mret M_ret].
      rewrite M_bind_run, (get_host_meta_or_404_run _ _ _ Horig).
      rewrite M_bind_run. unfold lift at 1, ensure at 1.
      destruct (truthy (get orig_host_meta "deleted")); cbn [negb]; [reflexivity|].
      rewrite M_bind_run. unfold lift at 1.
      destruct (update_host_interfaces_param env host_meta orig_host_meta) as [[]|e];
        [|reflexivity].
      rewrite M_bind_run.
      pose proof (update_host_cluster_state id host_meta orig_host_meta st) as Hst.
      destruct (update_host_cluster id host_meta orig_host_meta st) as [[[]|e] st1];
        cbn [fst snd] in *; subst st1; [|reflexivity].
      rewrite M_bind_run. unfold lift at 1.
      destruct (update_host_resource_type host_meta) as [[]|e]; [|reflexivity].
      rewrite M_bind_run. unfold lift at 1. rewrite Hblock.
      unfold raise_frozen, getitem. destruct (host_meta !! "name"); reflexivity. }
    split.
    + rewrite Hrun.
      repeat match goal with
             | |- context [if ?b then _ else _] => destruct b
             | |- context [match ?x with _ => _ end] => destruct x
             end; eexists; reflexivity.
    + intros Hp Hdel Hi Hc Hr [name Hname].
      rewrite Hrun, Hp, Hdel, Hi, Hc, Hr, Hname. reflexivity.
  - intros Hfalsy.
    assert (Hblock : update_host_root_disk host_meta orig_host_meta =
              Ok (<["root_disk" := get orig_host_meta "root_disk"]> host_meta, PNone)).
    { unfold update_host_root_disk. rewrite Hfrozen, Hfalsy. reflexivity. }
    split; [exact Hblock|].
    intros row hmF st' H. unfold update_host in H.
    mstep H. mstep H.
    match goal with E : get_host_meta_or_404 id _ = _ |- _ =>
      unfold _enforce in *;
      destruct (policy_allows req "update_host"); [|discriminate];
      match goal with E0 : mret tt st = _ |- _ => injection E0 as <- <- end;
      rewrite (get_host_meta_or_404_run _ _ _ Horig) in E; injection E as <- <-
    end.
    mstep H. mstep H. mstep H. mstep H.
    mstep H.
    match goal with E : lift (update_host_root_disk _ _) _ = _ |- _ =>
      apply lift_ok in E as [E ->]; rewrite Hblock in E; injection E as <- end.
    cbn beta iota in H.
    mstep H.
    match goal with x : (dict * Z)%type |- _ => destruct x as [hm2 n] end.
    match goal with E : lift (update_host_root_lv_size _ _ _) _ = _ |- _ =>
      apply lift_ok in E as [E2 ->] end.
    apply keeps_root_lv_size with (k := "root_disk") in E2; [|discriminate]. cbn [fst] in E2.
    mstep H. mstep H.
    match goal with E : lift (update_host_swap_lv_size _ _ _ _ _) _ = _ |- _ =>
      apply lift_ok in E as [E3 ->] end.
    apply keeps_swap_lv_size with (k := "root_disk") in E3; [|discriminate].
    mstep H.
    match goal with E : lift (update_host_root_pwd _ _) _ = _ |- _ =>
      apply lift_ok in E as [E4 ->] end.
    apply keeps_root_pwd with (k := "root_disk") in E4; [|discriminate].
    mstep H.
    match goal with E : lift (update_host_isolcpus _ _) _ = _ |- _ =>
      apply lift_ok in E as [E5 ->] end.
    apply keeps_isolcpus with (k := "root_disk") in E5; [|discriminate].
    mstep H. mstep H. mstep H.
    match goal with E : lift (update_host_role _ _ _) _ = _ |- _ =>
      apply lift_ok in E as [E6 ->] end.
    apply keeps_role with (k := "root_disk") in E6; [|discriminate].
    mstep H.
    match goal with E : update_host_interfaces _ _ _ _ = _ |- _ =>
      apply update_host_interfaces_keeps with (k := "root_disk") in E as E7; [|discriminate] end.
    mstep H. mstep H.
    match goal with E : lift (update_host_hugepages _ _) _ = _ |- _ =>
      apply lift_ok in E as [E9 ->] end.
    apply keeps_hugepages with (k := "root_disk") in E9; [|discriminate].
    mstep H.
    match goal with E : lift (update_host_hugepagesize _ _) _ = _ |- _ =>
      apply lift_ok in E as [E10 ->] end.
    apply keeps_hugepagesize with (k := "root_disk") in E10; [|discriminate].
    mstep H. mstep H. mstep H. mstep H.
    match goal with E : update_host_persist _ _ _ _ = _ |- _ =>
      apply update_host_persist_ok in E as [Hin Hrow] end.
    injection H as <- <- <-.
    match goal with
    | Hrow : forall k v, ?hm !! k = Some v -> get _ k = v |- _ =>
        assert (Hfin : hm !! "root_disk" = Some (get orig_host_meta "root_disk"))
    end.
    { match goal with
      | |- (if ?b then _ else _) !! _ = _ =>
          destruct b; [rewrite keeps_ready by discriminate|]
      end;
      rewrite E10, E9, keeps_ipmi by discriminate;
      rewrite E7, E6, E5, E4, E3, E2; apply lookup_insert_eq. }
    split; [|split; [|exact Hin]].
    + now apply lookup_get.
    + now apply Hrow.
Qed.

(** ** Adding a host that is already registered (C10) *)

Lemma match_exist_nodes_first env req host_meta pxe before exist after info st :
  Forall (passed_over env req st pxe) before ->
  get_host env req (get exist "id") st = (Ok info, st) ->
  node_matches pxe info ->
  match_exist_nodes env req host_meta pxe (before ++ exist :: after) st =
    (if dmi_differs host_meta exist then Err dmi_conflict
     else Ok (get exist "id", get exist "os_status"), st).
Proof.
  intros Hbefore Hget (Ht & ifs & i & Hd & Hf).
  induction before as [|h before IH].
  - cbn [app match_exist_nodes].
    rewrite M_bind_run, Hget.
    rewrite Ht. cbn [negb]. rewrite M_bind_run. unfold lift. rewrite Hd.
    fold (has_mac_of pxe). rewrite Hf. fold (dmi_differs host_meta exist).
    destruct (dmi_differs host_meta exist); reflexivity.
  - apply Forall_cons in Hbefore as [(hi & Hh & Hdiff) Hbefore].
    cbn [app match_exist_nodes].
    rewrite M_bind_run, Hh.
    assert (IH' := IH Hbefore).
    destruct Hdiff as [Hfalsy|(ifs' & Hd' & Hf')].
    + rewrite Hfalsy. cbn [negb]. exact IH'.
    + destruct (truthy (get hi "interfaces")); cbn [negb]; [|exact IH'].
      rewrite M_bind_run. unfold lift. rewrite Hd'. fold (has_mac_of pxe). rewrite Hf'.
      exact IH'.
Qed.

Lemma mapMM_rows l st :
  (forall h, In h l -> find_row "id" (get h "id") (hosts st) = Some h) ->
  mapMM (fun host => get_host_meta_or_404 (get host "id")) l st = (Ok l, st).
Proof.
  induction l as [|h l IH]; intros H; cbn [mapMM]; [reflexivity|].
  rewrite M_bind_run, (get_host_meta_or_404_run _ _ h) by (apply H; now left).
  rewrite M_bind_run, IH by (intros x Hx; apply H; now right). reflexivity.
Qed.

Section AddExisting.

Context (env : collaborators) (req : request) (host_meta : dict) (st : registry).

Context (text : pyval) (interfaces : list dict) (pxe : dict) (others : list dict).

Context (before : list dict) (exist : dict) (after : list dict) (info : dict).

Hypothesis Htext : host_meta !! "interfaces" = Some text.

Hypothesis Heval : eval env text = Ok (PList (PDict <$> interfaces)).

Hypothesis Hnames : text_names interfaces.

Hypothesis Hpci : same_pci_list interfaces = [].

Hypothesis Hpxe : List.filter is_deployment_marked interfaces = pxe :: others.

Hypothesis Hrows : forall h, In h (hosts st) -> find_row "id" (get h "id") (hosts st) = Some h.

Hypothesis Hhosts : hosts st = before ++ exist :: after.

Hypothesis Hbefore : Forall (passed_over env req (logged interfaces st) pxe) before.

Hypothesis Hget : get_host env req (get exist "id") (logged interfaces st)
                  = (Ok info, logged interfaces st).

Hypothesis Hexist : node_matches pxe info.

Hypothesis Hid : truthy (get exist "id") = true.

Lemma _verify_interface_among_hosts_existing :
  _verify_interface_among_hosts env req host_meta st =
    (if dmi_differs host_meta exist then Err dmi_conflict
     else Ok (get exist "id", get exist "os_status"), logged interfaces st).
Proof.
  unfold _verify_interface_among_hosts.
  rewrite M_bind_run. unfold lift at 1, getitem. rewrite Htext.
  rewrite M_bind_run, (_verify_interface_in_same_host_run _ _ _ _ Heval Hnames), Hpci.
  rewrite bool_decide_eq_true_2 by reflexivity.
  rewrite M_bind_run. unfold lift at 1, _count_host_pxe_info.
  rewrite Heval. cbn [mbind result_bind]. rewrite dicts_of_PList. cbn [mbind result_bind].
  rewrite Hpxe.
  rewrite M_bind_run. unfold reading at 1. rewrite hosts_logged.
  rewrite M_bind_run, mapMM_rows by (rewrite hosts_logged; exact Hrows).
  rewrite Hhosts. now apply (match_exist_nodes_first _ _ _ _ _ _ _ info).
Qed.

Lemma _check_add_host_interfaces_existing :
  _check_add_host_interfaces env req host_meta st =
    if dmi_differs host_meta exist then (Err dmi_conflict, logged interfaces st)
    else if py_eqb (get exist "os_status") (PStr "active")
    then (Err active_host_error, logged interfaces st)
    else as_update (update_host env req (get exist "id")
                      (<["id" := get exist "id"]> host_meta) (logged interfaces st)).
Proof.
  unfold _check_add_host_interfaces, has_key. rewrite Htext.
  rewrite M_bind_run. unfold lift at 1. rewrite (lookup_get _ _ _ Htext).
  rewrite Heval. cbn [mbind result_bind]. rewrite dicts_of_PList.
  rewrite M_bind_run, _verify_interface_among_hosts_existing.
  destruct (dmi_differs host_meta exist); [reflexivity|]. rewrite Hid.
  destruct (py_eqb (get exist "os_status") (PStr "active")); [reflexivity|].
  rewrite M_bind_run. unfold as_update.
  destruct (update_host _ _ _ _ _) as [[[row hm]|e] st']; reflexivity.
Qed.

End AddExisting.

(** C10 as the code has it. The steps of [add_host] that come before the
    interface check succeed and hand on the request [host_meta] and the
    registry [st]. The interface list of the request evaluates to mappings
    whose names are texts, no two ether interfaces of it share a pci, and
    [pxe] is its first deployment-marked interface. Every registered host
    is the row found under its id; [exist] is the first of them for which
    [get_host] answers with a host that has a non-bond interface with the
    mac of [pxe] ([get_host] answers for the hosts listed before it, too),
    and its id is not empty. Then: if [exist] has a dmi_uuid other than the
    request's, [add_host] fails with Forbidden; otherwise, if [exist] is
    active, [add_host] fails with BadRequest and no host is inserted or
    updated, and if [exist] is not active, [_check_add_host_interfaces] is
    an update of [exist] by the request, with the id of [exist] put into
    it. *)
Theorem add_host_on_registered_mac
    (env : collaborators) (req : request) (request_meta host_meta : dict)
    (st0 st : registry) (text : pyval) (interfaces : list dict) (pxe : dict)
    (others before : list dict) (exist : dict) (after : list dict) (info : dict)
    (Hbegin : add_host_begin env req request_meta st0 = (Ok host_meta, st))
    (Htext : host_meta !! "interfaces" = Some text)
    (Heval : eval env text = Ok (PList (PDict <$> interfaces)))
    (Hnames : text_names interfaces)
    (Hpci : same_pci_list interfaces = [])
    (Hpxe : List.filter is_deployment_marked interfaces = pxe :: others)
    (Hrows : forall h, In h (hosts st) -> find_row "id" (get h "id") (hosts st) = Some h)
    (Hhosts : hosts st = before ++ exist :: after)
    (Hbefore : Forall (passed_over env req (logged interfaces st) pxe) before)
    (Hget : get_host env req (get exist "id") (logged interfaces st)
            = (Ok info, logged interfaces st))
    (Hexist : node_matches pxe info)
    (Hid : truthy (get exist "id") = true) :
  (dmi_differs host_meta exist = true ->
     add_host env req request_meta st0 = (Err dmi_conflict, logged interfaces st) /\
     hosts (logged interfaces st) = hosts st) /\
  (dmi_differs host_meta exist = false ->
     (get exist "os_status" = PStr "active" ->
        add_host env req request_meta st0 = (Err active_host_error, logged interfaces st) /\
        hosts (logged interfaces st) = hosts st) /\
     (get exist "os_status" <> PStr "active" ->
        _check_add_host_interfaces env req host_meta st =
          as_update (update_host env req (get exist "id")
                       (<["id" := get exist "id"]> host_meta) (logged interfaces st)))).
Proof.
  pose proof (_check_add_host_interfaces_existing env req host_meta st text interfaces pxe
                others before exist after info Htext Heval Hnames Hpci Hpxe Hrows Hhosts
                Hbefore Hget Hexist Hid) as E.
  split.
  - intros Hdmi. split; [|apply hosts_logged].
    unfold add_host. rewrite M_bind_run, Hbegin, M_bind_run, E, Hdmi. reflexivity.
  - intros Hdmi. rewrite Hdmi in E. split.
    + intros Hactive. split; [|apply hosts_logged].
      unfold add_host. rewrite M_bind_run, Hbegin, M_bind_run, E, Hactive. reflexivity.
    + intros Hne. rewrite E, (py_eqb_PStr_ne _ _ Hne). reflexivity.
Qed.

(** ** A patch with os_status init (C9) *)

Lemma get_insert_ne (d : dict) k k' v : k <> k' -> get (<[k := v]> d) k' = get d k'.
Proof. intros H. unfold get. now rewrite lookup_insert_ne. Qed.

Lemma result_bind_ext {A B} (m : result A) (f g : A -> result B) :
  (forall a, f a = g a) -> m ≫= f = m ≫= g.
Proof. intros H. destruct m; cbn; [apply H|reflexivity]. Qed.

(** With a patch that sets os_status to 'init', no freeze block reads the
    stored os_status. *)
Section StoredStatus.

Context (env : collaborators) (host_meta orig_host_meta : dict) (v : pyval).

Hypothesis Hinit : get host_meta "os_status" = PStr "init".

#[local] Abbreviation stored := (<["os_status" := v]> orig_host_meta).

Lemma root_disk_any_status :
  update_host_root_disk host_meta stored = update_host_root_disk host_meta orig_host_meta.
Proof.
  unfold update_host_root_disk. rewrite !(frozen_init _ _ Hinit).
  rewrite !get_insert_ne by discriminate. reflexivity.
Qed.

Lemma root_lv_size_any_status rd :
  update_host_root_lv_size host_meta stored rd =
  update_host_root_lv_size host_meta orig_host_meta rd.
Proof.
  unfold update_host_root_lv_size, check_root_lv_size.
  rewrite !(frozen_init _ _ Hinit). rewrite !get_insert_ne by discriminate. reflexivity.
Qed.

Lemma swap_lv_size_any_status n roles :
  update_host_swap_lv_size env host_meta stored n roles =
  update_host_swap_lv_size env host_meta orig_host_meta n roles.
Proof.
  unfold update_host_swap_lv_size. rewrite !(frozen_init _ _ Hinit).
  assert (E : forall hm sw, check_swap_lv_size env hm (<["os_status" := v]> orig_host_meta) n sw roles
                          = check_swap_lv_size env hm orig_host_meta n sw roles).
  { intros hm sw. unfold check_swap_lv_size. rewrite !get_insert_ne by discriminate. reflexivity. }
  rewrite !get_insert_ne by discriminate.
  apply result_bind_ext. intros [hm sw]. now rewrite E.
Qed.

Lemma root_pwd_any_status :
  update_host_root_pwd host_meta stored = update_host_root_pwd host_meta orig_host_meta.
Proof.
  unfold update_host_root_pwd. rewrite !(frozen_init _ _ Hinit).
  rewrite !get_insert_ne by discriminate. reflexivity.
Qed.

Lemma isolcpus_any_status :
  update_host_isolcpus host_meta stored = update_host_isolcpus host_meta orig_host_meta.
Proof.
  unfold update_host_isolcpus. rewrite !(frozen_init _ _ Hinit).
  rewrite !get_insert_ne by discriminate. reflexivity.
Qed.

Lemma hugepages_any_status :
  update_host_hugepages host_meta stored = update_host_hugepages host_meta orig_host_meta.
Proof.
  unfold update_host_hugepages, memory_total. rewrite !(frozen_init _ _ Hinit).
  rewrite !get_insert_ne, !lookup_insert_ne by discriminate. reflexivity.
Qed.

Lemma hugepagesize_any_status :
  update_host_hugepagesize host_meta stored = update_host_hugepagesize host_meta orig_host_meta.
Proof.
  unfold update_host_hugepagesize, memory_total. rewrite !(frozen_init _ _ Hinit).
  rewrite !get_insert_ne, !lookup_insert_ne by discriminate. reflexivity.
Qed.

End StoredStatus.

Lemma truthy_not_None v : truthy v = true -> py_eqb v PNone = false.
Proof. destruct v; cbn; congruence. Qed.

Lemma carried_cases f hm :
  carried f hm ->
  f <> "role" /\ f <> "cluster" /\ f <> "ipmi_user" /\ f <> "ipmi_passwd" /\
  f <> "os_progress" /\ f <> "messages".
Proof.
  intros [->|[Hin _]]; [repeat split; discriminate|].
  cbn [In reinstall_fields] in Hin.
  repeat (destruct Hin as [<-|Hin]; [repeat split; discriminate|]). destruct Hin.
Qed.

(** With os_status 'init' in the patch, a block leaves alone the value the
    patch gives its own field. *)
Section OwnField.

Context (env : collaborators) (host_meta orig_host_meta : dict).

Hypothesis Hinit : get host_meta "os_status" = PStr "init".

Lemma own_root_disk :
  truthy (get host_meta "root_disk") = true ->
  keeps fst "root_disk" host_meta (update_host_root_disk host_meta orig_host_meta).
Proof.
  intros Ht a H. unfold update_host_root_disk in H.
  rewrite (frozen_init _ _ Hinit), Ht in H. keeps_inv H; try discriminate; reflexivity.
Qed.

Lemma own_root_lv_size rd :
  truthy (get host_meta "root_lv_size") = true ->
  keeps fst "root_lv_size" host_meta (update_host_root_lv_size host_meta orig_host_meta rd).
Proof.
  intros Ht a H. unfold update_host_root_lv_size in H.
  rewrite (frozen_init _ _ Hinit), Ht in H. keeps_inv H; try discriminate; reflexivity.
Qed.

Lemma own_swap_lv_size n roles :
  truthy (get host_meta "swap_lv_size") = true ->
  keeps (fun x => x) "swap_lv_size" host_meta
    (update_host_swap_lv_size env host_meta orig_host_meta n roles).
Proof.
  intros Ht a H. unfold update_host_swap_lv_size in H.
  rewrite (frozen_init _ _ Hinit), Ht in H. cbn [mbind result_bind] in H.
  keeps_inv H; try discriminate; reflexivity.
Qed.

Lemma own_root_pwd :
  truthy (get host_meta "root_pwd") = true ->
  keeps (fun x => x) "root_pwd" host_meta (update_host_root_pwd host_meta orig_host_meta).
Proof.
  intros Ht a H. unfold update_host_root_pwd in H.
  rewrite (frozen_init _ _ Hinit), Ht in H. cbn [negb andb] in H. now injection H as <-.
Qed.

Lemma own_isolcpus :
  truthy (get host_meta "isolcpus") = true ->
  keeps (fun x => x) "isolcpus" host_meta (update_host_isolcpus host_meta orig_host_meta).
Proof.
  intros Ht a H. unfold update_host_isolcpus in H.
  rewrite (frozen_init _ _ Hinit), Ht in H. keeps_inv H; try discriminate; reflexivity.
Qed.

Lemma own_hugepages :
  truthy (get host_meta "hugepages") = true ->
  keeps (fun x => x) "hugepages" host_meta (update_host_hugepages host_meta orig_host_meta).
Proof.
  intros Ht a H. unfold update_host_hugepages in H.
  rewrite (frozen_init _ _ Hinit), (truthy_not_None _ Ht) in H.
  keeps_inv H; reflexivity.
Qed.

Lemma own_hugepagesize :
  truthy (get host_meta "hugepagesize") = true ->
  keeps (fun x => x) "hugepagesize" host_meta
    (update_host_hugepagesize host_meta orig_host_meta).
Proof.
  intros Ht a H. unfold update_host_hugepagesize in H.
  rewrite (frozen_init _ _ Hinit), (truthy_not_None _ Ht) in H.
  destruct (has_key host_meta "hugepagesize"); [|now injection H as <-].
  apply result_bind_ok in H as (? & _ & H).
  apply result_bind_ok in H as (? & _ & H).
  apply result_bind_ok in H as (hm & E & H).
  repeat (apply result_bind_ok in H as (? & _ & H)). injection H as <-.
  keeps_inv E; reflexivity.
Qed.

(** So every block leaves alone os_status and each of the seven fields
    that has a value. *)
Ltac carried_block keeps_lemma own_lemma :=
  let Hin := fresh "Hin" in let Ht := fresh "Ht" in let H := fresh "H" in
  intros [->|[Hin Ht]] H;
  [eapply keeps_lemma; [discriminate|exact H]|];
  cbn [In reinstall_fields] in Hin;
  repeat (destruct Hin as [<-|Hin];
          [first [eapply keeps_lemma; [discriminate|exact H]
                 |eapply own_lemma; [exact Ht|exact H]]|]);
  destruct Hin.

Lemma carried_root_disk f a :
  carried f host_meta -> update_host_root_disk host_meta orig_host_meta = Ok a ->
  fst a !! f = host_meta !! f.
Proof. carried_block keeps_root_disk own_root_disk. Qed.

Lemma carried_root_lv_size f rd a :
  carried f host_meta -> update_host_root_lv_size host_meta orig_host_meta rd = Ok a ->
  fst a !! f = host_meta !! f.
Proof. carried_block keeps_root_lv_size own_root_lv_size. Qed.

Lemma carried_swap_lv_size f n roles a :
  carried f host_meta ->
  update_host_swap_lv_size env host_meta orig_host_meta n roles = Ok a ->
  a !! f = host_meta !! f.
Proof.
  intros Hc H. pose proof (keeps_swap_lv_size env f host_meta orig_host_meta n roles) as K.
  pose proof (own_swap_lv_size n roles) as O. unfold keeps in K, O.
  destruct Hc as [->|[Hin Ht]]; [apply K; [discriminate|exact H]|].
  cbn [In reinstall_fields] in Hin.
  repeat (destruct Hin as [<-|Hin];
          [first [apply K; [discriminate|exact H]|apply O; [exact Ht|exact H]]|]).
  destruct Hin.
Qed.

Lemma carried_root_pwd f a :
  carried f host_meta -> update_host_root_pwd host_meta orig_host_meta = Ok a ->
  a !! f = host_meta !! f.
Proof.
  intros Hc H. pose proof (keeps_root_pwd f host_meta orig_host_meta) as K.
  pose proof own_root_pwd as O. unfold keeps in K, O.
  destruct Hc as [->|[Hin Ht]]; [apply K; [discriminate|exact H]|].
  cbn [In reinstall_fields] in Hin.
  repeat (destruct Hin as [<-|Hin];
          [first [apply K; [discriminate|exact H]|apply O; [exact Ht|exact H]]|]).
  destruct Hin.
Qed.

Lemma carried_isolcpus f a :
  carried f host_meta -> update_host_isolcpus host_meta orig_host_meta = Ok a ->
  a !! f = host_meta !! f.
Proof.
  intros Hc H. pose proof (keeps_isolcpus f host_meta orig_host_meta) as K.
  pose proof own_isolcpus as O. unfold keeps in K, O.
  destruct Hc as [->|[Hin Ht]]; [apply K; [discriminate|exact H]|].
  cbn [In reinstall_fields] in Hin.
  repeat (destruct Hin as [<-|Hin];
          [first [apply K; [discriminate|exact H]|apply O; [exact Ht|exact H]]|]).
  destruct Hin.
Qed.

Lemma carried_hugepages f a :
  carried f host_meta -> update_host_hugepages host_meta orig_host_meta = Ok a ->
  a !! f = host_meta !! f.
Proof.
  intros Hc H. pose proof (keeps_hugepages f host_meta orig_host_meta) as K.
  pose proof own_hugepages as O. unfold keeps in K, O.
  destruct Hc as [->|[Hin Ht]]; [apply K; [discriminate|exact H]|].
  cbn [In reinstall_fields] in Hin.
  repeat (destruct Hin as [<-|Hin];
          [first [apply K; [discriminate|exact H]|apply O; [exact Ht|exact H]]|]).
  destruct Hin.
Qed.

Lemma carried_hugepagesize f a :
  carried f host_meta -> update_host_hugepagesize host_meta orig_host_meta = Ok a ->
  a !! f = host_meta !! f.
Proof.
  intros Hc H. pose proof (keeps_hugepagesize f host_meta orig_host_meta) as K.
  pose proof own_hugepagesize as O. unfold keeps in K, O.
  destruct Hc as [->|[Hin Ht]]; [apply K; [discriminate|exact H]|].
  cbn [In reinstall_fields] in Hin.
  repeat (destruct Hin as [<-|Hin];
          [first [apply K; [discriminate|exact H]|apply O; [exact Ht|exact H]]|]).
  destruct Hin.
Qed.

End OwnField.

(** Whenever an update with os_status 'init' goes through, the row the
    registry holds has the values the patch gave to the seven fields. *)
Lemma update_host_init_persists env req id host_meta st row hmF st' f :
  get host_meta "os_status" = PStr "init" ->
  In f reinstall_fields -> truthy (get host_meta f) = true ->
  update_host env req id host_meta st = (Ok (row, hmF), st') ->
  In row (hosts st') /\ get row f = get host_meta f.
Proof.
  intros Hinit Hin Ht H.
  assert (Hc : carried f host_meta) by (right; split; assumption).
  assert (Hs : carried "os_status" host_meta) by now left.
  destruct (carried_cases _ _ Hc) as (N1 & N2 & N3 & N4 & N5 & N6).
  (* the invariant of the walk through the blocks *)
  assert (Hnext : forall hm hm' : dict,
            (get hm "os_status" = PStr "init" /\ hm !! f = host_meta !! f) ->
            (forall g, carried g hm -> hm' !! g = hm !! g) ->
            get hm' "os_status" = PStr "init" /\ hm' !! f = host_meta !! f).
  { intros hm hm' [I1 I2] K. split.
    - rewrite <- I1. apply get_keeps, K. now left.
    - rewrite <- I2. apply K. right. split; [assumption|].
      unfold get. rewrite I2. exact Ht. }
  assert (I0 : get host_meta "os_status" = PStr "init" /\ host_meta !! f = host_meta !! f)
    by (split; [assumption|reflexivity]).
  unfold update_host in H.
  mstep H. mstep H.
  match goal with x : dict |- _ => rename x into orig end.
  mstep H. mstep H. mstep H. mstep H.
  mstep H.
  match goal with E : lift (update_host_root_disk _ _) _ = _ |- _ =>
    apply lift_ok in E as [E1 ->] end.
  match goal with x : (dict * pyval)%type |- _ => destruct x as [hm1 rd] end.
  assert (I1 := Hnext host_meta hm1 I0
                  (fun g Hg => carried_root_disk host_meta orig Hinit g _ Hg E1)).
  cbn beta iota in H.
  mstep H.
  match goal with E : lift (update_host_root_lv_size _ _ _) _ = _ |- _ =>
    apply lift_ok in E as [E2 ->] end.
  match goal with x : (dict * Z)%type |- _ => destruct x as [hm2 n] end.
  assert (I2 := Hnext hm1 hm2 I1
                  (fun g Hg => carried_root_lv_size hm1 orig (proj1 I1) g _ _ Hg E2)).
  cbn beta iota in H.
  mstep H. mstep H.
  match goal with E : lift (update_host_swap_lv_size _ _ _ _ _) _ = _ |- _ =>
    apply lift_ok in E as [E3 ->] end.
  match goal with E : update_host_swap_lv_size _ _ _ _ _ = Ok ?x |- _ => rename x into hm3 end.
  assert (I3 := Hnext hm2 hm3 I2
                  (fun g Hg => carried_swap_lv_size env hm2 orig (proj1 I2) g _ _ _ Hg E3)).
  mstep H.
  match goal with E : lift (update_host_root_pwd _ _) _ = _ |- _ =>
    apply lift_ok in E as [E4 ->] end.
  match goal with E : update_host_root_pwd _ _ = Ok ?x |- _ => rename x into hm4 end.
  assert (I4 := Hnext hm3 hm4 I3
                  (fun g Hg => carried_root_pwd hm3 orig (proj1 I3) g _ Hg E4)).
  mstep H.
  match goal with E : lift (update_host_isolcpus _ _) _ = _ |- _ =>
    apply lift_ok in E as [E5 ->] end.
  match goal with E : update_host_isolcpus _ _ = Ok ?x |- _ => rename x into hm5 end.
  assert (I5 := Hnext hm4 hm5 I4
                  (fun g Hg => carried_isolcpus hm4 orig (proj1 I4) g _ Hg E5)).
  mstep H. mstep H. mstep H.
  match goal with E : lift (update_host_role _ _ _) _ = _ |- _ =>
    apply lift_ok in E as [E6 ->] end.
  match goal with E : update_host_role _ _ _ = Ok ?x |- _ => rename x into hm6 end.
  assert (I6 : get hm6 "os_status" = PStr "init" /\ hm6 !! f = host_meta !! f).
  { apply (Hnext hm5 hm6 I5). intros g Hg.
    destruct (carried_cases _ _ Hg) as (G1 & _).
    exact (keeps_role env g hm5 _ G1 _ E6). }
  mstep H.
  match goal with E : update_host_interfaces _ _ _ _ = (Ok ?x, _) |- _ =>
    rename x into hm7; rename E into E7 end.
  assert (I7 : get hm7 "os_status" = PStr "init" /\ hm7 !! f = host_meta !! f).
  { apply (Hnext hm6 hm7 I6). intros g Hg.
    destruct (carried_cases _ _ Hg) as (_ & G2 & _).
    exact (update_host_interfaces_keeps _ _ _ _ _ _ _ G2 E7). }
  mstep H.
  assert (I8 : get (update_host_ipmi hm7 orig) "os_status" = PStr "init" /\
               update_host_ipmi hm7 orig !! f = host_meta !! f).
  { apply (Hnext hm7 _ I7). intros g Hg.
    destruct (carried_cases _ _ Hg) as (_ & _ & G3 & G4 & _).
    now apply keeps_ipmi. }
  mstep H.
  match goal with E : lift (update_host_hugepages _ _) _ = _ |- _ =>
    apply lift_ok in E as [E9 ->] end.
  match goal with E : update_host_hugepages _ _ = Ok ?x |- _ => rename x into hm9 end.
  assert (I9 := Hnext _ hm9 I8
                  (fun g Hg => carried_hugepages _ orig (proj1 I8) g _ Hg E9)).
  mstep H.
  match goal with E : lift (update_host_hugepagesize _ _) _ = _ |- _ =>
    apply lift_ok in E as [E10 ->] end.
  match goal with E : update_host_hugepagesize _ _ = Ok ?x |- _ => rename x into hm10 end.
  assert (I10 := Hnext hm9 hm10 I9
                   (fun g Hg => carried_hugepagesize hm9 orig (proj1 I9) g _ Hg E10)).
  mstep H. mstep H. mstep H. mstep H.
  match goal with E : update_host_persist _ _ _ _ = _ |- _ =>
    apply update_host_persist_ok in E as [Hrow Hval] end.
  injection H as <- <- <-.
  split; [exact Hrow|].
  assert (IF : forall hm : dict, hm = hm10 \/ hm = _ready_to_discover_host hm10 orig ->
                 hm !! f = host_meta !! f).
  { intros hm [->| ->]; [exact (proj2 I10)|].
    rewrite keeps_ready by assumption. exact (proj2 I10). }
  match goal with
  | Hval : forall k v, ?hm !! k = Some v -> get _ k = v |- _ =>
      assert (Hf : hm !! f = host_meta !! f)
        by (apply IF; destruct (py_eqb _ _); auto)
  end.
  unfold get at 2. unfold get in Ht.
  destruct (host_meta !! f) as [v|] eqn:Ev; [|discriminate Ht].
  cbn [default]. now apply Hval.
Qed.

(** For a patch that sets os_status to 'init' and steers clear of the
    interfaces, the cluster, the roles, the resource type and the config
    set, [update_host] is the run of the ordinary checks and then the write
    of the patch, as the checks leave it, to the row of the host. *)
Lemma update_host_init_run env req id host_meta st orig :
  get host_meta "os_status" = PStr "init" ->
  policy_allows req "update_host" = true ->
  find_row "id" id (hosts st) = Some orig ->
  truthy (get orig "deleted") = false ->
  host_meta !! "interfaces" = None -> host_meta !! "cluster" = None ->
  host_meta !! "role" = None -> host_meta !! "resource_type" = None ->
  host_meta !! "config_set_id" = None ->
  update_host env req id host_meta st =
    match ordinary_checks env host_meta orig (roles st) with
    | Ok hmF => (Ok (dict_update hmF orig, hmF), set_hosts (update_rows id hmF) st)
    | Err e => (Err e, st)
    end.
Proof.
  intros Hinit Hp Horig Hdel Hi Hc Hr Ht Hs.
  assert (Hos : is_Some (host_meta !! "os_status")).
  { unfold get in Hinit. destruct (host_meta !! "os_status"); [eauto|discriminate]. }
  (* what every block leaves alone *)
  set (quiet := fun hm : dict =>
         hm !! "interfaces" = None /\ hm !! "cluster" = None /\ hm !! "role" = None /\
         hm !! "config_set_id" = None /\ hm !! "os_status" = host_meta !! "os_status").
  assert (Q0 : quiet host_meta) by (repeat split; assumption).
  assert (Hq : forall hm hm' : dict, quiet hm ->
            (forall k, In k ["interfaces"; "cluster"; "role"; "config_set_id"; "os_status"] ->
                       hm' !! k = hm !! k) -> quiet hm').
  { intros hm hm' (A & B & C & D & E) K. unfold quiet.
    rewrite !K by (cbn; auto 10). repeat split; assumption. }
  unfold update_host, ordinary_checks, _enforce. rewrite Hp.
  rewrite M_bind_run. cbn [mret M_ret].
  rewrite M_bind_run, (get_host_meta_or_404_run _ _ _ Horig).
  rewrite M_bind_run. unfold lift at 1. rewrite Hdel. cbn [negb ensure].
  rewrite M_bind_run. unfold lift at 1, update_host_interfaces_param, has_key.
  rewrite Hi.
  rewrite M_bind_run. unfold update_host_cluster, has_key. rewrite Hc. cbn [mret M_ret].
  rewrite M_bind_run. unfold lift at 1, update_host_resource_type, has_key. rewrite Ht.
  cbn [andb negb ensure].
  rewrite M_bind_run. unfold lift at 1.
  destruct (update_host_root_disk host_meta orig) as [[hm1 rd]|e] eqn:E1;
    cbn [mbind result_bind]; [|reflexivity].
  assert (Q1 : quiet hm1).
  { apply (Hq host_meta _ Q0). intros k Hk.
    apply (keeps_root_disk k host_meta orig) with (a := (hm1, rd)); [|exact E1].
    cbn in Hk. intuition (subst; discriminate). }
  rewrite M_bind_run. unfold lift at 1.
  destruct (update_host_root_lv_size hm1 orig rd) as [[hm2 n]|e] eqn:E2;
    cbn [mbind result_bind]; [|reflexivity].
  assert (Q2 : quiet hm2).
  { apply (Hq hm1 _ Q1). intros k Hk.
    apply (keeps_root_lv_size k hm1 orig rd) with (a := (hm2, n)); [|exact E2].
    cbn in Hk. intuition (subst; discriminate). }
  rewrite M_bind_run. unfold reading at 1.
  rewrite M_bind_run. unfold lift at 1.
  destruct (update_host_swap_lv_size env hm2 orig n (roles st)) as [hm3|e] eqn:E3;
    cbn [mbind result_bind]; [|reflexivity].
  assert (Q3 : quiet hm3).
  { apply (Hq hm2 _ Q2). intros k Hk.
    apply (keeps_swap_lv_size env k hm2 orig n (roles st)); [|exact E3].
    cbn in Hk. intuition (subst; discriminate). }
  rewrite M_bind_run. unfold lift at 1.
  destruct (update_host_root_pwd hm3 orig) as [hm4|e] eqn:E4;
    cbn [mbind result_bind]; [|reflexivity].
  assert (Q4 : quiet hm4).
  { apply (Hq hm3 _ Q3). intros k Hk.
    apply (keeps_root_pwd k hm3 orig); [|exact E4].
    cbn in Hk. intuition (subst; discriminate). }
  rewrite M_bind_run. unfold lift at 1.
  destruct (update_host_isolcpus hm4 orig) as [hm5|e] eqn:E5;
    cbn [mbind result_bind]; [|reflexivity].
  assert (Q5 : quiet hm5).
  { apply (Hq hm4 _ Q4). intros k Hk.
    apply (keeps_isolcpus k hm4 orig); [|exact E5].
    cbn in Hk. intuition (subst; discriminate). }
  destruct Q5 as (Q5i & Q5c & Q5r & Q5s & Q5o).
  rewrite M_bind_run. unfold reading at 1.
  rewrite M_bind_run. unfold reading at 1.
  rewrite M_bind_run. unfold lift at 1, update_host_role, has_key. rewrite Q5r.
  rewrite M_bind_run. unfold update_host_interfaces, has_key. rewrite Q5i.
  cbn [mret M_ret].
  rewrite M_bind_run. unfold lift at 1, update_host_os_status, has_key.
  rewrite Q5o. destruct Hos as [os Hos]. rewrite Hos.
  assert (Hget5 : get hm5 "os_status" = PStr "init").
  { unfold get. rewrite Q5o. exact Hinit. }
  rewrite Hget5. cbn [py_in existsb py_eqb String.eqb Ascii.eqb Bool.eqb orb andb negb ensure].
  assert (Q8 : quiet (update_host_ipmi hm5 orig)).
  { apply (Hq hm5); [repeat split; assumption|]. intros k Hk.
    apply keeps_ipmi; cbn in Hk; intuition (subst; discriminate). }
  rewrite M_bind_run. unfold lift at 1.
  destruct (update_host_hugepages (update_host_ipmi hm5 orig) orig) as [hm9|e] eqn:E9;
    cbn [mbind result_bind]; [|reflexivity].
  assert (Q9 : quiet hm9).
  { apply (Hq _ _ Q8). intros k Hk.
    apply (keeps_hugepages k (update_host_ipmi hm5 orig) orig); [|exact E9].
    cbn in Hk. intuition (subst; discriminate). }
  rewrite M_bind_run. unfold lift at 1.
  destruct (update_host_hugepagesize hm9 orig) as [hm10|e] eqn:E10;
    cbn [mbind result_bind]; [|reflexivity].
  assert (Q10 : quiet hm10).
  { apply (Hq _ _ Q9). intros k Hk.
    apply (keeps_hugepagesize k hm9 orig); [|exact E10].
    cbn in Hk. intuition (subst; discriminate). }
  destruct Q10 as (Q10i & Q10c & Q10r & Q10s & Q10o).
  assert (Hget10 : get hm10 "os_status" = PStr "init").
  { unfold get. rewrite Q10o. exact Hinit. }
  rewrite M_bind_run. unfold lift at 1.
  destruct (_check_dvs_huge env hm10 orig) as [[]|e] eqn:E11;
    cbn [mbind result_bind]; [|reflexivity].
  rewrite M_bind_run. unfold lift at 1, update_host_os_version.
  rewrite (frozen_init _ _ Hget10).
  rewrite M_bind_run. unfold update_host_config_set.
  replace (get hm10 "config_set_id") with PNone by (unfold get; now rewrite Q10s).
  cbn [truthy andb mret M_ret].
  rewrite Hget10. cbn [py_eqb String.eqb Ascii.eqb Bool.eqb].
  rewrite M_bind_run. unfold update_host_persist.
  replace (get (_ready_to_discover_host hm10 orig) "cluster") with PNone.
  2:{ unfold get. rewrite keeps_ready by discriminate. now rewrite Q10c. }
  cbn [truthy]. rewrite M_bind_run. cbn [mret M_ret].
  unfold registry_update_host_metadata. rewrite Horig. reflexivity.
Qed.

(** C9. If the patch sets os_status to 'init', no rejection of the
    freeze-once-installed policy applies, even when the stored host is
    active: [update_host] never answers with one, and the blocks of
    root_disk, root_lv_size, swap_lv_size, root_pwd, isolcpus, hugepages and
    hugepagesize run their ordinary checks, the same whatever os_status the
    stored host has. Whenever such an update goes through, the row the
    registry then holds has the value the patch gave to each of the seven
    fields. And for an authorised patch on a stored host that is not
    deleted, a patch without interfaces, cluster, role, resource_type and
    config_set_id, [update_host] is exactly the ordinary checks followed by
    the write: it fails with the error of the first check that fails and
    writes nothing, or it writes the patch to the row of the host. *)
Theorem init_patch_lifts_freeze
    (env : collaborators) (req : request) (id : pyval) (host_meta : dict)
    (Hinit : get host_meta "os_status" = PStr "init") :
  (forall st field,
     fst (update_host env req id host_meta st) <> Err (HTTP Forbidden (Frozen field))) /\
  (forall orig_host_meta os_status root_disk root_lv_size role_lists,
     let stored := <["os_status" := os_status]> orig_host_meta in
     frozen host_meta stored = false /\
     update_host_root_disk host_meta stored =
       update_host_root_disk host_meta orig_host_meta /\
     update_host_root_lv_size host_meta stored root_disk =
       update_host_root_lv_size host_meta orig_host_meta root_disk /\
     update_host_swap_lv_size env host_meta stored root_lv_size role_lists =
       update_host_swap_lv_size env host_meta orig_host_meta root_lv_size role_lists /\
     update_host_root_pwd host_meta stored =
       update_host_root_pwd host_meta orig_host_meta /\
     update_host_isolcpus host_meta stored =
       update_host_isolcpus host_meta orig_host_meta /\
     update_host_hugepages host_meta stored =
       update_host_hugepages host_meta orig_host_meta /\
     update_host_hugepagesize host_meta stored =
       update_host_hugepagesize host_meta orig_host_meta) /\
  (forall st row host_meta' st' field,
     update_host env req id host_meta st = (Ok (row, host_meta'), st') ->
     In field reinstall_fields -> truthy (get host_meta field) = true ->
     In row (hosts st') /\ get row field = get host_meta field) /\
  (forall st orig_host_meta,
     policy_allows req "update_host" = true ->
     find_row "id" id (hosts st) = Some orig_host_meta ->
     truthy (get orig_host_meta "deleted") = false ->
     host_meta !! "interfaces" = None -> host_meta !! "cluster" = None ->
     host_meta !! "role" = None -> host_meta !! "resource_type" = None ->
     host_meta !! "config_set_id" = None ->
     update_host env req id host_meta st =
       match ordinary_checks env host_meta orig_host_meta (roles st) with
       | Ok host_meta' =>
           (Ok (dict_update host_meta' orig_host_meta, host_meta'),
            set_hosts (update_rows id host_meta') st)
       | Err e => (Err e, st)
       end).
Proof.
  split; [|split; [|split]].
  - intros st field H.
    destruct (update_host env req id host_meta st) as [r st'] eqn:E. cbn [fst] in H. subst r.
    exact (update_host_init_not_frozen env req id host_meta Hinit st _ st' E field eq_refl).
  - intros orig os_status rd n roles stored.
    split; [now apply frozen_init|].
    split; [now apply root_disk_any_status|].
    split; [now apply root_lv_size_any_status|].
    split; [now apply swap_lv_size_any_status|].
    split; [now apply root_pwd_any_status|].
    split; [now apply isolcpus_any_status|].
    split; [now apply hugepages_any_status|now apply hugepagesize_any_status].
  - intros st row hmF st' field H Hin Ht.
    exact (update_host_init_persists env req id host_meta st row hmF st' field
             Hinit Hin Ht H).
  - intros st orig. now apply update_host_init_run.
Qed.

(** On the sample host, which is active, a patch with os_status 'init'
    changes all seven fields: the update goes through and the registry
    holds the new values. *)
Lemma init_patch_lifts_freeze_witness :
  get Sample.reinstall "os_status" = PStr "init" /\
  get Sample.active_host "os_status" = PStr "active" /\
  fst (update_host Sample.env Sample.req (PStr "h1") Sample.reinstall Sample.st_active)
    <> Err (HTTP Forbidden (Frozen "root_disk")) /\
  is_ok (ordinary_checks Sample.env Sample.reinstall Sample.active_host
           (roles Sample.st_active)) = true /\
  update_host Sample.env Sample.req (PStr "h1") Sample.reinstall Sample.st_active =
    match ordinary_checks Sample.env Sample.reinstall Sample.active_host
            (roles Sample.st_active) with
    | Ok host_meta' =>
        (Ok (dict_update host_meta' Sample.active_host, host_meta'),
         set_hosts (update_rows (PStr "h1") host_meta') Sample.st_active)
    | Err e => (Err e, Sample.st_active)
    end /\
  List.map
    (get (stored_row (update_host Sample.env Sample.req (PStr "h1") Sample.reinstall
                        Sample.st_active)))
    reinstall_fields
  = [PStr "sdb"; PStr "204800"; PStr "8192"; PStr "new"; PStr "1-3,5";
     PStr "2"; PStr "2M"].
Proof.
  assert (Hinit : get Sample.reinstall "os_status" = PStr "init") by reflexivity.
  destruct (init_patch_lifts_freeze Sample.env Sample.req (PStr "h1") Sample.reinstall Hinit)
    as (P1 & _ & _ & P4).
  split; [exact Hinit|]. split; [reflexivity|]. split; [apply P1|].
  split; [vm_compute; reflexivity|].
  split; [apply P4; reflexivity|].
  vm_compute. reflexivity.
Defined.

Lemma active_host_root_disk_frozen_witness :
  find_row "id" (PStr "h1") (hosts Sample.st_active) = Some Sample.active_host /\
  get Sample.active_host "os_status" = PStr "active" /\
  get Sample.other_root_disk "os_status" <> PStr "init" /\
  update_host Sample.env Sample.req (PStr "h1") Sample.other_root_disk Sample.st_active
    = (Err (HTTP Forbidden (Frozen "root_disk")), Sample.st_active) /\
  update_host_root_disk Sample.no_root_disk Sample.active_host
    = Ok (<["root_disk" := PStr "sda"]> Sample.no_root_disk, PNone).
Proof.
  assert (H1 : find_row "id" (PStr "h1") (hosts Sample.st_active) = Some Sample.active_host)
    by reflexivity.
  assert (H2 : get Sample.active_host "os_status" = PStr "active") by reflexivity.
  assert (H3 : get Sample.other_root_disk "os_status" <> PStr "init")
    by (vm_compute; discriminate).
  assert (H4 : get Sample.no_root_disk "os_status" <> PStr "init")
    by (vm_compute; discriminate).
  split; [exact H1|]. split; [exact H2|]. split; [exact H3|]. split.
  - destruct (active_host_root_disk_frozen Sample.env Sample.req (PStr "h1")
                Sample.other_root_disk Sample.st_active Sample.active_host H1 H2 H3)
      as [P _].
    destruct (P "sdb") as [_ Q]; [reflexivity|discriminate|vm_compute; discriminate|].
    apply Q; try reflexivity. vm_compute. eauto.
  - destruct (active_host_root_disk_frozen Sample.env Sample.req (PStr "h1")
                Sample.no_root_disk Sample.st_active Sample.active_host H1 H2 H4)
      as [_ P].
    destruct P as [Q _]; [reflexivity|]. exact Q.
Defined.

(** C1, as stated, fails. On the active sample host a patch with the empty
    text as root_disk (another value than the stored 'sda') is not refused:
    the update goes through and the stored value is carried forward. And
    when a patch with another root_disk also names an unsupported resource
    type, the update fails with NotFound, not Forbidden. *)
Lemma root_disk_change_not_forbidden :
  get Sample.active_host "os_status" = PStr "active" /\
  get Sample.active_host "root_disk" = PStr "sda" /\
  get Sample.empty_root_disk "os_status" = PNone /\
  Sample.empty_root_disk !! "root_disk" = Some (PStr "") /\
  is_ok (fst (update_host Sample.env Sample.req (PStr "h1") Sample.empty_root_disk
                Sample.st_active)) = true /\
  get (stored_row (update_host Sample.env Sample.req (PStr "h1") Sample.empty_root_disk
                     Sample.st_active)) "root_disk" = PStr "sda" /\
  get Sample.other_root_disk_bad_type "os_status" = PNone /\
  get Sample.other_root_disk_bad_type "root_disk" = PStr "sdb" /\
  update_host Sample.env Sample.req (PStr "h1") Sample.other_root_disk_bad_type
    Sample.st_active
  = (Err (HTTP NotFound (Why "resource type is not supported")), Sample.st_active).
Proof. repeat split; vm_compute; reflexivity. Qed.

(** A patch without a name meets the subscript [host_meta['name']] of the
    freeze message before the Forbidden is raised. *)
Lemma root_disk_change_without_name :
  update_host Sample.env Sample.req (PStr "h1") Sample.other_root_disk_no_name
    Sample.st_active
  = (Err (Uncaught (KeyError "name")), Sample.st_active).
Proof. vm_compute. reflexivity. Qed.

(** ** Scenarios on the sample data *)

(** C2 asks that the slave sets of two different bonds do not overlap, and
    so does the docstring of [check_bond_slaves_validity] ("can not be
    overlap between slaves members"); the code never compares two bonds.
    Two bonds over the same two ether interfaces pass the check, and a
    request with them passes the whole interface validation of
    [add_host]. *)
Theorem bonds_sharing_slaves_accepted :
  check_bond_slaves_validity
    [PList [PStr "eth0"; PStr "eth1"]; PList [PStr "eth0"; PStr "eth1"]]
    [PStr "eth0"; PStr "eth1"] = Ok tt /\
  _check_add_host_interfaces Sample.env Sample.req
    (Sample.add_request "[eth0, eth1, bond0, bond1]") Sample.st_empty
  = (Ok (Sample.add_request "[eth0, eth1, bond0, bond1]"), Sample.st_empty).
Proof. split; vm_compute; reflexivity. Qed.

Lemma duplicate_pci_rejected_duplicate_mac_logged_witness :
  eval Sample.env (PStr "[eth0, eth1 with the mac of eth0]")
    = Ok (PList (PDict <$> [Sample.eth0; Sample.eth1_same_mac])) /\
  text_names [Sample.eth0; Sample.eth1_same_mac] /\
  fst (_verify_interface_in_same_host Sample.env (PStr "[eth0, eth1 with the mac of eth0]")
         Sample.st_empty)
  = Ok tt /\
  log (snd (_verify_interface_in_same_host Sample.env
              (PStr "[eth0, eth1 with the mac of eth0]") Sample.st_empty))
  = [[PStr "eth0"; PStr "eth1"]] /\
  fst (_verify_interface_in_same_host Sample.env (PStr "[eth0, eth1 with the pci of eth0]")
         Sample.st_empty)
  = Err same_pci_error.
Proof.
  assert (H1 : eval Sample.env (PStr "[eth0, eth1 with the mac of eth0]")
               = Ok (PList (PDict <$> [Sample.eth0; Sample.eth1_same_mac]))) by reflexivity.
  assert (H2 : eval Sample.env (PStr "[eth0, eth1 with the pci of eth0]")
               = Ok (PList (PDict <$> [Sample.eth0; Sample.eth1_same_pci]))) by reflexivity.
  assert (N1 : text_names [Sample.eth0; Sample.eth1_same_mac]).
  { repeat constructor; intros _; eexists; reflexivity. }
  assert (N2 : text_names [Sample.eth0; Sample.eth1_same_pci]).
  { repeat constructor; intros _; eexists; reflexivity. }
  split; [exact H1|]. split; [exact N1|].
  destruct (duplicate_pci_rejected_duplicate_mac_logged Sample.env _ _ Sample.st_empty H1 N1)
    as (_ & Q & P & _).
  split; [apply P; vm_compute; reflexivity|]. split.
  - destruct (Q Sample.eth0 Sample.eth1_same_mac "eth0" "eth1" "ether" "ether"
                "aa:bb:cc:dd:ee:01") as (_ & L & _);
      try reflexivity; try discriminate; cbn; auto.
  - destruct (duplicate_pci_rejected_duplicate_mac_logged Sample.env _ _ Sample.st_empty H2 N2)
      as (R & _).
    rewrite (R Sample.eth0 Sample.eth1_same_pci "eth0" "eth1" "0000:00:03.0");
      try reflexivity; try discriminate; cbn; auto.
Defined.

(** C8, as stated, fails for interfaces without a type, which are not
    bonds: two of them with the same mac and different names pass, and no
    warning is logged. *)
Lemma duplicate_mac_untyped_not_logged :
  eval Sample.env (PStr "[eth0, eth1 with the mac of eth0, both without a type]")
    = Ok (PList (PDict <$> [Sample.untyped Sample.eth0;
                            Sample.untyped Sample.eth1_same_mac])) /\
  get (Sample.untyped Sample.eth0) "mac" = get (Sample.untyped Sample.eth1_same_mac) "mac" /\
  get (Sample.untyped Sample.eth0) "mac" = PStr "aa:bb:cc:dd:ee:01" /\
  get (Sample.untyped Sample.eth0) "name" = PStr "eth0" /\
  get (Sample.untyped Sample.eth1_same_mac) "name" = PStr "eth1" /\
  get (Sample.untyped Sample.eth0) "type" = PNone /\
  get (Sample.untyped Sample.eth1_same_mac) "type" = PNone /\
  _verify_interface_in_same_host Sample.env
    (PStr "[eth0, eth1 with the mac of eth0, both without a type]") Sample.st_empty
  = (Ok tt, Sample.st_empty) /\
  log Sample.st_empty = [].
Proof. repeat split; vm_compute; reflexivity. Qed.

Lemma discovery_batch_start_witness :
  exists threads st2,
    discover_host_bin ∅ Sample.st_active = (Ok threads, st2) /\
    ~ In (Sample.discover "d1" "10.0.0.5" "init") threads /\
    exists r2, find_row "id" (PStr "d1") (discover_hosts st2) = Some r2 /\
               get r2 "status" = PStr "DISCOVERY_SUCCESSFUL" /\
               get r2 "host_id" = PStr "h1".
Proof.
  assert (Hkeys : Forall (fun r => exists j, get r "id" = PStr j)
                    (discover_hosts Sample.st_active)).
  { repeat constructor; eexists; reflexivity. }
  assert (Hnodup : NoDup (List.map (fun r => get r "id") (discover_hosts Sample.st_active))).
  { vm_compute. repeat (constructor; [rewrite list_elem_of_In; cbn; intuition discriminate|]).
    constructor. }
  assert (Hhosts : Forall (fun h => truthy (get h "id") = true) (hosts Sample.st_active)).
  { repeat constructor. }
  destruct (discovery_batch_start ∅ Sample.st_active Hkeys Hnodup Hhosts)
    as (_ & _ & _ & threads & st2 & Hrun & P).
  exists threads, st2. split; [exact Hrun|].
  destruct (P (Sample.discover "d1" "10.0.0.5" "init")
              (<["host_id" := PStr "h1"]> Sample.eth0))
    as (Hn & r2 & F & S & Hh); [left; reflexivity|reflexivity|].
  split; [exact Hn|]. exists r2. split; [exact F|]. split; [exact S|exact Hh].
Defined.

Lemma discover_host_resubmission_witness :
  policy_allows Sample.req "add_discover_host" = true /\
  List.find (fun r => py_eqb (get r "ip") (PStr "10.0.0.9")) (discover_hosts Sample.st_active)
    = Some (Sample.discover "d2" "10.0.0.9" "DISCOVERY_FAILED") /\
  exists row,
    add_discover_host Sample.env Sample.req (Sample.resubmit "10.0.0.9") Sample.st_active
    = (Ok row,
       set_discover_hosts
         (update_rows (PStr "d2")
            (reset_info (Sample.resubmit "10.0.0.9")
               (Sample.discover "d2" "10.0.0.9" "DISCOVERY_FAILED"))) Sample.st_active) /\
    get (dict_update (reset_info (Sample.resubmit "10.0.0.9")
                        (Sample.discover "d2" "10.0.0.9" "DISCOVERY_FAILED"))
           (Sample.discover "d2" "10.0.0.9" "DISCOVERY_FAILED")) "status" = PStr "init".
Proof.
  assert (H1 : policy_allows Sample.req "add_discover_host" = true) by reflexivity.
  assert (H2 : List.find (fun r => py_eqb (get r "ip") (PStr "10.0.0.9"))
                 (discover_hosts Sample.st_active)
               = Some (Sample.discover "d2" "10.0.0.9" "DISCOVERY_FAILED")) by reflexivity.
  split; [exact H1|]. split; [exact H2|].
  destruct (discover_host_resubmission Sample.env Sample.req (Sample.resubmit "10.0.0.9")
              (Sample.discover "d2" "10.0.0.9" "DISCOVERY_FAILED") Sample.st_active
              "10.0.0.9" "d2" H1 ltac:(reflexivity) ltac:(discriminate) H2
              ltac:(reflexivity)) as (_ & P & _).
  destruct (P ltac:(reflexivity)) as (row & E & _ & S & _ & _).
  exists row. split; [exact E|exact S].
Defined.

(** C6, as stated, fails for one of the two terminal states: a request for
    the ip of a record that is DISCOVERY_SUCCESSFUL is refused, and the
    record keeps its status. *)
Lemma resubmission_of_successful_refused :
  In (Sample.discover "d3" "10.0.0.7" "DISCOVERY_SUCCESSFUL")
     (discover_hosts Sample.st_active) /\
  add_discover_host Sample.env Sample.req (Sample.resubmit "10.0.0.7") Sample.st_active
  = (Err already_discovered, Sample.st_active).
Proof. split; [cbn; auto|vm_compute; reflexivity]. Qed.

Lemma add_host_on_registered_mac_witness :
  add_host Sample.env Sample.req (Sample.add_request "[pxe0]") Sample.st_active
    = (Err active_host_error, Sample.st_active) /\
  _check_add_host_interfaces Sample.env Sample.req (Sample.add_request "[pxe0]")
    Sample.st_failed
  = as_update (update_host Sample.env Sample.req (PStr "h1")
                 (<["id" := PStr "h1"]> (Sample.add_request "[pxe0]")) Sample.st_failed) /\
  add_host Sample.env Sample.req (Sample.add_request "[pxe0]") Sample.st_active_dmi
    = (Err dmi_conflict, Sample.st_active_dmi).
Proof.
  assert (Hm : forall h d s, node_matches Sample.pxe0
                               (<["discover_state" := s]> (Sample.host "h1" h d))).
  { intros h d s. split; [reflexivity|]. exists [Sample.eth0], Sample.eth0.
    split; reflexivity. }
  assert (Hargs : forall st,
    add_host_begin Sample.env Sample.req (Sample.add_request "[pxe0]") st
      = (Ok (Sample.add_request "[pxe0]"), st) /\
    Sample.add_request "[pxe0]" !! "interfaces" = Some (PStr "[pxe0]") /\
    eval Sample.env (PStr "[pxe0]") = Ok (PList (PDict <$> [Sample.pxe0])) /\
    text_names [Sample.pxe0] /\
    same_pci_list [Sample.pxe0] = [] /\
    List.filter is_deployment_marked [Sample.pxe0] = [Sample.pxe0]).
  { intros st0. repeat split; try reflexivity.
    repeat constructor. intros _. eexists. reflexivity. }
  split; [|split].
  - destruct (Hargs Sample.st_active) as (A1 & A2 & A3 & A4 & A5 & A6).
    assert (Hrows : forall h, In h (hosts Sample.st_active) ->
              find_row "id" (get h "id") (hosts Sample.st_active) = Some h).
    { intros h [<-|[]]. reflexivity. }
    assert (Hget : get_host Sample.env Sample.req (get Sample.active_host "id")
                     (logged [Sample.pxe0] Sample.st_active)
                   = (Ok (<["discover_state" := PStr "SSH:init"]> Sample.active_host),
                      logged [Sample.pxe0] Sample.st_active))
      by (vm_compute; reflexivity).
    destruct (add_host_on_registered_mac Sample.env Sample.req
                (Sample.add_request "[pxe0]") (Sample.add_request "[pxe0]")
                Sample.st_active Sample.st_active (PStr "[pxe0]") [Sample.pxe0] Sample.pxe0
                [] [] Sample.active_host [] _ A1 A2 A3 A4 A5 A6 Hrows eq_refl
                (List.Forall_nil _) Hget (Hm "active" PNone _) eq_refl) as [_ P].
    destruct (P eq_refl) as [Q _]. destruct (Q eq_refl) as [E _]. exact E.
  - destruct (Hargs Sample.st_failed) as (A1 & A2 & A3 & A4 & A5 & A6).
    assert (Hrows : forall h, In h (hosts Sample.st_failed) ->
              find_row "id" (get h "id") (hosts Sample.st_failed) = Some h).
    { intros h [<-|[]]. reflexivity. }
    assert (Hget : get_host Sample.env Sample.req (get Sample.failed_host "id")
                     (logged [Sample.pxe0] Sample.st_failed)
                   = (Ok (<["discover_state" := PNone]> Sample.failed_host),
                      logged [Sample.pxe0] Sample.st_failed))
      by (vm_compute; reflexivity).
    destruct (add_host_on_registered_mac Sample.env Sample.req
                (Sample.add_request "[pxe0]") (Sample.add_request "[pxe0]")
                Sample.st_failed Sample.st_failed (PStr "[pxe0]") [Sample.pxe0] Sample.pxe0
                [] [] Sample.failed_host [] _ A1 A2 A3 A4 A5 A6 Hrows eq_refl
                (List.Forall_nil _) Hget (Hm "failed" PNone _) eq_refl) as [_ P].
    destruct (P eq_refl) as [_ Q]. apply Q. vm_compute. discriminate.
  - destruct (Hargs Sample.st_active_dmi) as (A1 & A2 & A3 & A4 & A5 & A6).
    assert (Hrows : forall h, In h (hosts Sample.st_active_dmi) ->
              find_row "id" (get h "id") (hosts Sample.st_active_dmi) = Some h).
    { intros h [<-|[]]. reflexivity. }
    assert (Hget : get_host Sample.env Sample.req (get Sample.active_host_dmi "id")
                     (logged [Sample.pxe0] Sample.st_active_dmi)
                   = (Ok (<["discover_state" := PNone]> Sample.active_host_dmi),
                      logged [Sample.pxe0] Sample.st_active_dmi))
      by (vm_compute; reflexivity).
    destruct (add_host_on_registered_mac Sample.env Sample.req
                (Sample.add_request "[pxe0]") (Sample.add_request "[pxe0]")
                Sample.st_active_dmi Sample.st_active_dmi (PStr "[pxe0]") [Sample.pxe0]
                Sample.pxe0 [] [] Sample.active_host_dmi [] _ A1 A2 A3 A4 A5 A6 Hrows eq_refl
                (List.Forall_nil _) Hget (Hm "active" _ _) eq_refl) as [P _].
    destruct (P eq_refl) as [E _]. exact E.
Defined.

(** C10, as stated, fails when the registered host has another dmi_uuid
    than the request: [add_host] then fails with Forbidden, not BadRequest,
    although the host is active. *)
Lemma add_host_on_registered_mac_dmi_conflict :
  get Sample.active_host_dmi "os_status" = PStr "active" /\
  get Sample.pxe0 "mac" = get Sample.eth0 "mac" /\
  add_host Sample.env Sample.req (Sample.add_request "[pxe0]") Sample.st_active_dmi
  = (Err dmi_conflict, Sample.st_active_dmi).
Proof. vm_compute. repeat split; reflexivity. Qed.

Lemma password_fill_policy_witness :
  exists out,
    KollaConfig.update_password_yml demo_rsa demo_uuid4 demo_choice demo_passwords = Ok out /\
    out !! "keystone_admin_password" = Some (PStr "keystone") /\
    out !! "rabbitmq_password" = Some (PStr "guest").
Proof.
  assert (Hssh : forall k v, demo_passwords !! k = Some v ->
            KollaConfig.mem k KollaConfig.ssh_keys = true ->
            v = PNone \/ exists d, v = PDict d).
  { intros k v Hk Hm. unfold KollaConfig.mem, KollaConfig.ssh_keys in Hm.
    cbn [existsb] in Hm. rewrite orb_false_r in Hm. apply String.eqb_eq in Hm. subst k.
    vm_compute in Hk. injection Hk as <-. right. eexists. reflexivity. }
  destruct (password_fill_policy demo_rsa demo_uuid4 demo_choice demo_passwords Hssh)
    as (out & E & P).
  exists out. split; [exact E|]. split.
  - apply (P "keystone_admin_password" PNone); reflexivity.
  - apply (P "rabbitmq_password" (PStr "guest")); [reflexivity|reflexivity|discriminate].
Defined.

(** C3, as stated, fails on the sample file: the ssh key pair has a value
    (a pair with two empty halves), and it is replaced by a generated
    pair. *)
Lemma password_fill_counterexample :
  exists out,
    KollaConfig.update_password_yml demo_rsa demo_uuid4 demo_choice demo_passwords = Ok out /\
    demo_passwords !! "nova_ssh_key"
      = Some (PDict (list_to_map [("private_key", PNone); ("public_key", PNone)])) /\
    out !! "nova_ssh_key" = Some (KollaConfig.keypair demo_rsa 0) /\
    out !! "nova_ssh_key" <> demo_passwords !! "nova_ssh_key".
Proof.
  exists (match KollaConfig.update_password_yml demo_rsa demo_uuid4 demo_choice demo_passwords
          with Ok out => out | Err _ => ∅ end).
  split; [vm_compute; reflexivity|].
  split; [reflexivity|].
  split; [vm_compute; reflexivity|].
  vm_compute. discriminate.
Qed.

(** The UUID-typed key of the sample file does not keep the UUID drawn for
    it: the branch of the keystone key has an [else] that overwrites it with
    forty random characters. *)
Lemma uuid_key_receives_random_password :
  exists out,
    KollaConfig.update_password_yml demo_rsa demo_uuid4 demo_choice demo_passwords = Ok out /\
    demo_passwords !! "ceph_cluster_fsid" = Some PNone /\
    out !! "ceph_cluster_fsid" = Some (PStr (KollaConfig.random_password demo_choice 1)) /\
    out !! "ceph_cluster_fsid" <> Some (PStr (demo_uuid4 0)).
Proof.
  exists (match KollaConfig.update_password_yml demo_rsa demo_uuid4 demo_choice demo_passwords
          with Ok out => out | Err _ => ∅ end).
  split; [vm_compute; reflexivity|].
  split; [reflexivity|].
  split; [vm_compute; reflexivity|].
  vm_compute. discriminate.
Qed.
